(** * mic_level_monitor: broker connection lifecycle and edge-triggered publishing

    A shallow embedding of the Python sources

      - [mic_level_monitor/mqtt/client.py]          (class [MQTTClient])
      - [mic_level_monitor/audio/microphone.py]     (class [MicrophoneManager])
      - [mic_level_monitor/ui/layout.py]            (class [MonitorUI], state only)
      - [mic_level_monitor/monitoring/processor.py] (class [MicrophoneMonitor])
      - [main.py]                                   (class [MicrophoneMonitorTUI])
      - [mic_level_monitor/config/config_manager.py] (class [ConfigManager])
      - [mic_level_monitor/__main__.py]             (the options [main()] reads)

    Python objects are records, methods are programs in a small monad that
    threads the object, the wall clock and the list of calls made on the
    outside world (the paho client, the console, [time.sleep]).  What the
    outside world answers (the return code of a paho [publish], whether it
    raises, what [is_connected()] reports, what a stream read yields) is an
    argument of the method that asks for it.

    Conventions.
      - Python [int] is [Z]; Python [float] values that the program only
        copies or compares (levels, thresholds, times, durations) are exact
        rationals [Q], and so is the count of nanoseconds that
        [time.sleep] makes of a duration; [str] is [string].
      - A loop iteration is executed atomically: the threads of the program
        interleave between iterations and callbacks, not inside them.
      - The wall clock never runs backwards: [time.sleep d] returns no
        earlier than [d] seconds later.
      - Calls of the paho client other than [publish], [disconnect] and
        [connect_async] do not raise, and neither does the error
        callback. *)

From Stdlib Require Import ZArith QArith Qround Lqa List String Bool Lia.
From Stdlib Require Import Decimal DecimalString DecimalZ DecimalPos.
Import ListNotations.

Local Open Scope string_scope.
Local Open Scope Z_scope.

(** ** Python values *)

(** [str(n)] for a Python [int]. *)
Definition str_int (n : Z) : string := NilZero.string_of_int (Z.to_int n).

(** [int(x)] for a Python [float]: truncation towards zero. *)
Definition py_int (x : Q) : Z :=
  if Qle_bool 0 x then Qfloor x else Qceiling x.

(** [a > b] on numbers. *)
Definition Qgtb (a b : Q) : bool := negb (Qle_bool a b).

(** A duration that cannot be negative: scheduling delay added to a sleep. *)
Definition Delay : Type := (N * positive)%type.
Definition delay_Q (d : Delay) : Q := Z.of_N (fst d) # snd d.

(** ** The outside world *)

(** The payloads the program hands to paho. *)
Inductive Payload : Type :=
| StatusJson (status : string)
    (* json.dumps({"status": status}) *)
| MicJson (state : Z) (level : Q) (timestamp : Q)
    (* json.dumps({"state": state, "level": float(level), "timestamp": t}) *)
| RawText (s : string).
    (* a plain str, as in publish("microphones/ping", "ping") *)

(** What a call of paho's [publish] does: it returns a [MQTTMessageInfo]
    with a return code, or it raises. *)
Inductive PubOutcome : Type :=
| PubRc (rc : Z)
| PubRaises (e : string).

Definition MQTT_ERR_SUCCESS : Z := 0.

(** paho's [ReasonCode]: compared with [== 0] by value, formatted by name. *)
Record ReasonCode : Type := mkReasonCode { rc_value : Z; rc_text : string }.

(** paho's [DisconnectFlags], a named tuple with one field, and [str] of
    it. *)
Record DisconnectFlags : Type := mkDisconnectFlags {
  is_disconnect_packet_from_server : bool
}.

Definition str_flags (f : DisconnectFlags) : string :=
  "DisconnectFlags(is_disconnect_packet_from_server="
    ++ (if is_disconnect_packet_from_server f then "True" else "False")
    ++ ")".

(** Calls made on the outside world, in program order. *)
Inductive Event : Type :=
| Publish (cid topic : string) (payload : Payload) (qos : Z) (retain : bool)
          (o : PubOutcome)
| LoopStart (cid : string)
| LoopStop (cid : string)
| Disconnect (cid : string) (raised : bool)
| NewClient (cid : string)
| ConnectAsync (cid host : string) (port keepalive : Z) (raised : option string)
| ErrorCallback (msg : string)
| Slept (d : Q)
| Printed (msg : string).

(** What [stream.read(chunk_size)] does: it yields samples, of which
    [np.abs(audio_data).mean()] is the level, or it raises. *)
Inductive StreamRead : Type :=
| Level (level : Q)
| ReadFails (e : string).

(** What the outside world answers during one iteration of the loop of
    the status thread. *)
Record ProbeInput : Type := mkProbe {
  reported_connected   : bool;           (* is_connected() *)
  ping                 : PubOutcome;     (* the publish of the ping *)
  fr_disconnect_raises : option string;  (* in force_reconnection *)
  fr_connect_raises    : option string;  (* in force_reconnection *)
  fr_late              : Delay;          (* in force_reconnection *)
  sleep_late           : Delay           (* the sleep that ends the iteration *)
}.

(** What the outside world answers during one iteration of the loop of
    the monitoring thread. *)
Record TickInput : Type := mkTick {
  left_read  : StreamRead;
  right_read : StreamRead;
  left_pub   : PubOutcome;    (* the publish for the left channel, if any *)
  right_pub  : PubOutcome;    (* the publish for the right channel, if any *)
  tick_late  : Delay
}.

(** ** Expressions both variants of the monitoring loop use *)

(** [1 if level > threshold else 0]. *)
Definition active_of (level threshold : Q) : Z :=
  if Qgtb level threshold then 1 else 0.

(** The publish decision: [active != last_state or active == 1]. *)
Definition should_publish (active last_state : Z) : bool :=
  negb (active =? last_state) || (active =? 1).

(** ** Programs *)

Inductive Outcome (A : Type) : Type :=
| Returned (a : A)
| Raised (e : string).
Arguments Returned {A} a.
Arguments Raised {A} e.

Record Res (S A : Type) : Type := mkRes {
  res : Outcome A;     (* value returned, or exception raised *)
  st  : S;             (* the object afterwards *)
  clk : Q;             (* time.time() afterwards *)
  evs : list Event     (* calls made, oldest first *)
}.
Arguments mkRes {S A}.
Arguments res {S A}.
Arguments st {S A}.
Arguments clk {S A}.
Arguments evs {S A}.

Definition Prog (S A : Type) : Type := S -> Q -> Res S A.

Definition ret {S A} (a : A) : Prog S A :=
  fun s t => mkRes (Returned a) s t [].

Definition raise {S A} (e : string) : Prog S A :=
  fun s t => mkRes (Raised e) s t [].

Definition bind {S A B} (p : Prog S A) (k : A -> Prog S B) : Prog S B :=
  fun s t =>
    match p s t with
    | mkRes (Returned a) s1 t1 es1 =>
        match k a s1 t1 with
        | mkRes x s2 t2 es2 => mkRes x s2 t2 (es1 ++ es2)
        end
    | mkRes (Raised e) s1 t1 es1 => mkRes (Raised e) s1 t1 es1
    end.

(** [try: p  except Exception as e: h e].  Assignments made before the
    exception stay. *)
Definition try_except {S A} (p : Prog S A) (h : string -> Prog S A) : Prog S A :=
  fun s t =>
    match p s t with
    | mkRes (Returned a) s1 t1 es1 => mkRes (Returned a) s1 t1 es1
    | mkRes (Raised e) s1 t1 es1 =>
        match h e s1 t1 with
        | mkRes x s2 t2 es2 => mkRes x s2 t2 (es1 ++ es2)
        end
    end.

Definition get {S} : Prog S S := fun s t => mkRes (Returned s) s t [].
Definition modify {S} (f : S -> S) : Prog S unit :=
  fun s t => mkRes (Returned tt) (f s) t [].
Definition emit {S} (e : Event) : Prog S unit :=
  fun s t => mkRes (Returned tt) s t [e].

(** [time.time()]. *)
Definition time_time {S} : Prog S Q := fun s t => mkRes (Returned t) s t [].

(** The range of a C [_PyTime_t], a count of nanoseconds in 64 bits. *)
Definition _PyTime_MIN : Z := -9223372036854775808.
Definition _PyTime_MAX : Z := 9223372036854775807.

(** What [time.sleep(d)] raises, if it does, in CPython 3.11.  The length
    is first converted to nanoseconds in a [_PyTime_t], rounding away
    from zero, and [OverflowError] is raised when the result is out of
    range, whatever its sign; a negative length in range is then refused
    with [ValueError].  Rounding away from zero takes a number beyond an
    integer bound exactly when the number is beyond it, so the test is
    made on the exact product.  Lengths are rationals: the infinities and
    the NaN of a [float] are not modelled. *)
Definition sleep_error (d : Q) : option string :=
  let ns := (d * 1000000000)%Q in
  if Qle_bool (inject_Z _PyTime_MIN) ns && Qle_bool ns (inject_Z _PyTime_MAX)
  then
    if Qle_bool 0 d then None
    else Some "sleep length must be non-negative"
  else Some "timestamp too large to convert to C _PyTime_t".

(** [time.sleep(d)]: when it does not raise, the caller resumes [d]
    seconds later, or later still. *)
Definition time_sleep {S} (d : Q) (late : Delay) : Prog S unit :=
  fun s t =>
    match sleep_error d with
    | None => mkRes (Returned tt) s (t + d + delay_Q late)%Q [Slept d]
    | Some e => mkRes (Raised e) s t []
    end.

Declare Scope prog_scope.
Delimit Scope prog_scope with prog.
Notation "x <- p ;; k" := (bind p (fun x => k))
  (at level 61, p at next level, right associativity) : prog_scope.
Notation "p ;; k" := (bind p (fun _ => k))
  (at level 61, right associativity) : prog_scope.
Local Open Scope prog_scope.

(** [if c: p] with no [else]. *)
Definition when {S} (c : bool) (p : Prog S unit) : Prog S unit :=
  if c then p else ret tt.

(** ** Configuration ([config_manager.py], the keys the core reads) *)

Record Config : Type := mkConfig {
  mqtt_broker          : string;   (* config["mqtt"]["broker"] *)
  mqtt_port            : Z;        (* config["mqtt"]["port"] *)
  mqtt_client_id       : string;   (* config["mqtt"]["client_id"] *)
  topic_left           : string;   (* config["mqtt"]["topics"]["left"] *)
  topic_right          : string;   (* config["mqtt"]["topics"]["right"] *)
  audio_threshold      : Q;        (* config["audio"]["threshold"] *)
  audio_check_interval : Q         (* config["audio"]["check_interval"] *)
}.

(** [ConfigManager.get_default_config()]. *)
Definition default_config : Config :=
  mkConfig "localhost" 1883 "mic_monitor"
           "microphones/left" "microphones/right" (500 # 1) (2 # 10).

(** ** config/config_manager.py *)

Module ConfigManager.

(** A value in a configuration: what [toml.load] yields and what the
    program stores.  A dict keeps its keys in insertion order. *)
#[warnings="-register-all"] Inductive Value : Type :=
| VInt (n : Z)
| VFloat (x : Q)
| VBool (b : bool)
| VStr (s : string)
| VOther (type_name : string)            (* a date or a time *)
| VList (l : list Value)                 (* a TOML array *)
| VDict (d : list (string * Value)).

Definition Dict : Type := list (string * Value).

(** [d.get(k)]; [k in d] is [dict_get k d <> None]. *)
Fixpoint dict_get (k : string) (d : Dict) : option Value :=
  match d with
  | [] => None
  | (k', v) :: d' => if String.eqb k k' then Some v else dict_get k d'
  end.

(** [d[k] = v]: a key that is present keeps its place. *)
Fixpoint dict_set (k : string) (v : Value) (d : Dict) : Dict :=
  match d with
  | [] => [(k, v)]
  | (k', v') :: d' =>
      if String.eqb k k' then (k, v) :: d' else (k', v') :: dict_set k v d'
  end.

(** [d.update(other)]. *)
Definition dict_update (d other : Dict) : Dict :=
  fold_left (fun d kv => dict_set (fst kv) (snd kv) d) other d.

(** [type(v).__name__]. *)
Definition type_name_of (v : Value) : string :=
  match v with
  | VInt _ => "int"
  | VFloat _ => "float"
  | VBool _ => "bool"
  | VStr _ => "str"
  | VOther n => n
  | VList _ => "list"
  | VDict _ => "dict"
  end.

(** pyaudio's sample format constants; the values are PortAudio's. *)
Definition paFloat32 : Z := 1.
Definition paInt32 : Z := 2.
Definition paInt24 : Z := 4.
Definition paInt16 : Z := 8.
Definition paInt8 : Z := 16.

(** [format_map.get(key, default)] for a dict literal with int keys. *)
Definition map_get (format_map : list (Z * Z)) (key default : Z) : Z :=
  match find (fun kv => fst kv =? key) format_map with
  | Some kv => snd kv
  | None => default
  end.

(** [_convert_sample_format(format_code)], for an int. *)
Definition _convert_sample_format (format_code : Z) : Z :=
  map_get [(8, paInt8); (16, paInt16); (24, paInt24); (32, paInt32);
           (33, paFloat32); (34, paInt24)]
          format_code paInt16.

(** The number a value is when used as a dict key among ints: [True] is 1,
    [8.0] is 8. *)
Definition as_number (v : Value) : option Q :=
  match v with
  | VInt n => Some (inject_Z n)
  | VBool b => Some (if b then 1%Q else 0%Q)
  | VFloat x => Some x
  | _ => None
  end.

(** [_convert_sample_format_to_code(format_const)]: the stored value may
    be anything; a list or a dict cannot be a key. *)
Definition _convert_sample_format_to_code (format_const : Value)
  : Outcome Z :=
  let format_map := [(paInt8, 8); (paInt16, 16); (paInt24, 24);
                     (paInt32, 32); (paFloat32, 33)] in
  match format_const with
  | VList _ | VDict _ =>
      Raised ("unhashable type: '" ++ type_name_of format_const ++ "'")
  | _ =>
      match as_number format_const with
      | Some x =>
          match find (fun kv => Qeq_bool (inject_Z (fst kv)) x) format_map with
          | Some kv => Returned (snd kv)
          | None => Returned 16
          end
      | None => Returned 16
      end
  end.

(** [get_default_config()]. *)
Definition get_default_config : Dict :=
  [("mqtt", VDict [("broker", VStr "localhost");
                   ("port", VInt 1883);
                   ("client_id", VStr "mic_monitor");
                   ("topics", VDict [("left", VStr "microphones/left");
                                     ("right", VStr "microphones/right")])]);
   ("audio", VDict [("chunk_size", VInt 1024);
                    ("sample_format", VInt paInt16);
                    ("channels", VInt 1);
                    ("rate", VInt 44100);
                    ("threshold", VInt 500);
                    ("check_interval", VFloat (2 # 10))]);
   ("ui", VDict [("refresh_rate", VFloat (1 # 10))])].

(** [_merge_configs(base_config, override_config)], by recursion on the
    override. *)
Fixpoint merge_value (base : Dict) (override : Value) {struct override}
  : Dict :=
  match override with
  | VDict o =>
      (fix items (o : list (string * Value)) (base : Dict) {struct o} : Dict :=
         match o with
         | [] => base
         | (key, value) :: rest =>
             items rest
               (match dict_get key base, value with
                | Some (VDict b), VDict _ =>
                    dict_set key (VDict (merge_value b value)) base
                | _, _ => dict_set key value base
                end)
         end) o base
  | _ => base
  end.

Definition _merge_configs (base_config override_config : Dict) : Dict :=
  merge_value base_config (VDict override_config).

(** What is found of a configuration file: [os.path.exists] is false; or
    opening or parsing it raises; or [toml.load] yields a dict. *)
Inductive File : Type :=
| Absent
| Broken (e : string)
| Holds (d : Dict).

(** The [if os.path.exists(file): try: ... except ...] of [load_config]. *)
Definition load_file {S} (what : string) (f : File) (config : Dict)
  : Prog S Dict :=
  match f with
  | Absent => ret config
  | Broken e =>
      emit (Printed ("Error loading " ++ what ++ " config file: " ++ e)) ;;
      ret config
  | Holds d => ret (_merge_configs config d)
  end.

(** [x in v] for a str [x], for a value [v] that may not be a container. *)
Definition contains (x : string) (v : Value) : Outcome bool :=
  match v with
  | VDict d =>
      Returned (match dict_get x d with Some _ => true | None => false end)
  | VList l =>
      Returned (existsb (fun e => match e with
                                  | VStr s => String.eqb s x
                                  | _ => false
                                  end) l)
  | VStr s =>
      Returned (match index 0 x s with Some _ => true | None => false end)
  | _ =>
      Raised ("argument of type '" ++ type_name_of v ++ "' is not iterable")
  end.

(** [v[x]] for a str [x], where [x in v] holds. *)
Definition subscript (x : string) (v : Value) : Outcome Value :=
  match v with
  | VDict d =>
      match dict_get x d with
      | Some w => Returned w
      | None => Raised x
      end
  | VList _ => Raised "list indices must be integers or slices, not str"
  | VStr _ => Raised "string indices must be integers"
  | _ => Raised ("'" ++ type_name_of v ++ "' object is not subscriptable")
  end.

(** [isinstance(v, int)]: a bool is an int. *)
Definition as_int (v : Value) : option Z :=
  match v with
  | VInt n => Some n
  | VBool b => Some (if b then 1 else 0)
  | _ => None
  end.

(** The last step of [load_config]: a numeric sample format becomes the
    pyaudio constant. *)
Definition convert_loaded {S} (config : Dict) : Prog S Dict :=
  match dict_get "audio" config with
  | None => ret config
  | Some audio =>
      match contains "sample_format" audio with
      | Raised e => raise e
      | Returned false => ret config
      | Returned true =>
          match subscript "sample_format" audio with
          | Raised e => raise e
          | Returned v =>
              match as_int v, audio with
              | Some code, VDict a =>
                  ret (dict_set "audio"
                         (VDict (dict_set "sample_format"
                                   (VInt (_convert_sample_format code)) a))
                         config)
              | _, _ => ret config
              end
          end
      end
  end.

(** [load_config()]; the arguments are what is found of
    [default_config.toml] and of the user's file. *)
Definition load_config {S} (default_file user_file : File) : Prog S Dict :=
  config <- load_file "default" default_file get_default_config ;;
  config <- load_file "user" user_file config ;;
  convert_loaded config.

(** [_create_saveable_config(config)]: the copy that is written. *)
Definition _create_saveable_config (config : Dict) : Outcome Dict :=
  match dict_get "audio" config with
  | None => Returned config
  | Some audio =>
      match contains "sample_format" audio with
      | Raised e => Raised e
      | Returned false => Returned config
      | Returned true =>
          match subscript "sample_format" audio with
          | Raised e => Raised e
          | Returned v =>
              match _convert_sample_format_to_code v, audio with
              | Raised e, _ => Raised e
              | Returned code, VDict a =>
                  Returned (dict_set "audio"
                              (VDict (dict_set "sample_format" (VInt code) a))
                              config)
              | Returned _, _ => Returned config
              end
          end
      end
  end.

(** [self._update_config(config)] of [MicrophoneMonitor] and of
    [MicrophoneMonitorTUI]; the state is [self.config]. *)
Fixpoint _update_config (config : Dict) : Prog Dict unit :=
  match config with
  | [] => ret tt
  | (section, values) :: rest =>
      self_config <- get ;;
      match dict_get section self_config, values with
      | Some (VDict d), VDict vs =>
          modify (dict_set section (VDict (dict_update d vs)))
      | Some other, VDict _ =>
          raise ("'" ++ type_name_of other
                     ++ "' object has no attribute 'update'")
      | _, _ => modify (dict_set section values)
      end ;;
      _update_config rest
  end.

(** The options of the command line that [main()] turns into a
    configuration. *)
Record Args : Type := mkArgs {
  broker    : option string;
  port      : option Z;
  threshold : option Z
}.

(** What [if x:] lets through, for an optional str and an optional int:
    not [None], not the empty string, not 0. *)
Definition if_str (x : option string) : option string :=
  match x with
  | Some s => if String.eqb s "" then None else Some s
  | None => None
  end.
Definition if_int (x : option Z) : option Z :=
  match x with
  | Some n => if n =? 0 then None else Some n
  | None => None
  end.

(** The [config] that [main()] builds from the arguments. *)
Definition cli_config (args : Args) : Dict :=
  let config := [] in
  let config :=
    match if_str (broker args), if_int (port args) with
    | None, None => config
    | b, p =>
        let mqtt := [] in
        let mqtt := match b with
                    | Some x => dict_set "broker" (VStr x) mqtt
                    | None => mqtt
                    end in
        let mqtt := match p with
                    | Some x => dict_set "port" (VInt x) mqtt
                    | None => mqtt
                    end in
        dict_set "mqtt" (VDict mqtt) config
    end in
  match if_int (threshold args) with
  | Some n => dict_set "audio" (VDict [("threshold", VInt n)]) config
  | None => config
  end.

(** [__init__(config)] of a monitor, as far as [self.config] goes:
    [load_config()], then [_update_config(config)] unless [config] is
    empty. *)
Definition init_config (default_file user_file : File) (config : Dict)
  : Prog Dict unit :=
  loaded <- load_config default_file user_file ;;
  modify (fun _ => loaded) ;;
  match config with
  | [] => ret tt
  | _ => _update_config config
  end.

(** The value at the end of a path of keys. *)
Fixpoint lookup_path (path : list string) (v : Value) : option Value :=
  match path with
  | [] => Some v
  | k :: path' =>
      match v with
      | VDict d =>
          match dict_get k d with
          | Some w => lookup_path path' w
          | None => None
          end
      | _ => None
      end
  end.

(** Every dict inside has each key once, as a Python dict does. *)
Fixpoint well_formed (v : Value) : Prop :=
  match v with
  | VDict d =>
      NoDup (map fst d)
      /\ (fix all (d : list (string * Value)) : Prop :=
            match d with
            | [] => True
            | (_, w) :: d' => well_formed w /\ all d'
            end) d
  | VList l =>
      (fix all (l : list Value) : Prop :=
         match l with
         | [] => True
         | w :: l' => well_formed w /\ all l'
         end) l
  | _ => True
  end.

(** The override says nothing about the path: a key on the way is missing
    from it, and down to there it holds dicts. *)
Fixpoint untouched (path : list string) (override : Dict) : Prop :=
  match path with
  | [] => False
  | k :: path' =>
      match dict_get k override with
      | None => True
      | Some (VDict o) => untouched path' o
      | Some _ => False
      end
  end.

(** A configuration file that says nothing about the path. *)
Definition says_nothing_about (path : list string) (f : File) : Prop :=
  match f with
  | Holds d => well_formed (VDict d) /\ untouched path d
  | _ => True
  end.

(** A configuration file that leaves the audio section a section. *)
Definition keeps_audio_section (f : File) : Prop :=
  match f with
  | Holds d =>
      NoDup (map fst d)
      /\ match dict_get "audio" d with
         | None | Some (VDict _) => True
         | Some _ => False
         end
  | _ => True
  end.

(** The keys the core reads, as it reads them. *)
Definition as_Q (v : Value) : option Q :=
  match v with
  | VInt n => Some (inject_Z n)
  | VFloat x => Some x
  | _ => None
  end.

Definition core_config (config : Dict) : option Config :=
  match lookup_path ["mqtt"; "broker"] (VDict config),
        lookup_path ["mqtt"; "port"] (VDict config),
        lookup_path ["mqtt"; "client_id"] (VDict config),
        lookup_path ["mqtt"; "topics"; "left"] (VDict config),
        lookup_path ["mqtt"; "topics"; "right"] (VDict config),
        lookup_path ["audio"; "threshold"] (VDict config),
        lookup_path ["audio"; "check_interval"] (VDict config) with
  | Some (VStr b), Some (VInt p), Some (VStr cid), Some (VStr l),
    Some (VStr r), Some th, Some ci =>
      match as_Q th, as_Q ci with
      | Some th, Some ci => Some (mkConfig b p cid l r th ci)
      | _, _ => None
      end
  | _, _, _, _, _, _, _ => None
  end.

Definition is_dict (v : Value) : bool :=
  match v with
  | VDict _ => true
  | _ => false
  end.

(** What one iteration of the loop of [_update_config] leaves under a
    section, from what [self.config] holds there and what is given for
    it; [None] when the iteration raises instead. *)
Definition updated_section (held : option Value) (values : Value)
    : option Value :=
  match held, values with
  | Some (VDict d), VDict vs => Some (VDict (dict_update d vs))
  | Some _, VDict _ => None
  | _, _ => Some values
  end.

(** The sections of [config] are all such that the iteration for them
    returns. *)
Definition can_update (self_config config : Dict) : Prop :=
  Forall (fun item =>
            updated_section (dict_get (fst item) self_config) (snd item)
            <> None) config.

(** What [self.config] holds under a section after the loop has gone
    through [config]. *)
Definition after_update (self_config config : Dict) (section : string)
    : option Value :=
  match dict_get section config with
  | Some values => updated_section (dict_get section self_config) values
  | None => dict_get section self_config
  end.

End ConfigManager.

(** ** The paho client *)

Module Paho.

(** The paho [mqtt.Client] object, as far as the program configures it. *)
Record PahoClient : Type := mkPaho {
  client_id       : string;
  clean_session   : bool;
  will            : option (string * Payload * Z * bool);   (* will_set *)
  reconnect_delay : option (Z * Z);        (* reconnect_delay_set(min, max) *)
  loop_running    : bool                   (* loop_start / loop_stop *)
}.

(** [mqtt.Client(client_id=cid, ..., clean_session=True)]. *)
Definition new_paho (cid : string) : PahoClient :=
  mkPaho cid true None None false.

(** The arguments of [will_set] in this program. *)
Definition last_will : string * Payload * Z * bool :=
  ("microphones/status", StatusJson "offline", 1, true).

Definition set_will (w : string * Payload * Z * bool) (p : PahoClient) :=
  mkPaho (client_id p) (clean_session p) (Some w) (reconnect_delay p)
         (loop_running p).
Definition set_reconnect_delay (lo hi : Z) (p : PahoClient) :=
  mkPaho (client_id p) (clean_session p) (will p) (Some (lo, hi))
         (loop_running p).
Definition set_loop_running (b : bool) (p : PahoClient) :=
  mkPaho (client_id p) (clean_session p) (will p) (reconnect_delay p) b.

(** Calls on the paho client held in a field of an object of type [S]. *)
Section Calls.

Context {S : Type} (field : S -> PahoClient) (set_field : PahoClient -> S -> S).

(** [publish(topic, payload, qos, retain)] answering [o]: the return code
    of the message info, or the exception. *)
Definition publish (o : PubOutcome) (topic : string) (payload : Payload)
    (qos : Z) (retain : bool) : Prog S Z :=
  s <- get ;;
  emit (Publish (client_id (field s)) topic payload qos retain o) ;;
  match o with
  | PubRc rc => ret rc
  | PubRaises e => raise e
  end.

Definition loop_start : Prog S unit :=
  s <- get ;;
  emit (LoopStart (client_id (field s))) ;;
  modify (fun s => set_field (set_loop_running true (field s)) s).

Definition loop_stop : Prog S unit :=
  s <- get ;;
  emit (LoopStop (client_id (field s))) ;;
  modify (fun s => set_field (set_loop_running false (field s)) s).

(** [disconnect()], which raises when [raises] is set. *)
Definition disconnect (raises : option string) : Prog S unit :=
  s <- get ;;
  emit (Disconnect (client_id (field s))
                   (match raises with Some _ => true | None => false end)) ;;
  match raises with
  | Some e => raise e
  | None => ret tt
  end.

(** [connect_async(host, port, keepalive)], which raises when [raises] is
    set. *)
Definition connect_async (raises : option string) (host : string)
    (port keepalive : Z) : Prog S unit :=
  s <- get ;;
  emit (ConnectAsync (client_id (field s)) host port keepalive raises) ;;
  match raises with
  | Some e => raise e
  | None => ret tt
  end.

End Calls.

End Paho.

(** ** mqtt/client.py *)

Module Client.

Import Paho.

Record MQTTClient : Type := mkClient {
  config             : Config;
  mqtt_connected     : bool;
  mqtt_reconnecting  : bool;
  reconnect_attempts : Z;
  error_message      : string;
  error_callback     : bool;       (* whether a callback was given *)
  mqtt_messages_sent : Z;
  last_message_time  : Q;
  last_message       : option (string * Payload);
      (* None is the empty string, Some (topic, payload) is
         f"{topic}: {payload}" *)
  running            : bool;
  mqtt_client        : PahoClient
}.

(** [MQTTClient.__init__]. *)
Definition init (cfg : Config) (callback : bool) : MQTTClient :=
  mkClient cfg false false 0 "" callback 0 0 None false
           (new_paho (mqtt_client_id cfg)).

Definition set_mqtt_connected (b : bool) (c : MQTTClient) : MQTTClient :=
  mkClient (config c) b (mqtt_reconnecting c) (reconnect_attempts c)
    (error_message c) (error_callback c) (mqtt_messages_sent c)
    (last_message_time c) (last_message c) (running c) (mqtt_client c).
Definition set_mqtt_reconnecting (b : bool) (c : MQTTClient) : MQTTClient :=
  mkClient (config c) (mqtt_connected c) b (reconnect_attempts c)
    (error_message c) (error_callback c) (mqtt_messages_sent c)
    (last_message_time c) (last_message c) (running c) (mqtt_client c).
Definition set_reconnect_attempts (n : Z) (c : MQTTClient) : MQTTClient :=
  mkClient (config c) (mqtt_connected c) (mqtt_reconnecting c) n
    (error_message c) (error_callback c) (mqtt_messages_sent c)
    (last_message_time c) (last_message c) (running c) (mqtt_client c).
Definition set_error_message (m : string) (c : MQTTClient) : MQTTClient :=
  mkClient (config c) (mqtt_connected c) (mqtt_reconnecting c)
    (reconnect_attempts c) m (error_callback c) (mqtt_messages_sent c)
    (last_message_time c) (last_message c) (running c) (mqtt_client c).
Definition set_mqtt_messages_sent (n : Z) (c : MQTTClient) : MQTTClient :=
  mkClient (config c) (mqtt_connected c) (mqtt_reconnecting c)
    (reconnect_attempts c) (error_message c) (error_callback c) n
    (last_message_time c) (last_message c) (running c) (mqtt_client c).
Definition set_last_message_time (t : Q) (c : MQTTClient) : MQTTClient :=
  mkClient (config c) (mqtt_connected c) (mqtt_reconnecting c)
    (reconnect_attempts c) (error_message c) (error_callback c)
    (mqtt_messages_sent c) t (last_message c) (running c) (mqtt_client c).
Definition set_last_message (m : option (string * Payload)) (c : MQTTClient)
  : MQTTClient :=
  mkClient (config c) (mqtt_connected c) (mqtt_reconnecting c)
    (reconnect_attempts c) (error_message c) (error_callback c)
    (mqtt_messages_sent c) (last_message_time c) m (running c) (mqtt_client c).
Definition set_running (b : bool) (c : MQTTClient) : MQTTClient :=
  mkClient (config c) (mqtt_connected c) (mqtt_reconnecting c)
    (reconnect_attempts c) (error_message c) (error_callback c)
    (mqtt_messages_sent c) (last_message_time c) (last_message c) b
    (mqtt_client c).
Definition set_mqtt_client (p : PahoClient) (c : MQTTClient) : MQTTClient :=
  mkClient (config c) (mqtt_connected c) (mqtt_reconnecting c)
    (reconnect_attempts c) (error_message c) (error_callback c)
    (mqtt_messages_sent c) (last_message_time c) (last_message c) (running c) p.

Definition on_paho (f : PahoClient -> PahoClient) (c : MQTTClient) : MQTTClient :=
  set_mqtt_client (f (mqtt_client c)) c.
(** Calls on [self.mqtt_client]. *)
Definition paho_publish := Paho.publish mqtt_client.
Definition paho_loop_start := Paho.loop_start mqtt_client set_mqtt_client.
Definition paho_loop_stop := Paho.loop_stop mqtt_client set_mqtt_client.
Definition paho_disconnect := Paho.disconnect mqtt_client.
Definition paho_connect_async := Paho.connect_async mqtt_client.

(** [if self.error_callback: self.error_callback(self.error_message)]. *)
Definition call_error_callback : Prog MQTTClient unit :=
  c <- get ;;
  when (error_callback c) (emit (ErrorCallback (error_message c))).

(** *** Methods of [MQTTClient] *)

(** [on_mqtt_connect(client, userdata, flags, reason_code, properties)];
    [o] is what the publish of the online status does. *)
Definition on_mqtt_connect (reason_code : ReasonCode) (o : PubOutcome)
  : Prog MQTTClient unit :=
  (if rc_value reason_code =? 0 then
     modify (set_mqtt_connected true) ;;
     modify (set_mqtt_reconnecting false) ;;
     modify (set_reconnect_attempts 0) ;;
     modify (set_error_message "") ;;
     try_except
       (_ <- paho_publish o "microphones/status" (StatusJson "online") 1 true ;;
        ret tt)
       (fun e =>
          modify (set_error_message ("Failed to publish online status: " ++ e)))
   else
     modify (set_mqtt_connected false) ;;
     modify (set_error_message
               ("Failed to connect to MQTT broker: " ++ rc_text reason_code))) ;;
  call_error_callback.

(** [on_mqtt_disconnect(client, userdata, reason_code, properties, *args)].
    The client is created with [CallbackAPIVersion.VERSION2], for which
    paho calls [on_disconnect(client, userdata, disconnect_flags,
    reason_code, properties)]: the parameter that the method names
    [reason_code] receives the flags, and [properties] the reason code. *)
Definition on_mqtt_disconnect (reason_code : DisconnectFlags)
    (properties : ReasonCode) : Prog MQTTClient unit :=
  modify (set_mqtt_connected false) ;;
  modify (set_mqtt_reconnecting true) ;;
  modify (set_error_message
            ("Disconnected from MQTT broker: " ++ str_flags reason_code)) ;;
  call_error_callback.

(** [connect()]; [raises] is what [connect_async] does. *)
Definition connect (raises : option string) : Prog MQTTClient bool :=
  try_except
    (modify (on_paho (set_reconnect_delay 1 10)) ;;
     modify (on_paho (set_will last_will)) ;;
     c <- get ;;
     paho_connect_async raises (mqtt_broker (config c)) (mqtt_port (config c)) 60 ;;
     paho_loop_start ;;
     ret true)
    (fun e =>
       modify (set_error_message ("Failed to connect to MQTT broker: " ++ e)) ;;
       call_error_callback ;;
       ret false).

(** [disconnect()]; [o] is what the publish of the offline status does,
    [reported_connected] what [is_connected()] answers, [disc_raises] what
    paho's [disconnect()] does if it is called. *)
Definition disconnect (o : PubOutcome) (reported_connected : bool)
    (disc_raises : option string) : Prog MQTTClient unit :=
  try_except
    (_ <- paho_publish o "microphones/status" (StatusJson "offline") 1 true ;;
     ret tt)
    (fun e =>
       modify (set_error_message ("Failed to publish offline status: " ++ e))) ;;
  call_error_callback ;;
  modify (set_running false) ;;
  paho_loop_stop ;;
  when reported_connected (paho_disconnect disc_raises).

(** [publish(topic, payload)]; [o] is what paho's publish does. *)
Definition publish (o : PubOutcome) (topic : string) (payload : Payload)
  : Prog MQTTClient bool :=
  c <- get ;;
  if negb (mqtt_connected c) then ret false
  else
    try_except
      (rc <- paho_publish o topic payload 0 false ;;
       if rc =? MQTT_ERR_SUCCESS then
         c <- get ;;
         modify (set_mqtt_messages_sent (mqtt_messages_sent c + 1)) ;;
         now <- time_time ;;
         modify (set_last_message_time now) ;;
         modify (set_last_message (Some (topic, payload))) ;;
         ret true
       else
         modify (set_error_message
                   ("MQTT publish failed with code: " ++ str_int rc)) ;;
         call_error_callback ;;
         ret false)
      (fun e =>
         modify (set_error_message ("Error publishing to MQTT: " ++ e)) ;;
         call_error_callback ;;
         ret false).

(** [force_reconnection()]; [disc_raises] and [conn_raises] are what the
    paho [disconnect] and [connect_async] do, [late] how much longer than
    one second the sleep takes. *)
Definition force_reconnection (disc_raises conn_raises : option string)
    (late : Delay) : Prog MQTTClient bool :=
  try_except
    (paho_loop_stop ;;
     try_except (paho_disconnect disc_raises) (fun _ => ret tt) ;;
     modify (set_mqtt_connected false) ;;
     modify (set_mqtt_reconnecting true) ;;
     c <- get ;;
     modify (set_reconnect_attempts (reconnect_attempts c + 1)) ;;
     time_sleep 1 late ;;
     now <- time_time ;;
     let cid := mqtt_client_id (config c) ++ "_" ++ str_int (py_int now) in
     emit (NewClient cid) ;;
     modify (set_mqtt_client (new_paho cid)) ;;
     modify (on_paho (set_reconnect_delay 1 30)) ;;
     modify (on_paho (set_will last_will)) ;;
     paho_connect_async conn_raises
       (mqtt_broker (config c)) (mqtt_port (config c)) 60 ;;
     paho_loop_start ;;
     c <- get ;;
     modify (set_error_message
               ("Forcing reconnection (attempt "
                  ++ str_int (reconnect_attempts c) ++ ")...")) ;;
     call_error_callback ;;
     ret true)
    (fun e =>
       modify (set_error_message ("Reconnection failed: " ++ e)) ;;
       call_error_callback ;;
       ret false).

(** *** The status thread *)

(** The frame of [_status_check_thread]: [self] and the local variable. *)
Record StatusThread : Type := mkStatus {
  self               : MQTTClient;
  disconnected_count : Z
}.

Definition set_self (c : MQTTClient) (s : StatusThread) : StatusThread :=
  mkStatus c (disconnected_count s).
Definition set_disconnected_count (n : Z) (s : StatusThread) : StatusThread :=
  mkStatus (self s) n.

(** A method of [self] called from the thread. *)
Definition on_self {A} (p : Prog MQTTClient A) : Prog StatusThread A :=
  fun s t =>
    match p (self s) t with
    | mkRes x c t1 es => mkRes x (set_self c s) t1 es
    end.

Definition incr_disconnected_count : Prog StatusThread unit :=
  s <- get ;;
  modify (set_disconnected_count (disconnected_count s + 1)).

(** First half of the loop body: probe the connection. *)
Definition probe (i : ProbeInput) : Prog StatusThread unit :=
  if reported_connected i then
    try_except
      (rc <- on_self (paho_publish (ping i) "microphones/ping" (RawText "ping")
                                   0 false) ;;
       if rc =? MQTT_ERR_SUCCESS then
         on_self (modify (set_mqtt_connected true)) ;;
         modify (set_disconnected_count 0) ;;
         on_self (modify (set_mqtt_reconnecting false))
       else
         incr_disconnected_count)
      (fun _ => incr_disconnected_count)
  else
    incr_disconnected_count ;;
    on_self (modify (set_mqtt_connected false)).

(** Second half of the loop body: act on the count. *)
Definition update_status (i : ProbeInput) : Prog StatusThread unit :=
  s <- get ;;
  when (3 <=? disconnected_count s)
    (on_self (modify (set_mqtt_connected false)) ;;
     on_self (modify (set_error_message "Disconnected from MQTT broker")) ;;
     on_self call_error_callback ;;
     s <- get ;;
     when (disconnected_count s =? 5)
       (_ <- on_self (force_reconnection (fr_disconnect_raises i)
                                         (fr_connect_raises i) (fr_late i)) ;;
        modify (set_disconnected_count 0))).

(** One iteration of [while self.running] in [_status_check_thread]. *)
Definition status_check (i : ProbeInput) : Prog StatusThread unit :=
  try_except
    (probe i ;;
     update_status i ;;
     time_sleep 2 (sleep_late i))
    (fun e =>
       on_self (modify (set_error_message ("Connection check error: " ++ e))) ;;
       on_self call_error_callback ;;
       time_sleep 2 (sleep_late i)).

(** [_status_check_thread()] from a frame, for as many iterations as the
    outside world has answers; it stops when [self.running] is cleared. *)
Fixpoint status_check_loop (inputs : list ProbeInput) : Prog StatusThread unit :=
  match inputs with
  | [] => ret tt
  | i :: rest =>
      s <- get ;;
      if running (self s) then status_check i ;; status_check_loop rest
      else ret tt
  end.

(** [_status_check_thread()]: the count starts at 0. *)
Definition _status_check_thread (inputs : list ProbeInput)
  : Prog MQTTClient unit :=
  fun c t =>
    match status_check_loop inputs (mkStatus c 0) t with
    | mkRes x s t1 es => mkRes x (self s) t1 es
    end.

(** [start_status_check()], with the thread it starts run to its end. *)
Definition start_status_check (inputs : list ProbeInput)
  : Prog MQTTClient unit :=
  modify (set_running true) ;;
  _status_check_thread inputs.

End Client.

(** ** audio/microphone.py *)

Module Microphone.

Record MicrophoneManager : Type := mkMic {
  left_stream  : bool;     (* an open stream, or None *)
  right_stream : bool
}.

(** [read_mic_level(stream)]. *)
Definition read_mic_level (r : StreamRead) : Prog MicrophoneManager Q :=
  try_except
    (match r with
     | Level level => ret level
     | ReadFails e => raise e
     end)
    (fun e =>
       emit (Printed ("Error reading microphone data: " ++ e)) ;;
       ret 0%Q).

(** [read_levels()]. *)
Definition read_levels (l r : StreamRead) : Prog MicrophoneManager (Q * Q) :=
  m <- get ;;
  left_level <- (if left_stream m then read_mic_level l else ret 0%Q) ;;
  right_level <- (if right_stream m then read_mic_level r else ret 0%Q) ;;
  ret (left_level, right_level).

End Microphone.

(** ** ui/layout.py: the state the renderer reads *)

Module UI.

Record MonitorUI : Type := mkUI {
  left_level         : Q;
  left_active        : Z;
  right_level        : Q;
  right_active       : Z;
  mqtt_connected     : bool;
  mqtt_reconnecting  : bool;
  reconnect_attempts : Z;
  mqtt_messages_sent : Z;
  last_message_time  : Q;
  last_message       : option (string * Payload);
  error_message      : string
}.

(** [MonitorUI.__init__]. *)
Definition init : MonitorUI :=
  mkUI 0 0 0 0 false false 0 0 0 None "".

(** [update_state(left_level=.., left_active=.., right_level=..,
    right_active=.., mqtt_connected=.., mqtt_reconnecting=..,
    reconnect_attempts=..)]. *)
Definition update_readings (ll : Q) (la : Z) (rl : Q) (ra : Z)
    (conn reconn : bool) (attempts : Z) (u : MonitorUI) : MonitorUI :=
  mkUI ll la rl ra conn reconn attempts
       (mqtt_messages_sent u) (last_message_time u) (last_message u)
       (error_message u).

(** [update_state(mqtt_messages_sent=.., last_message_time=..,
    last_message=..)]. *)
Definition update_messages (sent : Z) (t : Q) (m : option (string * Payload))
    (u : MonitorUI) : MonitorUI :=
  mkUI (left_level u) (left_active u) (right_level u) (right_active u)
       (mqtt_connected u) (mqtt_reconnecting u) (reconnect_attempts u)
       sent t m (error_message u).

(** [self.error_message = msg]. *)
Definition set_error_message (msg : string) (u : MonitorUI) : MonitorUI :=
  mkUI (left_level u) (left_active u) (right_level u) (right_active u)
       (mqtt_connected u) (mqtt_reconnecting u) (reconnect_attempts u)
       (mqtt_messages_sent u) (last_message_time u) (last_message u) msg.

End UI.

(** ** monitoring/processor.py *)

Module Processor.

Record MicrophoneMonitor : Type := mkMonitor {
  config           : Config;
  ui               : UI.MonitorUI;
  mic_manager      : Microphone.MicrophoneManager;
  mqtt_client      : Client.MQTTClient;
  running          : bool;
  left_last_state  : Z;
  right_last_state : Z
}.

(** [MicrophoneMonitor.__init__], with the streams as [open_streams]
    leaves them. *)
Definition init (cfg : Config) (left_open right_open : bool)
  : MicrophoneMonitor :=
  mkMonitor cfg UI.init (Microphone.mkMic left_open right_open)
            (Client.init cfg true) false 0 0.

Definition set_ui (u : UI.MonitorUI) (m : MicrophoneMonitor) :=
  mkMonitor (config m) u (mic_manager m) (mqtt_client m) (running m)
            (left_last_state m) (right_last_state m).
Definition set_mic_manager (x : Microphone.MicrophoneManager)
    (m : MicrophoneMonitor) :=
  mkMonitor (config m) (ui m) x (mqtt_client m) (running m)
            (left_last_state m) (right_last_state m).
Definition set_mqtt_client (c : Client.MQTTClient) (m : MicrophoneMonitor) :=
  mkMonitor (config m) (ui m) (mic_manager m) c (running m)
            (left_last_state m) (right_last_state m).
Definition set_running (b : bool) (m : MicrophoneMonitor) :=
  mkMonitor (config m) (ui m) (mic_manager m) (mqtt_client m) b
            (left_last_state m) (right_last_state m).
Definition set_left_last_state (s : Z) (m : MicrophoneMonitor) :=
  mkMonitor (config m) (ui m) (mic_manager m) (mqtt_client m) (running m)
            s (right_last_state m).
Definition set_right_last_state (s : Z) (m : MicrophoneMonitor) :=
  mkMonitor (config m) (ui m) (mic_manager m) (mqtt_client m) (running m)
            (left_last_state m) s.
Definition on_ui (f : UI.MonitorUI -> UI.MonitorUI) (m : MicrophoneMonitor) :=
  set_ui (f (ui m)) m.

(** [_handle_mqtt_error(error_message)]. *)
Definition _handle_mqtt_error (error_message : string)
  : Prog MicrophoneMonitor unit :=
  modify (on_ui (UI.set_error_message error_message)) ;;
  emit (Printed error_message).

(** The calls a method of [self.mqtt_client] made, as the monitor sees
    them: each call of the error callback runs [_handle_mqtt_error]. *)
Fixpoint deliver (es : list Event) : Prog MicrophoneMonitor unit :=
  match es with
  | [] => ret tt
  | ErrorCallback msg :: es' => _handle_mqtt_error msg ;; deliver es'
  | e :: es' => emit e ;; deliver es'
  end.

(** A method of [self.mqtt_client] called from the monitor. *)
Definition on_mqtt_client {A} (p : Prog Client.MQTTClient A)
  : Prog MicrophoneMonitor A :=
  fun m t =>
    match p (mqtt_client m) t with
    | mkRes x c t1 es =>
        match deliver es (set_mqtt_client c m) t1 with
        | mkRes _ m2 t2 es2 => mkRes x m2 t2 es2
        end
    end.

(** A method of [self.mic_manager] called from the monitor. *)
Definition on_mic_manager {A} (p : Prog Microphone.MicrophoneManager A)
  : Prog MicrophoneMonitor A :=
  fun m t =>
    match p (mic_manager m) t with
    | mkRes x mic t1 es => mkRes x (set_mic_manager mic m) t1 es
    end.

(** [publish_mic_state(topic, state, level)]. *)
Definition publish_mic_state (o : PubOutcome) (topic : string) (state : Z)
    (level : Q) : Prog MicrophoneMonitor unit :=
  now <- time_time ;;
  ok <- on_mqtt_client (Client.publish o topic (MicJson state level now)) ;;
  when ok
    (m <- get ;;
     modify (on_ui (UI.update_messages
                      (Client.mqtt_messages_sent (mqtt_client m))
                      (Client.last_message_time (mqtt_client m))
                      (Client.last_message (mqtt_client m))))).

(** One iteration of [while self.running] in [monitoring_thread]. *)
Definition monitoring_tick (i : TickInput) : Prog MicrophoneMonitor unit :=
  m <- get ;;
  let threshold := audio_threshold (config m) in
  let left_topic := topic_left (config m) in
  let right_topic := topic_right (config m) in
  try_except
    (levels <- on_mic_manager
                 (Microphone.read_levels (left_read i) (right_read i)) ;;
     let left_level := fst levels in
     let right_level := snd levels in
     let left_active := active_of left_level threshold in
     let right_active := active_of right_level threshold in
     m <- get ;;
     modify (on_ui (UI.update_readings left_level left_active
                      right_level right_active
                      (Client.mqtt_connected (mqtt_client m))
                      (Client.mqtt_reconnecting (mqtt_client m))
                      (Client.reconnect_attempts (mqtt_client m)))) ;;
     when (Client.mqtt_connected (mqtt_client m))
       (m <- get ;;
        when (should_publish left_active (left_last_state m))
          (publish_mic_state (left_pub i) left_topic left_active left_level ;;
           modify (set_left_last_state left_active)) ;;
        m <- get ;;
        when (should_publish right_active (right_last_state m))
          (publish_mic_state (right_pub i) right_topic right_active
                             right_level ;;
           modify (set_right_last_state right_active))) ;;
     m <- get ;;
     time_sleep (audio_check_interval (config m)) (tick_late i))
    (fun e =>
       modify (on_ui (UI.set_error_message ("Error monitoring: " ++ e))) ;;
       time_sleep 1 (tick_late i)).

(** [monitoring_thread()], for as many iterations as the outside world has
    answers; it stops when [self.running] is cleared. *)
Fixpoint monitoring_thread (inputs : list TickInput)
  : Prog MicrophoneMonitor unit :=
  match inputs with
  | [] => ret tt
  | i :: rest =>
      m <- get ;;
      if running m then monitoring_tick i ;; monitoring_thread rest
      else ret tt
  end.

End Processor.

(** ** The running program: both threads and paho's callbacks *)

Module App.

(** The monitor object and the local variable of the status thread, whose
    [self] is the monitor's [mqtt_client]. *)
Record App : Type := mkApp {
  monitor      : Processor.MicrophoneMonitor;
  status_count : Z
}.

(** What happens next: an iteration of one of the two loops, or paho's
    network thread calling back. *)
Inductive Step : Type :=
| MonitorTick (i : TickInput)
| StatusTick (i : ProbeInput)
| ConnAck (reason_code : ReasonCode) (o : PubOutcome)   (* on_connect *)
| ConnLost (disconnect_flags : DisconnectFlags) (reason_code : ReasonCode).
                                                        (* on_disconnect *)

Definition on_monitor {A} (p : Prog Processor.MicrophoneMonitor A)
  : Prog App A :=
  fun a t =>
    match p (monitor a) t with
    | mkRes x m t1 es => mkRes x (mkApp m (status_count a)) t1 es
    end.

Definition on_status_thread {A} (p : Prog Client.StatusThread A)
  : Prog App A :=
  fun a t =>
    match p (Client.mkStatus (Processor.mqtt_client (monitor a))
                             (status_count a)) t with
    | mkRes x s t1 es =>
        match Processor.deliver es
                (Processor.set_mqtt_client (Client.self s) (monitor a))
                t1 with
        | mkRes _ m2 t2 es2 =>
            mkRes x (mkApp m2 (Client.disconnected_count s)) t2 es2
        end
    end.

Definition step (e : Step) : Prog App unit :=
  a <- get ;;
  match e with
  | MonitorTick i =>
      when (Processor.running (monitor a))
        (on_monitor (Processor.monitoring_tick i))
  | StatusTick i =>
      when (Client.running (Processor.mqtt_client (monitor a)))
        (on_status_thread (Client.status_check i))
  | ConnAck reason_code o =>
      on_monitor (Processor.on_mqtt_client
                    (Client.on_mqtt_connect reason_code o))
  | ConnLost disconnect_flags reason_code =>
      on_monitor (Processor.on_mqtt_client
                    (Client.on_mqtt_disconnect disconnect_flags reason_code))
  end.

Fixpoint run (es : list Step) : Prog App unit :=
  match es with
  | [] => ret tt
  | e :: rest => step e ;; run rest
  end.

(** [start_monitoring()] up to the start of the two threads: the streams
    are open, [connect()] and [start_status_check()] have been called and
    [self.running] is set. *)
Definition start_monitoring (conn_raises : option string) : Prog App unit :=
  _ <- on_monitor (Processor.on_mqtt_client (Client.connect conn_raises)) ;;
  on_monitor (Processor.on_mqtt_client (modify (Client.set_running true))) ;;
  modify (fun a => mkApp (monitor a) 0) ;;
  on_monitor (modify (Processor.set_running true)).

(** The objects as the constructors leave them, with both streams open. *)
Definition fresh (cfg : Config) : App :=
  mkApp (Processor.init cfg true true) 0.

(** The program from its start at time [t0], for a configuration and a
    schedule. *)
Definition execute (cfg : Config) (conn_raises : option string)
    (es : list Step) (t0 : Q) : Res App unit :=
  (start_monitoring conn_raises ;; run es) (fresh cfg) t0.

End App.
(** ** main.py: the single-class variant *)

Module Tui.

Record MicrophoneMonitorTUI : Type := mkTui {
  config             : Config;
  mqtt_client        : Paho.PahoClient;
  left_stream        : bool;   (* an open stream, or None *)
  right_stream       : bool;
  left_last_state    : Z;
  right_last_state   : Z;
  left_level         : Q;
  left_active        : Z;
  right_level        : Q;
  right_active       : Z;
  mqtt_connected     : bool;
  mqtt_messages_sent : Z;
  last_message_time  : Q;
  last_message       : option (string * Z * Q);
      (* None is the empty string, Some (topic, state, level)
         is f"{topic}: {state} (Level: {level:.2f})" *)
  mqtt_reconnecting  : bool;
  reconnect_attempts : Z;
  running            : bool;
  error_message      : string
}.

Definition set_mqtt_client (x : Paho.PahoClient) (m : MicrophoneMonitorTUI)
  : MicrophoneMonitorTUI :=
  mkTui (config m) x (left_stream m) (right_stream m) (left_last_state m)
    (right_last_state m) (left_level m) (left_active m) (right_level m)
    (right_active m) (mqtt_connected m) (mqtt_messages_sent m)
    (last_message_time m) (last_message m) (mqtt_reconnecting m)
    (reconnect_attempts m) (running m) (error_message m).
Definition set_left_stream (x : bool) (m : MicrophoneMonitorTUI)
  : MicrophoneMonitorTUI :=
  mkTui (config m) (mqtt_client m) x (right_stream m) (left_last_state m)
    (right_last_state m) (left_level m) (left_active m) (right_level m)
    (right_active m) (mqtt_connected m) (mqtt_messages_sent m)
    (last_message_time m) (last_message m) (mqtt_reconnecting m)
    (reconnect_attempts m) (running m) (error_message m).
Definition set_right_stream (x : bool) (m : MicrophoneMonitorTUI)
  : MicrophoneMonitorTUI :=
  mkTui (config m) (mqtt_client m) (left_stream m) x (left_last_state m)
    (right_last_state m) (left_level m) (left_active m) (right_level m)
    (right_active m) (mqtt_connected m) (mqtt_messages_sent m)
    (last_message_time m) (last_message m) (mqtt_reconnecting m)
    (reconnect_attempts m) (running m) (error_message m).
Definition set_left_last_state (x : Z) (m : MicrophoneMonitorTUI)
  : MicrophoneMonitorTUI :=
  mkTui (config m) (mqtt_client m) (left_stream m) (right_stream m) x
    (right_last_state m) (left_level m) (left_active m) (right_level m)
    (right_active m) (mqtt_connected m) (mqtt_messages_sent m)
    (last_message_time m) (last_message m) (mqtt_reconnecting m)
    (reconnect_attempts m) (running m) (error_message m).
Definition set_right_last_state (x : Z) (m : MicrophoneMonitorTUI)
  : MicrophoneMonitorTUI :=
  mkTui (config m) (mqtt_client m) (left_stream m) (right_stream m)
    (left_last_state m) x (left_level m) (left_active m) (right_level m)
    (right_active m) (mqtt_connected m) (mqtt_messages_sent m)
    (last_message_time m) (last_message m) (mqtt_reconnecting m)
    (reconnect_attempts m) (running m) (error_message m).
Definition set_left_level (x : Q) (m : MicrophoneMonitorTUI)
  : MicrophoneMonitorTUI :=
  mkTui (config m) (mqtt_client m) (left_stream m) (right_stream m)
    (left_last_state m) (right_last_state m) x (left_active m) (right_level m)
    (right_active m) (mqtt_connected m) (mqtt_messages_sent m)
    (last_message_time m) (last_message m) (mqtt_reconnecting m)
    (reconnect_attempts m) (running m) (error_message m).
Definition set_left_active (x : Z) (m : MicrophoneMonitorTUI)
  : MicrophoneMonitorTUI :=
  mkTui (config m) (mqtt_client m) (left_stream m) (right_stream m)
    (left_last_state m) (right_last_state m) (left_level m) x (right_level m)
    (right_active m) (mqtt_connected m) (mqtt_messages_sent m)
    (last_message_time m) (last_message m) (mqtt_reconnecting m)
    (reconnect_attempts m) (running m) (error_message m).
Definition set_right_level (x : Q) (m : MicrophoneMonitorTUI)
  : MicrophoneMonitorTUI :=
  mkTui (config m) (mqtt_client m) (left_stream m) (right_stream m)
    (left_last_state m) (right_last_state m) (left_level m) (left_active m) x
    (right_active m) (mqtt_connected m) (mqtt_messages_sent m)
    (last_message_time m) (last_message m) (mqtt_reconnecting m)
    (reconnect_attempts m) (running m) (error_message m).
Definition set_right_active (x : Z) (m : MicrophoneMonitorTUI)
  : MicrophoneMonitorTUI :=
  mkTui (config m) (mqtt_client m) (left_stream m) (right_stream m)
    (left_last_state m) (right_last_state m) (left_level m) (left_active m)
    (right_level m) x (mqtt_connected m) (mqtt_messages_sent m)
    (last_message_time m) (last_message m) (mqtt_reconnecting m)
    (reconnect_attempts m) (running m) (error_message m).
Definition set_mqtt_connected (x : bool) (m : MicrophoneMonitorTUI)
  : MicrophoneMonitorTUI :=
  mkTui (config m) (mqtt_client m) (left_stream m) (right_stream m)
    (left_last_state m) (right_last_state m) (left_level m) (left_active m)
    (right_level m) (right_active m) x (mqtt_messages_sent m)
    (last_message_time m) (last_message m) (mqtt_reconnecting m)
    (reconnect_attempts m) (running m) (error_message m).
Definition set_mqtt_messages_sent (x : Z) (m : MicrophoneMonitorTUI)
  : MicrophoneMonitorTUI :=
  mkTui (config m) (mqtt_client m) (left_stream m) (right_stream m)
    (left_last_state m) (right_last_state m) (left_level m) (left_active m)
    (right_level m) (right_active m) (mqtt_connected m) x
    (last_message_time m) (last_message m) (mqtt_reconnecting m)
    (reconnect_attempts m) (running m) (error_message m).
Definition set_last_message_time (x : Q) (m : MicrophoneMonitorTUI)
  : MicrophoneMonitorTUI :=
  mkTui (config m) (mqtt_client m) (left_stream m) (right_stream m)
    (left_last_state m) (right_last_state m) (left_level m) (left_active m)
    (right_level m) (right_active m) (mqtt_connected m) (mqtt_messages_sent m)
    x (last_message m) (mqtt_reconnecting m) (reconnect_attempts m)
    (running m) (error_message m).
Definition set_last_message (x : option (string * Z * Q)) (m : MicrophoneMonitorTUI)
  : MicrophoneMonitorTUI :=
  mkTui (config m) (mqtt_client m) (left_stream m) (right_stream m)
    (left_last_state m) (right_last_state m) (left_level m) (left_active m)
    (right_level m) (right_active m) (mqtt_connected m) (mqtt_messages_sent m)
    (last_message_time m) x (mqtt_reconnecting m) (reconnect_attempts m)
    (running m) (error_message m).
Definition set_mqtt_reconnecting (x : bool) (m : MicrophoneMonitorTUI)
  : MicrophoneMonitorTUI :=
  mkTui (config m) (mqtt_client m) (left_stream m) (right_stream m)
    (left_last_state m) (right_last_state m) (left_level m) (left_active m)
    (right_level m) (right_active m) (mqtt_connected m) (mqtt_messages_sent m)
    (last_message_time m) (last_message m) x (reconnect_attempts m)
    (running m) (error_message m).
Definition set_reconnect_attempts (x : Z) (m : MicrophoneMonitorTUI)
  : MicrophoneMonitorTUI :=
  mkTui (config m) (mqtt_client m) (left_stream m) (right_stream m)
    (left_last_state m) (right_last_state m) (left_level m) (left_active m)
    (right_level m) (right_active m) (mqtt_connected m) (mqtt_messages_sent m)
    (last_message_time m) (last_message m) (mqtt_reconnecting m) x (running m)
    (error_message m).
Definition set_running (x : bool) (m : MicrophoneMonitorTUI)
  : MicrophoneMonitorTUI :=
  mkTui (config m) (mqtt_client m) (left_stream m) (right_stream m)
    (left_last_state m) (right_last_state m) (left_level m) (left_active m)
    (right_level m) (right_active m) (mqtt_connected m) (mqtt_messages_sent m)
    (last_message_time m) (last_message m) (mqtt_reconnecting m)
    (reconnect_attempts m) x (error_message m).
Definition set_error_message (x : string) (m : MicrophoneMonitorTUI)
  : MicrophoneMonitorTUI :=
  mkTui (config m) (mqtt_client m) (left_stream m) (right_stream m)
    (left_last_state m) (right_last_state m) (left_level m) (left_active m)
    (right_level m) (right_active m) (mqtt_connected m) (mqtt_messages_sent m)
    (last_message_time m) (last_message m) (mqtt_reconnecting m)
    (reconnect_attempts m) (running m) x.

(** [MicrophoneMonitorTUI.__init__], with the streams as
    [open_audio_streams] leaves them. *)
Definition init (cfg : Config) (left_open right_open : bool)
  : MicrophoneMonitorTUI :=
  mkTui cfg (Paho.new_paho (mqtt_client_id cfg)) left_open right_open
        0 0 0 0 0 0 false 0 0 None false 0 false "".

(** Calls on [self.mqtt_client]. *)
Definition paho_publish := Paho.publish mqtt_client.
Definition paho_loop_start := Paho.loop_start mqtt_client set_mqtt_client.
Definition paho_loop_stop := Paho.loop_stop mqtt_client set_mqtt_client.
Definition paho_disconnect := Paho.disconnect mqtt_client.
Definition paho_connect_async := Paho.connect_async mqtt_client.
Definition on_paho (f : Paho.PahoClient -> Paho.PahoClient)
    (m : MicrophoneMonitorTUI) : MicrophoneMonitorTUI :=
  set_mqtt_client (f (mqtt_client m)) m.

(** [on_mqtt_connect(client, userdata, flags, reason_code, properties)]. *)
Definition on_mqtt_connect (reason_code : ReasonCode)
  : Prog MicrophoneMonitorTUI unit :=
  if rc_value reason_code =? 0 then
    modify (set_mqtt_connected true) ;;
    modify (set_mqtt_reconnecting false) ;;
    modify (set_reconnect_attempts 0) ;;
    modify (set_error_message "")
  else
    modify (set_mqtt_connected false) ;;
    modify (set_error_message
              ("Failed to connect to MQTT broker: " ++ rc_text reason_code)).

(** [on_mqtt_disconnect(client, userdata, reason_code, properties, *args)];
    here too the client has [CallbackAPIVersion.VERSION2], so the
    parameter named [reason_code] receives paho's flags. *)
Definition on_mqtt_disconnect (reason_code : DisconnectFlags)
    (properties : ReasonCode) : Prog MicrophoneMonitorTUI unit :=
  modify (set_mqtt_connected false) ;;
  modify (set_mqtt_reconnecting true) ;;
  modify (set_error_message
            ("Disconnected from MQTT broker: " ++ str_flags reason_code)).

(** [force_mqtt_reconnection()]. *)
Definition force_mqtt_reconnection (disc_raises conn_raises : option string)
    (late : Delay) : Prog MicrophoneMonitorTUI unit :=
  try_except
    (paho_loop_stop ;;
     try_except (paho_disconnect disc_raises) (fun _ => ret tt) ;;
     modify (set_mqtt_connected false) ;;
     modify (set_mqtt_reconnecting true) ;;
     m <- get ;;
     modify (set_reconnect_attempts (reconnect_attempts m + 1)) ;;
     time_sleep 1 late ;;
     now <- time_time ;;
     let cid := mqtt_client_id (config m) ++ "_" ++ str_int (py_int now) in
     emit (NewClient cid) ;;
     modify (set_mqtt_client (Paho.new_paho cid)) ;;
     modify (on_paho (Paho.set_reconnect_delay 1 30)) ;;
     modify (on_paho (Paho.set_will Paho.last_will)) ;;
     paho_connect_async conn_raises
       (mqtt_broker (config m)) (mqtt_port (config m)) 60 ;;
     paho_loop_start ;;
     m <- get ;;
     modify (set_error_message
               ("Forcing reconnection (attempt "
                  ++ str_int (reconnect_attempts m) ++ ")...")))
    (fun e => modify (set_error_message ("Reconnection failed: " ++ e))).

(** The frame of [mqtt_status_check_thread]. *)
Record StatusThread : Type := mkStatus {
  self               : MicrophoneMonitorTUI;
  disconnected_count : Z
}.

Definition set_disconnected_count (n : Z) (s : StatusThread) : StatusThread :=
  mkStatus (self s) n.

Definition on_self {A} (p : Prog MicrophoneMonitorTUI A)
  : Prog StatusThread A :=
  fun s t =>
    match p (self s) t with
    | mkRes x m t1 es => mkRes x (mkStatus m (disconnected_count s)) t1 es
    end.

Definition incr_disconnected_count : Prog StatusThread unit :=
  s <- get ;;
  modify (set_disconnected_count (disconnected_count s + 1)).

(** First half of the loop body: probe the connection. *)
Definition probe (i : ProbeInput) : Prog StatusThread unit :=
  if reported_connected i then
    try_except
      (rc <- on_self (paho_publish (ping i) "microphones/ping" (RawText "ping")
                                   0 false) ;;
       if rc =? MQTT_ERR_SUCCESS then
         on_self (modify (set_mqtt_connected true)) ;;
         modify (set_disconnected_count 0) ;;
         on_self (modify (set_mqtt_reconnecting false))
       else
         incr_disconnected_count)
      (fun _ => incr_disconnected_count)
  else
    incr_disconnected_count ;;
    on_self (modify (set_mqtt_connected false)).

(** Second half of the loop body: act on the count. *)
Definition update_status (i : ProbeInput) : Prog StatusThread unit :=
  s <- get ;;
  when (3 <=? disconnected_count s)
    (on_self (modify (set_mqtt_connected false)) ;;
     on_self (modify (set_error_message "Disconnected from MQTT broker")) ;;
     s <- get ;;
     when (disconnected_count s =? 5)
       (on_self (force_mqtt_reconnection (fr_disconnect_raises i)
                                         (fr_connect_raises i) (fr_late i)) ;;
        modify (set_disconnected_count 0))).

(** One iteration of [while self.running] in [mqtt_status_check_thread]. *)
Definition status_check (i : ProbeInput) : Prog StatusThread unit :=
  try_except
    (probe i ;;
     update_status i ;;
     time_sleep 2 (sleep_late i))
    (fun e =>
       on_self (modify (set_error_message ("Connection check error: " ++ e))) ;;
       time_sleep 2 (sleep_late i)).

(** [mqtt_status_check_thread()] from a frame, for as many iterations as
    the outside world has answers. *)
Fixpoint status_check_loop (inputs : list ProbeInput) : Prog StatusThread unit :=
  match inputs with
  | [] => ret tt
  | i :: rest =>
      s <- get ;;
      if running (self s) then status_check i ;; status_check_loop rest
      else ret tt
  end.

(** [read_mic_level(stream)]; a stream that is [None] has no [read]. *)
Definition read_mic_level (stream : bool) (r : StreamRead)
  : Prog MicrophoneMonitorTUI Q :=
  try_except
    (if stream then
       match r with
       | Level level => ret level
       | ReadFails e => raise e
       end
     else raise "'NoneType' object has no attribute 'read'")
    (fun e =>
       modify (set_error_message ("Error reading microphone data: " ++ e)) ;;
       ret 0%Q).

(** [publish_mic_state(topic, state, level)]. *)
Definition publish_mic_state (o : PubOutcome) (topic : string) (state : Z)
    (level : Q) : Prog MicrophoneMonitorTUI unit :=
  m <- get ;;
  if negb (mqtt_connected m) then ret tt
  else
    try_except
      (now <- time_time ;;
       rc <- paho_publish o topic (MicJson state level now) 0 false ;;
       if rc =? MQTT_ERR_SUCCESS then
         m <- get ;;
         modify (set_mqtt_messages_sent (mqtt_messages_sent m + 1)) ;;
         now <- time_time ;;
         modify (set_last_message_time now) ;;
         modify (set_last_message (Some (topic, state, level)))
       else
         modify (set_error_message
                   ("MQTT publish failed with code: " ++ str_int rc)))
      (fun e => modify (set_error_message ("Error publishing to MQTT: " ++ e))).

(** One iteration of [while self.running] in [monitoring_thread]. *)
Definition monitoring_tick (i : TickInput) : Prog MicrophoneMonitorTUI unit :=
  m <- get ;;
  let threshold := audio_threshold (config m) in
  let left_topic := topic_left (config m) in
  let right_topic := topic_right (config m) in
  try_except
    (m <- get ;;
     l <- read_mic_level (left_stream m) (left_read i) ;;
     modify (set_left_level l) ;;
     m <- get ;;
     r <- read_mic_level (right_stream m) (right_read i) ;;
     modify (set_right_level r) ;;
     m <- get ;;
     modify (set_left_active (active_of (left_level m) threshold)) ;;
     m <- get ;;
     modify (set_right_active (active_of (right_level m) threshold)) ;;
     m <- get ;;
     when (mqtt_connected m)
       (m <- get ;;
        when (should_publish (left_active m) (left_last_state m))
          (publish_mic_state (left_pub i) left_topic (left_active m)
                             (left_level m) ;;
           m <- get ;;
           modify (set_left_last_state (left_active m))) ;;
        m <- get ;;
        when (should_publish (right_active m) (right_last_state m))
          (publish_mic_state (right_pub i) right_topic (right_active m)
                             (right_level m) ;;
           m <- get ;;
           modify (set_right_last_state (right_active m)))) ;;
     m <- get ;;
     time_sleep (audio_check_interval (config m)) (tick_late i))
    (fun e =>
       modify (set_error_message ("Error monitoring: " ++ e)) ;;
       time_sleep 1 (tick_late i)).

(** [monitoring_thread()], for as many iterations as the outside world has
    answers. *)
Fixpoint monitoring_thread (inputs : list TickInput)
  : Prog MicrophoneMonitorTUI unit :=
  match inputs with
  | [] => ret tt
  | i :: rest =>
      m <- get ;;
      if running m then monitoring_tick i ;; monitoring_thread rest
      else ret tt
  end.

End Tui.

(** ** Observations on the calls made *)

Definition is_publish (e : Event) : bool :=
  match e with
  | Publish _ _ _ _ _ _ => true
  | _ => false
  end.

(** The calls of paho's [publish], in order. *)
Definition publishes (es : list Event) : list Event := filter is_publish es.

(** A retained, qos 1 publish of [{"status": status}] on
    [microphones/status]. *)
Definition is_status_publish (status : string) (e : Event) : bool :=
  match e with
  | Publish _ topic (StatusJson s) qos retain _ =>
      String.eqb topic "microphones/status" && String.eqb s status
        && (qos =? 1) && retain
  | _ => false
  end.

Definition status_publishes (status : string) (es : list Event) : nat :=
  List.length (filter (is_status_publish status) es).

(** A forced reconnection creates a paho client; nothing else does once
    the program runs. *)
Definition is_new_client (e : Event) : bool :=
  match e with
  | NewClient _ => true
  | _ => false
  end.

Definition forced_reconnections (es : list Event) : nat :=
  List.length (filter is_new_client es).

(** The durations handed to [time.sleep], in order. *)
Definition sleeps (es : list Event) : list Q :=
  flat_map (fun e => match e with Slept d => [d] | _ => [] end) es.

(** What the monitor sees of a call its [mqtt_client] made. *)
Definition seen_by_monitor (e : Event) : Event :=
  match e with
  | ErrorCallback msg => Printed msg
  | _ => e
  end.

(** The last message handed to the error callback, if any. *)
Fixpoint last_error_callback (es : list Event) : option string :=
  match es with
  | [] => None
  | ErrorCallback msg :: es' =>
      match last_error_callback es' with
      | Some m => Some m
      | None => Some msg
      end
  | _ :: es' => last_error_callback es'
  end.

(** The monitor after the error callbacks among [es] have run. *)
Definition after_callbacks (es : list Event) (m : Processor.MicrophoneMonitor)
  : Processor.MicrophoneMonitor :=
  match last_error_callback es with
  | Some msg => Processor.on_ui (UI.set_error_message msg) m
  | None => m
  end.

(** ** Observations on whole runs *)

(** A probe that counts as a failure: [is_connected()] answers false, or
    the ping is not accepted. *)
Definition probe_fails (i : ProbeInput) : bool :=
  negb (reported_connected i)
  || match ping i with
     | PubRc rc => negb (rc =? MQTT_ERR_SUCCESS)
     | PubRaises _ => true
     end.

(** A channel message that paho accepted. *)
Definition is_accepted_channel_message (e : Event) : bool :=
  match e with
  | Publish _ _ (MicJson _ _ _) _ _ (PubRc rc) => rc =? MQTT_ERR_SUCCESS
  | _ => false
  end.

Definition accepted_channel_messages (es : list Event) : nat :=
  List.length (filter is_accepted_channel_message es).

(** The message counters on display are those of the client. *)
Definition shows_client_counters (m : Processor.MicrophoneMonitor) : Prop :=
  UI.mqtt_messages_sent (Processor.ui m)
  = Client.mqtt_messages_sent (Processor.mqtt_client m)
  /\ UI.last_message_time (Processor.ui m)
     = Client.last_message_time (Processor.mqtt_client m)
  /\ UI.last_message (Processor.ui m)
     = Client.last_message (Processor.mqtt_client m).

(** A program of the monitor that keeps the display in step with the
    client and counts what it gets accepted. *)
Definition keeps_count {A} (p : Prog Processor.MicrophoneMonitor A) : Prop :=
  forall (m : Processor.MicrophoneMonitor) (t : Q),
    shows_client_counters m ->
    shows_client_counters (st (p m t))
    /\ Client.mqtt_messages_sent (Processor.mqtt_client (st (p m t)))
       = Client.mqtt_messages_sent (Processor.mqtt_client m)
         + Z.of_nat (accepted_channel_messages (evs (p m t))).

(** An assignment that touches neither the client nor the message
    counters on display. *)
Definition beside_counters
    (f : Processor.MicrophoneMonitor -> Processor.MicrophoneMonitor) : Prop :=
  forall m,
    Processor.mqtt_client (f m) = Processor.mqtt_client m
    /\ UI.mqtt_messages_sent (Processor.ui (f m))
       = UI.mqtt_messages_sent (Processor.ui m)
    /\ UI.last_message_time (Processor.ui (f m))
       = UI.last_message_time (Processor.ui m)
    /\ UI.last_message (Processor.ui (f m))
       = UI.last_message (Processor.ui m).

(** A method of the client that leaves its message counters alone and
    gets no channel message accepted. *)
Definition beside_client_counters {A} (p : Prog Client.MQTTClient A) : Prop :=
  forall (c : Client.MQTTClient) (t : Q),
    Client.mqtt_messages_sent (st (p c t)) = Client.mqtt_messages_sent c
    /\ Client.last_message_time (st (p c t)) = Client.last_message_time c
    /\ Client.last_message (st (p c t)) = Client.last_message c
    /\ accepted_channel_messages (evs (p c t)) = 0%nat.

(** The identities of the paho clients that forced reconnections created,
    in order. *)
Definition new_client_ids (es : list Event) : list string :=
  flat_map (fun e => match e with NewClient cid => [cid] | _ => [] end) es.

(** An identity that the paho client can have by the time [now]: the
    configured one, or the configured one with the reading of the clock at
    a forced reconnection as suffix, a reading a second old or older. *)
Definition identity_by (configured : string) (now : Q) (cid : string) : Prop :=
  cid = configured
  \/ exists T : Q,
       cid = configured ++ "_" ++ str_int (py_int T) /\ (T + 1 <= now)%Q.

(** An identity made of a reading of the clock at [since] or later. *)
Definition identity_since (configured : string) (since : Q) (cid : string)
    : Prop :=
  exists T : Q,
    cid = configured ++ "_" ++ str_int (py_int T) /\ (since <= T)%Q.




(** * Properties *)

(** Symbolic execution of a program: unfold the monad, compute, and split
    on whatever the next conditional tests. *)
Ltac unfold_prog :=
  cbv delta [bind ret raise try_except get modify emit when time_time
             Paho.publish Paho.loop_start Paho.loop_stop Paho.disconnect
             Paho.connect_async] beta.

Ltac scrutinee x :=
  lazymatch x with
  | negb ?y => scrutinee y
  | orb ?y _ => scrutinee y
  | andb ?y _ => scrutinee y
  | context [match ?y with _ => _ end] => scrutinee y
  | _ => x
  end.

Ltac split_next :=
  match goal with
  | |- context [match ?x with _ => _ end] =>
      let y := scrutinee x in
      first [ is_var y; destruct y | destruct y eqn:? ]
  end.

Ltac exec := cbn; repeat (split_next; cbn).

Ltac finish := repeat split; intros; try discriminate; try congruence.

Local Open Scope Z_scope.

(** ** [MQTTClient.publish] *)

(** C2.  While [mqtt_connected] is false, [publish] returns [False], calls
    nothing and changes nothing; it returns [True] only when
    [mqtt_connected] is set and paho accepted the message, and only then
    does it count the message and record it. *)
Theorem publish_gated_by_connected :
  forall (o : PubOutcome) (topic : string) (payload : Payload)
         (c : Client.MQTTClient) (t : Q),
    let r := Client.publish o topic payload c t in
    (Client.mqtt_connected c = false ->
       res r = Returned false /\ evs r = [] /\ st r = c)
    /\ (res r = Returned true ->
          Client.mqtt_connected c = true /\ o = PubRc MQTT_ERR_SUCCESS
          /\ Client.mqtt_messages_sent (st r) = Client.mqtt_messages_sent c + 1
          /\ Client.last_message (st r) = Some (topic, payload))
    /\ (res r <> Returned true ->
          Client.mqtt_messages_sent (st r) = Client.mqtt_messages_sent c
          /\ Client.last_message (st r) = Client.last_message c).
Proof.
  intros o topic payload c t r; subst r.
  destruct c as [cfg conn rec att err cb sent lt lm run pc].
  unfold Client.publish, Client.paho_publish, Client.call_error_callback.
  unfold_prog; exec;
    try match goal with H : (_ =? _) = true |- _ =>
          apply Z.eqb_eq in H; subst end;
    finish.
Qed.

Lemma publish_gated_by_connected_witness :
  let c := Client.init default_config true in
  Client.mqtt_connected c = false
  /\ res (Client.publish (PubRc 0) "microphones/left" (RawText "x") c 0%Q)
     = Returned false
  /\ evs (Client.publish (PubRc 0) "microphones/left" (RawText "x") c 0%Q) = []
  /\ st (Client.publish (PubRc 0) "microphones/left" (RawText "x") c 0%Q) = c.
Proof.
  split; [reflexivity|].
  apply (proj1 (publish_gated_by_connected (PubRc 0) "microphones/left"
                  (RawText "x") (Client.init default_config true) 0%Q)).
  reflexivity.
Defined.

(** C10.  Whenever [publish] returns [False] -- [mqtt_connected] is false,
    paho answers a code other than [MQTT_ERR_SUCCESS], or paho raises --
    [mqtt_messages_sent], [last_message] and [last_message_time] are what
    they were; and it returns [False] in each of the three cases. *)
Theorem failed_publish_keeps_counters :
  forall (o : PubOutcome) (topic : string) (payload : Payload)
         (c : Client.MQTTClient) (t : Q),
    let r := Client.publish o topic payload c t in
    (Client.mqtt_connected c = false
     \/ (exists rc, o = PubRc rc /\ rc <> MQTT_ERR_SUCCESS)
     \/ (exists e, o = PubRaises e) ->
     res r = Returned false)
    /\ (res r = Returned false ->
          Client.mqtt_messages_sent (st r) = Client.mqtt_messages_sent c
          /\ Client.last_message (st r) = Client.last_message c
          /\ Client.last_message_time (st r) = Client.last_message_time c).
Proof.
  intros o topic payload c t r; subst r.
  destruct c as [cfg conn rec att err cb sent lt lm run pc].
  unfold Client.publish, Client.paho_publish, Client.call_error_callback.
  unfold_prog; exec;
    try match goal with H : (_ =? _) = true |- _ =>
          apply Z.eqb_eq in H; subst end;
    finish.
  match goal with
  | H : _ \/ _ |- _ => destruct H as [H | [[rc [H1 H2]] | [e H]]]
  end; try discriminate.
  injection H1 as <-. congruence.
Qed.

Lemma failed_publish_keeps_counters_witness :
  let c := Client.set_mqtt_connected true (Client.init default_config true) in
  let r := Client.publish (PubRc 4) "microphones/left" (RawText "x") c 7%Q in
  res r = Returned false
  /\ Client.mqtt_messages_sent (st r) = Client.mqtt_messages_sent c
  /\ Client.last_message (st r) = Client.last_message c
  /\ Client.last_message_time (st r) = Client.last_message_time c.
Proof.
  pose proof (failed_publish_keeps_counters (PubRc 4) "microphones/left"
                (RawText "x")
                (Client.set_mqtt_connected true (Client.init default_config true))
                7%Q) as [H1 H2].
  assert (H : res (Client.publish (PubRc 4) "microphones/left" (RawText "x")
                     (Client.set_mqtt_connected true
                        (Client.init default_config true)) 7%Q)
              = Returned false).
  { apply H1. right; left. exists 4. split; [reflexivity | discriminate]. }
  split; [exact H | exact (H2 H)].
Defined.

(** ** [MQTTClient.disconnect] *)



(** ** [MQTTClient.on_mqtt_connect] *)

(** C5, as stated, fails: the count of consecutive probe failures is a
    local variable of the status thread, which the callback cannot reach.
    Two probes fail while the broker has not answered yet, then the broker
    accepts the connection: the count is still 2. *)
Lemma connack_keeps_probe_failures :
  let failing := mkProbe false (PubRc 0) None None (0%N, 1%positive)
                         (0%N, 1%positive) in
  let r := App.execute default_config None
             [App.StatusTick failing; App.StatusTick failing;
              App.ConnAck (mkReasonCode 0 "Success") (PubRc 0)] 0%Q in
  Client.mqtt_connected (Processor.mqtt_client (App.monitor (st r))) = true
  /\ App.status_count (st r) = 2
  /\ App.status_count (st r) <> 0.
Proof.
  vm_compute. repeat split; discriminate.
Qed.

(** C5, amended.  When the broker acknowledges a connection with reason
    code 0, [on_mqtt_connect] sets [mqtt_connected], clears
    [mqtt_reconnecting], resets [reconnect_attempts] to 0 and calls paho's
    [publish] exactly once, for the retained online status on
    [microphones/status]; [error_message] is cleared unless that publish
    raises, and the monitor's error callback shows the same message.  The
    count of consecutive probe failures is left as it is: the next probe
    that paho accepts resets it to 0. *)
Theorem connack_success_effects :
  forall (reason_code : ReasonCode) (o : PubOutcome) (a : App.App) (t : Q),
    rc_value reason_code = 0 ->
    let r := App.step (App.ConnAck reason_code o) a t in
    let c := Processor.mqtt_client (App.monitor (st r)) in
    res r = Returned tt
    /\ Client.mqtt_connected c = true
    /\ Client.mqtt_reconnecting c = false
    /\ Client.reconnect_attempts c = 0
    /\ Client.error_message c =
         match o with
         | PubRc _ => ""
         | PubRaises e => "Failed to publish online status: " ++ e
         end
    /\ (Client.error_callback c = true ->
          UI.error_message (Processor.ui (App.monitor (st r)))
          = Client.error_message c)
    /\ publishes (evs r) =
         [Publish (Paho.client_id (Client.mqtt_client c)) "microphones/status"
                  (StatusJson "online") 1 true o]
    /\ status_publishes "online" (evs r) = 1%nat
    /\ App.status_count (st r) = App.status_count a
    /\ (forall i : ProbeInput,
          Client.running c = true ->
          reported_connected i = true ->
          ping i = PubRc MQTT_ERR_SUCCESS ->
          App.status_count (st (App.step (App.StatusTick i) (st r) (clk r)))
          = 0).
Proof.
  intros reason_code o a t Hrc r c; subst c r.
  destruct a as [m n].
  destruct m as [cfg u mic cl run ll rl].
  destruct cl as [ccfg conn rec att err cb sent lt lm crun pc].
  destruct pc as [cid cs w rd lr].
  unfold App.step, App.on_monitor, Processor.on_mqtt_client,
    Client.on_mqtt_connect, Client.paho_publish, Client.call_error_callback.
  rewrite Hrc.
  unfold_prog.
  destruct o as [rc|e], cb; cbn.
  all: repeat split; try discriminate.
  all: intros [rep pg dr cr fl sl] Hrun Hrep Hping; cbn in Hrun, Hrep, Hping;
    subst crun rep pg.
  all: unfold App.on_status_thread, Client.status_check, Client.probe,
         Client.update_status, Client.on_self, Client.paho_publish,
         Client.incr_disconnected_count, Client.call_error_callback;
       unfold_prog; cbn; reflexivity.
Qed.

Lemma connack_success_effects_witness :
  let a := App.fresh default_config in
  let r := App.step (App.ConnAck (mkReasonCode 0 "Success") (PubRc 0)) a 0%Q in
  Client.mqtt_connected (Processor.mqtt_client (App.monitor (st r))) = true
  /\ status_publishes "online" (evs r) = 1%nat.
Proof.
  pose proof (connack_success_effects (mkReasonCode 0 "Success") (PubRc 0)
                (App.fresh default_config) 0%Q eq_refl) as H.
  cbv zeta in H.
  split; [exact (proj1 (proj2 H)) |].
  exact (proj1 (proj2 (proj2 (proj2 (proj2 (proj2 (proj2 (proj2 H)))))))).
Defined.

(** ** Facts about Python values *)

Lemma to_int_not_nil : forall n : Z, Z.to_int n <> Pos Nil /\ Z.to_int n <> Neg Nil.
Proof.
  intros [|p|p]; cbn; split; try discriminate.
  - intros H; injection H as H. exact (Unsigned.to_uint_nonnil p H).
  - intros H; injection H as H. exact (Unsigned.to_uint_nonnil p H).
Qed.

(** [str] of two different integers gives two different strings. *)
Lemma str_int_inj : forall a b : Z, str_int a = str_int b -> a = b.
Proof.
  unfold str_int; intros a b H.
  destruct (to_int_not_nil a) as [Ha1 Ha2], (to_int_not_nil b) as [Hb1 Hb2].
  apply DecimalZ.to_int_inj.
  pose proof (NilZero.isi (Z.to_int a) Ha1 Ha2) as Ea.
  pose proof (NilZero.isi (Z.to_int b) Hb1 Hb2) as Eb.
  rewrite H in Ea. rewrite Ea in Eb. now injection Eb.
Qed.

Lemma append_inj_l : forall s a b : string, (s ++ a = s ++ b)%string -> a = b.
Proof.
  induction s as [|c s IH]; cbn; intros a b H; [exact H|].
  injection H as H. now apply IH.
Qed.

Lemma append_length : forall s a : string,
    String.length (s ++ a) = (String.length s + String.length a)%nat.
Proof.
  induction s as [|c s IH]; cbn; intros a; [reflexivity|]. now rewrite IH.
Qed.

(** A suffixed identity is not the identity it was made from. *)
Lemma suffixed_neq : forall s a : string, (s ++ "_" ++ a)%string <> s.
Proof.
  intros s a H. apply (f_equal String.length) in H.
  rewrite append_length in H. cbn in H. lia.
Qed.

Lemma delay_nonneg : forall d : Delay, (0 <= delay_Q d)%Q.
Proof.
  intros [n p]; unfold delay_Q, Qle; cbn. lia.
Qed.

Lemma py_int_upper : forall x : Q, (inject_Z (py_int x) < x + 1)%Q.
Proof.
  intros x; unfold py_int. destruct (Qle_bool 0 x).
  - pose proof (Qfloor_le x). lra.
  - pose proof (Qceiling_lt x) as H.
    unfold Z.sub in H. rewrite inject_Z_plus in H.
    change (inject_Z (- (1))) with (- (1))%Q in H. lra.
Qed.

Lemma py_int_lower : forall x : Q, (x - 1 < inject_Z (py_int x))%Q.
Proof.
  intros x; unfold py_int. destruct (Qle_bool 0 x).
  - pose proof (Qlt_floor x) as H. rewrite inject_Z_plus in H.
    change (inject_Z 1) with 1%Q in H. lra.
  - pose proof (Qle_ceiling x). lra.
Qed.

(** An integer read off the clock two seconds or more after another one
    is larger. *)
Lemma py_int_later : forall x y : Q, (x + 2 <= y)%Q -> py_int x < py_int y.
Proof.
  intros x y H.
  pose proof (py_int_upper x). pose proof (py_int_lower y).
  rewrite Zlt_Qlt. lra.
Qed.

(** ** The error callback, as the monitor runs it *)

Lemma deliver_spec :
  forall (es : list Event) (m : Processor.MicrophoneMonitor) (t : Q),
    Processor.deliver es m t
    = mkRes (Returned tt) (after_callbacks es m) t (map seen_by_monitor es).
Proof.
  unfold after_callbacks.
  induction es as [|e es IH]; intros m t; [reflexivity|].
  destruct e; cbn [Processor.deliver map seen_by_monitor last_error_callback];
    unfold Processor._handle_mqtt_error; unfold_prog; cbn [app];
    rewrite IH; try reflexivity.
  destruct (last_error_callback es); destruct m as [cfg u mic cl run ll rl];
    reflexivity.
Qed.

Lemma after_callbacks_frame :
  forall es m,
    Processor.mqtt_client (after_callbacks es m) = Processor.mqtt_client m
    /\ Processor.left_last_state (after_callbacks es m)
       = Processor.left_last_state m
    /\ Processor.right_last_state (after_callbacks es m)
       = Processor.right_last_state m
    /\ Processor.running (after_callbacks es m) = Processor.running m
    /\ Processor.config (after_callbacks es m) = Processor.config m.
Proof.
  intros es m; unfold after_callbacks.
  destruct (last_error_callback es); repeat split; reflexivity.
Qed.

Lemma seen_by_monitor_new_clients :
  forall es, forced_reconnections (map seen_by_monitor es)
             = forced_reconnections es.
Proof.
  unfold forced_reconnections.
  induction es as [|e es IH]; [reflexivity|].
  destruct e; cbn in *; congruence.
Qed.

Lemma seen_by_monitor_publishes :
  forall es, publishes (map seen_by_monitor es) = publishes es.
Proof.
  unfold publishes.
  induction es as [|e es IH]; [reflexivity|].
  destruct e; cbn in *; congruence.
Qed.

(** A method of the client called from the monitor, in one equation. *)
Lemma on_mqtt_client_spec :
  forall {A} (p : Prog Client.MQTTClient A) (m : Processor.MicrophoneMonitor)
         (t : Q),
    let r := p (Processor.mqtt_client m) t in
    Processor.on_mqtt_client p m t
    = mkRes (res r)
            (after_callbacks (evs r) (Processor.set_mqtt_client (st r) m))
            (clk r) (map seen_by_monitor (evs r)).
Proof.
  intros A p m t r; subst r. unfold Processor.on_mqtt_client.
  destruct (p (Processor.mqtt_client m) t) as [x c t1 es].
  rewrite deliver_spec. reflexivity.
Qed.

(** An iteration of the status thread inside the running program, in one
    equation. *)
Lemma status_tick_spec :
  forall (i : ProbeInput) (a : App.App) (t : Q),
    Client.running (Processor.mqtt_client (App.monitor a)) = true ->
    let r := Client.status_check i
               (Client.mkStatus (Processor.mqtt_client (App.monitor a))
                                (App.status_count a)) t in
    App.step (App.StatusTick i) a t
    = mkRes (res r)
            (App.mkApp
               (after_callbacks (evs r)
                  (Processor.set_mqtt_client (Client.self (st r))
                                             (App.monitor a)))
               (Client.disconnected_count (st r)))
            (clk r) (map seen_by_monitor (evs r)).
Proof.
  intros i a t Hrun r; subst r.
  unfold App.step. unfold_prog. cbn. rewrite Hrun. cbn.
  unfold App.on_status_thread.
  destruct (Client.status_check i _ t) as [x s t1 es].
  rewrite deliver_spec. cbn.
  destruct x; reflexivity.
Qed.

(** ** The status thread *)

Ltac exec_t :=
  cbn -[Qplus py_int str_int delay_Q];
  repeat (split_next; cbn -[Qplus py_int str_int delay_Q]).

Ltac bools_to_props :=
  repeat match goal with
    | H : (_ <=? _) = true |- _ => apply Z.leb_le in H
    | H : (_ <=? _) = false |- _ => apply Z.leb_gt in H
    | H : (_ =? _) = true |- _ => apply Z.eqb_eq in H
    | H : (_ =? _) = false |- _ => apply Z.eqb_neq in H
    end.

Ltac in_list :=
  repeat match goal with
    | |- _ \/ _ => (left; reflexivity) || right
    end.

(** What one iteration does, by the count [n] that its probe arrives at. *)
Lemma status_check_effects :
  forall (i : ProbeInput) (s : Client.StatusThread) (t : Q),
    let n := Client.disconnected_count (st (Client.probe i s t)) in
    let r := Client.status_check i s t in
    let c := Client.self s in
    let c' := Client.self (st r) in
    res r = Returned tt
    /\ Client.disconnected_count (st r) = (if n =? 5 then 0 else n)
    /\ forced_reconnections (evs r) = (if n =? 5 then 1%nat else 0%nat)
    /\ (3 <= n ->
          Client.mqtt_connected c' = false
          /\ Client.error_message c' <> ""
          /\ last_error_callback (evs r)
             = (if Client.error_callback c then Some (Client.error_message c')
                else None)
          /\ (Client.error_callback c = true ->
                In (ErrorCallback "Disconnected from MQTT broker") (evs r)))
    /\ (n <> 5 ->
          Client.mqtt_client c' = Client.mqtt_client c
          /\ Client.reconnect_attempts c' = Client.reconnect_attempts c
          /\ clk r = (t + 2 + delay_Q (sleep_late i))%Q)
    /\ (n = 5 ->
          Paho.client_id (Client.mqtt_client c')
          = (mqtt_client_id (Client.config c) ++ "_"
               ++ str_int (py_int (t + 1 + delay_Q (fr_late i))))%string
          /\ Client.reconnect_attempts c' = Client.reconnect_attempts c + 1
          /\ clk r = (t + 1 + delay_Q (fr_late i) + 2
                      + delay_Q (sleep_late i))%Q)
    /\ Client.config c' = Client.config c
    /\ Client.running c' = Client.running c
    /\ Client.error_callback c' = Client.error_callback c.
Proof.
  intros i s t n r c c'; subst n r c c'.
  destruct s as [c n].
  destruct c as [cfg conn rec att err cb sent lt lm run pc].
  destruct pc as [cid cs w rd lr].
  destruct i as [rep pg dr cr fl sl].
  unfold Client.status_check, Client.probe, Client.update_status,
    Client.force_reconnection, Client.on_self, Client.paho_publish,
    Client.paho_loop_stop, Client.paho_loop_start, Client.paho_disconnect,
    Client.paho_connect_async, Client.incr_disconnected_count,
    Client.call_error_callback, time_sleep.
  unfold_prog.
  exec_t; bools_to_props;
    repeat split; intros; try discriminate; try lia; try reflexivity;
    in_list.
Qed.




(** ** The monitoring thread *)

Lemma publishes_app :
  forall a b, publishes (a ++ b) = (publishes a ++ publishes b)%list.
Proof. intros; unfold publishes; apply filter_app. Qed.

Lemma forced_reconnections_app :
  forall a b, forced_reconnections (a ++ b)
              = (forced_reconnections a + forced_reconnections b)%nat.
Proof.
  intros; unfold forced_reconnections. now rewrite filter_app, length_app.
Qed.

Lemma sleeps_app : forall a b, sleeps (a ++ b) = (sleeps a ++ sleeps b)%list.
Proof. intros; unfold sleeps; apply flat_map_app. Qed.

(** What [publish_mic_state] does to the monitor: one call of paho's
    [publish] when [mqtt_connected] is set, none otherwise; it returns in
    every case and leaves the last published states and the connection
    flags alone. *)
Lemma publish_mic_state_effects :
  forall (o : PubOutcome) (topic : string) (state : Z) (level : Q)
         (m : Processor.MicrophoneMonitor) (t : Q),
    let r := Processor.publish_mic_state o topic state level m t in
    let c := Processor.mqtt_client m in
    let c' := Processor.mqtt_client (st r) in
    res r = Returned tt
    /\ clk r = t
    /\ publishes (evs r)
       = (if Client.mqtt_connected c
          then [Publish (Paho.client_id (Client.mqtt_client c)) topic
                        (MicJson state level t) 0 false o]
          else [])
    /\ forced_reconnections (evs r) = 0%nat
    /\ sleeps (evs r) = []
    /\ Processor.left_last_state (st r) = Processor.left_last_state m
    /\ Processor.right_last_state (st r) = Processor.right_last_state m
    /\ Processor.config (st r) = Processor.config m
    /\ Processor.running (st r) = Processor.running m
    /\ Processor.mic_manager (st r) = Processor.mic_manager m
    /\ Client.mqtt_connected c' = Client.mqtt_connected c
    /\ Client.mqtt_client c' = Client.mqtt_client c
    /\ Client.config c' = Client.config c
    /\ Client.running c' = Client.running c
    /\ Client.error_callback c' = Client.error_callback c
    /\ UI.left_level (Processor.ui (st r)) = UI.left_level (Processor.ui m)
    /\ UI.left_active (Processor.ui (st r)) = UI.left_active (Processor.ui m)
    /\ UI.right_level (Processor.ui (st r)) = UI.right_level (Processor.ui m)
    /\ UI.right_active (Processor.ui (st r))
       = UI.right_active (Processor.ui m).
Proof.
  intros o topic state level m t r c c'; subst r c c'.
  destruct m as [cfg u mic cl run ll rl].
  destruct cl as [ccfg conn rec att err cb sent lt lm crun pc].
  destruct u as [ull ula url ura uc ur ua us ut um ue].
  unfold Processor.publish_mic_state, Processor.on_mqtt_client,
    Client.publish, Client.paho_publish, Client.call_error_callback,
    Processor._handle_mqtt_error.
  unfold_prog.
  exec_t; repeat split; reflexivity.
Qed.

(** What [read_levels] does: it returns a pair of levels, calls nothing
    but [print], and a read that fails gives level 0. *)
Lemma read_levels_effects :
  forall (l r : StreamRead) (mic : Microphone.MicrophoneManager) (t : Q),
  exists (ll rl : Q) (es : list Event),
    Microphone.read_levels l r mic t = mkRes (Returned (ll, rl)) mic t es
    /\ publishes es = []
    /\ forced_reconnections es = 0%nat
    /\ sleeps es = []
    /\ (forall e, l = ReadFails e -> ll = 0%Q)
    /\ (forall e, r = ReadFails e -> rl = 0%Q)
    /\ (forall x, Microphone.left_stream mic = true -> l = Level x -> ll = x)
    /\ (forall x, Microphone.right_stream mic = true -> r = Level x ->
                  rl = x).
Proof.
  intros l r [ls rs] t.
  unfold Microphone.read_levels, Microphone.read_mic_level. unfold_prog.
  destruct ls, rs, l as [x|e], r as [y|e']; cbn;
    do 3 eexists; (split; [reflexivity|]);
    repeat split; intros; try discriminate; congruence.
Qed.

Ltac exec_m :=
  cbn -[Qplus py_int str_int delay_Q Processor.publish_mic_state active_of
        should_publish sleep_error publishes forced_reconnections sleeps];
  repeat (split_next;
          cbn -[Qplus py_int str_int delay_Q Processor.publish_mic_state
                active_of should_publish sleep_error publishes
                forced_reconnections sleeps]).

Ltac use_publish_mic_state :=
  repeat match goal with
    | H : Processor.publish_mic_state ?o ?tp ?s ?l ?m ?t = mkRes _ _ _ _ |- _ =>
        let P := fresh "P" in
        pose proof (publish_mic_state_effects o tp s l m t) as P;
        cbv zeta in P; rewrite H in P; cbn [res st clk evs] in P;
        clear H
    end.

Ltac norm_states :=
  repeat match goal with
    | P : _ /\ _ |- _ => destruct P
    end;
  cbn [Processor.config Processor.ui Processor.mic_manager
       Processor.mqtt_client Processor.running Processor.left_last_state
       Processor.right_last_state Processor.set_left_last_state
       Processor.set_right_last_state Processor.set_mic_manager
       Processor.set_ui Processor.on_ui UI.update_readings UI.left_level
       UI.left_active UI.right_level UI.right_active UI.set_error_message]
    in *;
  repeat match goal with
    | H : ?f ?s = _ |- _ =>
        is_var s;
        match type of s with Processor.MicrophoneMonitor => idtac end;
        try rewrite H in *; clear H
    | H : ?f (?g ?s) = _ |- _ =>
        is_var s;
        match type of s with Processor.MicrophoneMonitor => idtac end;
        try rewrite H in *; clear H
    | H : ?x = _ |- _ =>
        is_var x; match type of x with Q => idtac end; subst x
    end.

Ltac use_facts :=
  rewrite ?publishes_app, ?forced_reconnections_app, ?sleeps_app;
  repeat match goal with
    | H : publishes _ = _ |- _ => rewrite H; clear H
    | H : forced_reconnections _ = _ |- _ => rewrite H; clear H
    | H : sleeps _ = _ |- _ => rewrite H; clear H
    end;
  repeat match goal with
    | H : ?b = true |- context [?b] => rewrite H
    | H : ?b = false |- context [?b] => rewrite H
    end.

(** What one iteration of the monitoring loop does, for the levels [ll]
    and [rl] that [read_levels] returns. *)
Lemma monitoring_tick_effects :
  forall (i : TickInput) (m : Processor.MicrophoneMonitor) (t : Q)
         (ll rl : Q),
    res (Microphone.read_levels (left_read i) (right_read i)
           (Processor.mic_manager m) t) = Returned (ll, rl) ->
    let cfg := Processor.config m in
    let la := active_of ll (audio_threshold cfg) in
    let ra := active_of rl (audio_threshold cfg) in
    let c := Processor.mqtt_client m in
    let cid := Paho.client_id (Client.mqtt_client c) in
    let pl := Client.mqtt_connected c
              && should_publish la (Processor.left_last_state m) in
    let pr := Client.mqtt_connected c
              && should_publish ra (Processor.right_last_state m) in
    let d := match sleep_error (audio_check_interval cfg) with
             | None => audio_check_interval cfg
             | Some _ => 1%Q
             end in
    let r := Processor.monitoring_tick i m t in
    let c' := Processor.mqtt_client (st r) in
    res r = Returned tt
    /\ publishes (evs r)
       = ((if pl then [Publish cid (topic_left cfg) (MicJson la ll t) 0 false
                               (left_pub i)] else [])
          ++ (if pr then [Publish cid (topic_right cfg) (MicJson ra rl t) 0
                                  false (right_pub i)] else []))%list
    /\ Processor.left_last_state (st r)
       = (if pl then la else Processor.left_last_state m)
    /\ Processor.right_last_state (st r)
       = (if pr then ra else Processor.right_last_state m)
    /\ forced_reconnections (evs r) = 0%nat
    /\ sleeps (evs r) = [d]
    /\ clk r = (t + d + delay_Q (tick_late i))%Q
    /\ UI.left_level (Processor.ui (st r)) = ll
    /\ UI.left_active (Processor.ui (st r)) = la
    /\ UI.right_level (Processor.ui (st r)) = rl
    /\ UI.right_active (Processor.ui (st r)) = ra
    /\ Processor.config (st r) = cfg
    /\ Processor.running (st r) = Processor.running m
    /\ Client.mqtt_connected c' = Client.mqtt_connected c
    /\ Client.mqtt_client c' = Client.mqtt_client c
    /\ Client.config c' = Client.config c
    /\ Client.running c' = Client.running c.
Proof.
  intros i m t ll rl Hread cfg la ra c cid pl pr d r c'.
  subst c' r d pl pr cid c la ra cfg.
  destruct (read_levels_effects (left_read i) (right_read i)
              (Processor.mic_manager m) t)
    as (ll' & rl' & es & Hrd & Hpub & Hfr & Hsl & _).
  rewrite Hrd in Hread. cbn in Hread. injection Hread as -> ->.
  destruct m as [cfg u mic cl run lls rls].
  cbn [Processor.mic_manager] in Hrd.
  unfold Processor.monitoring_tick, Processor.on_mic_manager, time_sleep.
  change (sleep_error 1) with (@None string).
  unfold_prog. cbn [Processor.mic_manager Processor.config]. rewrite Hrd.
  exec_m; use_publish_mic_state; norm_states; try congruence; use_facts.
  all: cbn; repeat split; try reflexivity; try congruence.
Qed.

(** The publish decision, read as the claim words it. *)
Lemma should_publish_iff :
  forall active last_state : Z,
    should_publish active last_state = true
    <-> (active <> last_state \/ active = 1).
Proof.
  intros a l; unfold should_publish.
  destruct (Z.eqb_spec a l), (Z.eqb_spec a 1); cbn; split; intros H;
    try reflexivity; try discriminate; auto; destruct H; congruence.
Qed.

(** When no publish is decided, the reading is the last published state. *)
Lemma should_publish_false :
  forall active last_state : Z,
    should_publish active last_state = false -> active = last_state.
Proof.
  intros a l; unfold should_publish.
  destruct (Z.eqb_spec a l); cbn; [auto | discriminate].
Qed.


(** *** The same for main.py *)

Lemma tui_read_mic_level_effects :
  forall (stream : bool) (x : StreamRead) (m : Tui.MicrophoneMonitorTUI)
         (t : Q),
    let r := Tui.read_mic_level stream x m t in
    (exists l, res r = Returned l
               /\ (forall e, x = ReadFails e -> l = 0%Q)
               /\ (stream = false -> l = 0%Q))
    /\ clk r = t
    /\ evs r = []
    /\ (forall e, stream = true -> x = ReadFails e ->
                  Tui.error_message (st r)
                  = ("Error reading microphone data: " ++ e)%string)
    /\ Tui.left_last_state (st r) = Tui.left_last_state m
    /\ Tui.right_last_state (st r) = Tui.right_last_state m
    /\ Tui.left_level (st r) = Tui.left_level m
    /\ Tui.left_active (st r) = Tui.left_active m
    /\ Tui.right_level (st r) = Tui.right_level m
    /\ Tui.right_active (st r) = Tui.right_active m
    /\ Tui.mqtt_connected (st r) = Tui.mqtt_connected m
    /\ Tui.mqtt_client (st r) = Tui.mqtt_client m
    /\ Tui.config (st r) = Tui.config m
    /\ Tui.running (st r) = Tui.running m
    /\ Tui.left_stream (st r) = Tui.left_stream m
    /\ Tui.right_stream (st r) = Tui.right_stream m.
Proof.
  intros stream x m t r; subst r.
  destruct m.
  unfold Tui.read_mic_level. unfold_prog.
  destruct stream, x as [l|e]; cbn; (split; [eexists; split; [reflexivity|]|]);
    repeat split; intros; try discriminate; try congruence.
Qed.

Lemma tui_publish_mic_state_effects :
  forall (o : PubOutcome) (topic : string) (state : Z) (level : Q)
         (m : Tui.MicrophoneMonitorTUI) (t : Q),
    let r := Tui.publish_mic_state o topic state level m t in
    let m' := st r in
    res r = Returned tt
    /\ clk r = t
    /\ evs r
       = (if Tui.mqtt_connected m
          then [Publish (Paho.client_id (Tui.mqtt_client m)) topic
                        (MicJson state level t) 0 false o]
          else [])
    /\ Tui.left_last_state m' = Tui.left_last_state m
    /\ Tui.right_last_state m' = Tui.right_last_state m
    /\ Tui.left_level m' = Tui.left_level m
    /\ Tui.left_active m' = Tui.left_active m
    /\ Tui.right_level m' = Tui.right_level m
    /\ Tui.right_active m' = Tui.right_active m
    /\ Tui.mqtt_connected m' = Tui.mqtt_connected m
    /\ Tui.mqtt_client m' = Tui.mqtt_client m
    /\ Tui.config m' = Tui.config m
    /\ Tui.running m' = Tui.running m.
Proof.
  intros o topic state level m t r m'; subst m' r.
  destruct m.
  unfold Tui.publish_mic_state, Tui.paho_publish. unfold_prog.
  exec_t; repeat split; reflexivity.
Qed.

Ltac exec_tui :=
  cbn -[Qplus py_int str_int delay_Q Tui.publish_mic_state
        Tui.read_mic_level active_of should_publish sleep_error publishes
        forced_reconnections sleeps];
  repeat (split_next;
          cbn -[Qplus py_int str_int delay_Q Tui.publish_mic_state
                Tui.read_mic_level active_of should_publish sleep_error
                publishes forced_reconnections sleeps]).

Ltac use_tui_effects :=
  repeat match goal with
    | H : Tui.publish_mic_state ?o ?tp ?s ?l ?m ?t = mkRes _ _ _ _ |- _ =>
        let P := fresh "P" in
        pose proof (tui_publish_mic_state_effects o tp s l m t) as P;
        cbv zeta in P; rewrite H in P; cbn [res st clk evs] in P;
        clear H
    | H : Tui.read_mic_level ?s ?x ?m ?t = mkRes _ _ _ _ |- _ =>
        let P := fresh "P" in
        pose proof (tui_read_mic_level_effects s x m t) as P;
        cbv zeta in P; rewrite H in P; cbn [res st clk evs] in P;
        clear H
    end.

Ltac norm_tui :=
  repeat match goal with
    | P : _ /\ _ |- _ => destruct P
    | P : exists _, _ |- _ => destruct P
    end;
  cbn [Tui.config Tui.mqtt_client Tui.left_stream Tui.right_stream
       Tui.left_last_state Tui.right_last_state Tui.left_level
       Tui.left_active Tui.right_level Tui.right_active Tui.mqtt_connected
       Tui.running Tui.set_left_level Tui.set_right_level
       Tui.set_left_active Tui.set_right_active Tui.set_left_last_state
       Tui.set_right_last_state Tui.set_error_message] in *;
  repeat match goal with
    | H : ?f ?s = _ |- _ =>
        is_var s;
        match type of s with Tui.MicrophoneMonitorTUI => idtac end;
        try rewrite H in *; clear H
    | H : ?x = _ |- _ =>
        is_var x; match type of x with Q => idtac end; subst x
    | H : ?x = _ |- _ =>
        is_var x; match type of x with list Event => idtac end; subst x
    | H : Returned _ = Returned _ |- _ => injection H as H
    end.

(** What one iteration of the monitoring loop of main.py does; the levels
    and readings are the ones the iteration stores in the object. *)
Lemma tui_monitoring_tick_effects :
  forall (i : TickInput) (m : Tui.MicrophoneMonitorTUI) (t : Q),
    let cfg := Tui.config m in
    let r := Tui.monitoring_tick i m t in
    let m' := st r in
    let ll := Tui.left_level m' in
    let rl := Tui.right_level m' in
    let la := Tui.left_active m' in
    let ra := Tui.right_active m' in
    let cid := Paho.client_id (Tui.mqtt_client m) in
    let pl := Tui.mqtt_connected m
              && should_publish la (Tui.left_last_state m) in
    let pr := Tui.mqtt_connected m
              && should_publish ra (Tui.right_last_state m) in
    let d := match sleep_error (audio_check_interval cfg) with
             | None => audio_check_interval cfg
             | Some _ => 1%Q
             end in
    res r = Returned tt
    /\ la = active_of ll (audio_threshold cfg)
    /\ ra = active_of rl (audio_threshold cfg)
    /\ publishes (evs r)
       = ((if pl then [Publish cid (topic_left cfg) (MicJson la ll t) 0 false
                               (left_pub i)] else [])
          ++ (if pr then [Publish cid (topic_right cfg) (MicJson ra rl t) 0
                                  false (right_pub i)] else []))%list
    /\ Tui.left_last_state m'
       = (if pl then la else Tui.left_last_state m)
    /\ Tui.right_last_state m'
       = (if pr then ra else Tui.right_last_state m)
    /\ forced_reconnections (evs r) = 0%nat
    /\ sleeps (evs r) = [d]
    /\ clk r = (t + d + delay_Q (tick_late i))%Q
    /\ (forall e, left_read i = ReadFails e -> ll = 0%Q)
    /\ (forall e, right_read i = ReadFails e -> rl = 0%Q)
    /\ Tui.mqtt_connected m' = Tui.mqtt_connected m
    /\ Tui.mqtt_client m' = Tui.mqtt_client m.
Proof.
  intros i m t cfg r m' ll rl la ra cid pl pr d.
  subst d pr pl cid ra la rl ll m' r cfg.
  destruct m as [cfg pc ls rs lls rls ll la rl ra conn sent lt lm rec att run
                   err].
  unfold Tui.monitoring_tick, time_sleep.
  change (sleep_error 1) with (@None string).
  unfold_prog.
  exec_tui; use_tui_effects; norm_tui; try congruence.
  all: cbn; repeat split; try reflexivity; try congruence; auto.
Qed.

(** ** The publish decision *)

(** C1.  On every iteration of the monitoring loop that finds
    [mqtt_connected] set, and for each of the two channels: paho's
    [publish] is called for the channel exactly when the reading differs
    from the channel's last published state or the reading is 1 -- so not
    when both are 0 -- and whatever that publish answers, the last
    published state is the reading afterwards.  The calls of [publish] of
    the iteration are the one for the left channel, if decided, followed
    by the one for the right channel, if decided.  This holds for
    processor.py and for main.py. *)
Theorem publish_decision_edge_triggered :
  (forall (i : TickInput) (m : Processor.MicrophoneMonitor) (t : Q)
          (ll rl : Q),
      res (Microphone.read_levels (left_read i) (right_read i)
             (Processor.mic_manager m) t) = Returned (ll, rl) ->
      Client.mqtt_connected (Processor.mqtt_client m) = true ->
      let cfg := Processor.config m in
      let la := active_of ll (audio_threshold cfg) in
      let ra := active_of rl (audio_threshold cfg) in
      let cid := Paho.client_id (Client.mqtt_client (Processor.mqtt_client m)) in
      let r := Processor.monitoring_tick i m t in
      publishes (evs r)
      = ((if should_publish la (Processor.left_last_state m)
          then [Publish cid (topic_left cfg) (MicJson la ll t) 0 false
                        (left_pub i)]
          else [])
         ++ (if should_publish ra (Processor.right_last_state m)
             then [Publish cid (topic_right cfg) (MicJson ra rl t) 0 false
                           (right_pub i)]
             else []))%list
      /\ (should_publish la (Processor.left_last_state m) = true
          <-> la <> Processor.left_last_state m \/ la = 1)
      /\ (should_publish ra (Processor.right_last_state m) = true
          <-> ra <> Processor.right_last_state m \/ ra = 1)
      /\ Processor.left_last_state (st r) = la
      /\ Processor.right_last_state (st r) = ra)
  /\ (forall (i : TickInput) (m : Tui.MicrophoneMonitorTUI) (t : Q),
        Tui.mqtt_connected m = true ->
        let cfg := Tui.config m in
        let r := Tui.monitoring_tick i m t in
        let ll := Tui.left_level (st r) in
        let rl := Tui.right_level (st r) in
        let la := Tui.left_active (st r) in
        let ra := Tui.right_active (st r) in
        let cid := Paho.client_id (Tui.mqtt_client m) in
        la = active_of ll (audio_threshold cfg)
        /\ ra = active_of rl (audio_threshold cfg)
        /\ publishes (evs r)
           = ((if should_publish la (Tui.left_last_state m)
               then [Publish cid (topic_left cfg) (MicJson la ll t) 0 false
                             (left_pub i)]
               else [])
              ++ (if should_publish ra (Tui.right_last_state m)
                  then [Publish cid (topic_right cfg) (MicJson ra rl t) 0
                                false (right_pub i)]
                  else []))%list
        /\ (should_publish la (Tui.left_last_state m) = true
            <-> la <> Tui.left_last_state m \/ la = 1)
        /\ (should_publish ra (Tui.right_last_state m) = true
            <-> ra <> Tui.right_last_state m \/ ra = 1)
        /\ Tui.left_last_state (st r) = la
        /\ Tui.right_last_state (st r) = ra).
Proof.
  split.
  - intros i m t ll rl Hread Hconn cfg la ra cid r.
    destruct (monitoring_tick_effects i m t ll rl Hread)
      as (_ & Hpub & Hl & Hr & _).
    rewrite Hconn in Hpub, Hl, Hr. cbn [andb] in Hpub, Hl, Hr.
    fold cfg la ra cid r in Hpub, Hl, Hr.
    split; [exact Hpub|].
    split; [apply should_publish_iff|].
    split; [apply should_publish_iff|].
    rewrite Hl, Hr. split.
    + destruct (should_publish la _) eqn:E; [reflexivity|].
      symmetry. now apply should_publish_false.
    + destruct (should_publish ra _) eqn:E; [reflexivity|].
      symmetry. now apply should_publish_false.
  - intros i m t Hconn cfg r ll rl la ra cid.
    destruct (tui_monitoring_tick_effects i m t)
      as (_ & Hla & Hra & Hpub & Hl & Hr & _).
    rewrite Hconn in Hpub, Hl, Hr. cbn [andb] in Hpub, Hl, Hr.
    fold cfg r ll rl la ra cid in Hla, Hra, Hpub, Hl, Hr.
    split; [exact Hla|]. split; [exact Hra|].
    split; [exact Hpub|].
    split; [apply should_publish_iff|].
    split; [apply should_publish_iff|].
    rewrite Hl, Hr. split.
    + destruct (should_publish la _) eqn:E; [reflexivity|].
      symmetry. now apply should_publish_false.
    + destruct (should_publish ra _) eqn:E; [reflexivity|].
      symmetry. now apply should_publish_false.
Qed.

Lemma publish_decision_edge_triggered_witness :
  let m := Processor.set_mqtt_client
             (Client.set_mqtt_connected true (Client.init default_config true))
             (Processor.init default_config true true) in
  let i := mkTick (Level (600 # 1)) (Level (100 # 1)) (PubRc 0) (PubRc 0)
                  (0%N, 1%positive) in
  publishes (evs (Processor.monitoring_tick i m 0%Q))
  = [Publish "mic_monitor" "microphones/left" (MicJson 1 (600 # 1) 0%Q) 0
             false (PubRc 0)]
  /\ Processor.left_last_state (st (Processor.monitoring_tick i m 0%Q)) = 1.
Proof.
  intros m i.
  destruct (proj1 publish_decision_edge_triggered i m 0%Q (600 # 1) (100 # 1)
              eq_refl eq_refl) as (Hp & _ & _ & Hl & _).
  split; [exact Hp | exact Hl].
Defined.

(** The scenario of the specification: threshold 500 and the readings
    100, 600, 600, 100 on the left channel of a connected monitor publish
    nothing, then state 1, state 1 again, then state 0. *)
Example readings_100_600_600_100 :
  let m := Processor.set_running true
             (Processor.set_mqtt_client
                (Client.set_mqtt_connected true
                   (Client.init default_config true))
                (Processor.init default_config true true)) in
  let tick x := mkTick (Level (x # 1)) (Level 0) (PubRc 0) (PubRc 0)
                       (0%N, 1%positive) in
  map (fun e => match e with
                | Publish _ _ (MicJson s l _) _ _ _ => (s, l)
                | _ => (0, 0%Q)
                end)
      (publishes (evs (Processor.monitoring_thread
                         [tick 100; tick 600; tick 600; tick 100] m 0%Q)))
  = [(1, 600 # 1); (1, 600 # 1); (0, 100 # 1)].
Proof. vm_compute. reflexivity. Qed.

(** * The rest of the connection manager *)

(** ** [MQTTClient.connect] *)

(** X1.  [connect()] never raises and returns whether paho's [connect_async]
    went through.  Either way it has registered the retained offline status
    as last will and a reconnect delay of 1 to 10 seconds before asking for
    the connection, and it publishes nothing.  The network loop is started
    only when [connect_async] did not raise; when it raised, the exception
    is recorded in [error_message] and handed to the error callback.
    [mqtt_connected] is not touched: until the broker's acknowledgment
    arrives, [publish] on a client that was not connected refuses. *)
Theorem connect_registers_will_and_reports :
  forall (raises : option string) (c : Client.MQTTClient) (t : Q),
    let r := Client.connect raises c t in
    let p := Client.mqtt_client (st r) in
    let cid := Paho.client_id (Client.mqtt_client c) in
    let failure e := "Failed to connect to MQTT broker: " ++ e in
    res r = Returned (match raises with None => true | Some _ => false end)
    /\ Paho.will p
       = Some ("microphones/status", StatusJson "offline", 1, true)
    /\ Paho.reconnect_delay p = Some (1, 10)
    /\ Paho.client_id p = cid
    /\ Paho.loop_running p
       = match raises with
         | None => true
         | Some _ => Paho.loop_running (Client.mqtt_client c)
         end
    /\ evs r
       = ConnectAsync cid (mqtt_broker (Client.config c))
                      (mqtt_port (Client.config c)) 60 raises
         :: match raises with
            | None => [LoopStart cid]
            | Some e => if Client.error_callback c
                        then [ErrorCallback (failure e)] else []
            end
    /\ Client.error_message (st r)
       = match raises with
         | None => Client.error_message c
         | Some e => failure e
         end
    /\ Client.mqtt_connected (st r) = Client.mqtt_connected c
    /\ clk r = t
    /\ (forall (o : PubOutcome) (topic : string) (payload : Payload),
          Client.mqtt_connected c = false ->
          let r2 := Client.publish o topic payload (st r) (clk r) in
          res r2 = Returned false /\ evs r2 = []).
Proof.
  intros raises c t r p cid failure; subst failure cid p r.
  destruct c as [cfg conn rec att err cb sent lt lm run pc].
  destruct pc as [pid cs w rd lr].
  unfold Client.connect, Client.publish, Client.paho_connect_async,
    Client.paho_loop_start, Client.call_error_callback.
  unfold_prog.
  destruct raises as [e|], cb; cbn; repeat split; intros; subst;
    reflexivity.
Qed.

Lemma connect_registers_will_and_reports_witness :
  let r := Client.connect None (Client.init default_config true) 0%Q in
  res (Client.publish (PubRc 0) "microphones/left" (MicJson 1 (600 # 1) 0%Q)
         (st r) (clk r)) = Returned false.
Proof.
  intros r.
  destruct (connect_registers_will_and_reports None
              (Client.init default_config true) 0%Q)
    as (_ & _ & _ & _ & _ & _ & _ & _ & _ & H).
  exact (proj1 (H (PubRc 0) "microphones/left" (MicJson 1 (600 # 1) 0%Q)
                  eq_refl)).
Defined.

(** ** [MQTTClient.on_mqtt_connect], when the broker refuses *)

(** X2.  When the broker answers a connection request with a reason code other
    than 0, [on_mqtt_connect] clears [mqtt_connected], records the reason
    in [error_message], hands it to the error callback and calls nothing
    on the paho client: no online status is published.  The retry
    bookkeeping ([mqtt_reconnecting], [reconnect_attempts]) and the message
    counters are left as they are. *)
Theorem connack_refused_effects :
  forall (reason_code : ReasonCode) (o : PubOutcome) (c : Client.MQTTClient)
         (t : Q),
    rc_value reason_code <> 0 ->
    let r := Client.on_mqtt_connect reason_code o c t in
    let msg := "Failed to connect to MQTT broker: " ++ rc_text reason_code in
    res r = Returned tt
    /\ Client.mqtt_connected (st r) = false
    /\ Client.error_message (st r) = msg
    /\ evs r = (if Client.error_callback c then [ErrorCallback msg] else [])
    /\ Client.mqtt_reconnecting (st r) = Client.mqtt_reconnecting c
    /\ Client.reconnect_attempts (st r) = Client.reconnect_attempts c
    /\ Client.mqtt_messages_sent (st r) = Client.mqtt_messages_sent c
    /\ Client.last_message (st r) = Client.last_message c
    /\ Client.mqtt_client (st r) = Client.mqtt_client c
    /\ clk r = t.
Proof.
  intros reason_code o c t Hrc r msg; subst msg r.
  destruct c as [cfg conn rec att err cb sent lt lm run pc].
  unfold Client.on_mqtt_connect, Client.call_error_callback.
  apply Z.eqb_neq in Hrc. rewrite Hrc.
  unfold_prog. destruct cb; cbn; repeat split; reflexivity.
Qed.

Lemma connack_refused_effects_witness :
  let r := Client.on_mqtt_connect (mkReasonCode 135 "Not authorized")
             (PubRc 0) (Client.init default_config true) 0%Q in
  Client.mqtt_connected (st r) = false
  /\ evs r = [ErrorCallback "Failed to connect to MQTT broker: Not authorized"].
Proof.
  intros r.
  destruct (connack_refused_effects (mkReasonCode 135 "Not authorized")
              (PubRc 0) (Client.init default_config true) 0%Q)
    as (_ & Hc & _ & He & _).
  - cbn. discriminate.
  - split; [exact Hc | exact He].
Defined.

(** ** [MQTTClient.on_mqtt_disconnect] *)

(** X3.  When paho reports the connection lost, [on_mqtt_disconnect] clears
    [mqtt_connected], sets [mqtt_reconnecting], records a message and
    hands it to the error callback, without calling the paho client.  The
    message does not name the reason: what the method formats is its third
    argument, which for this client is paho's [DisconnectFlags], so it
    reads [Disconnected from MQTT broker: DisconnectFlags(...)] whatever
    the reason code is.  From then on [publish] refuses without sending,
    and the message counters stay as they were before the connection was
    lost. *)
Theorem connection_lost_stops_publishing :
  forall (disconnect_flags : DisconnectFlags) (reason_code : ReasonCode)
         (c : Client.MQTTClient) (t : Q)
         (o : PubOutcome) (topic : string) (payload : Payload),
    let r := Client.on_mqtt_disconnect disconnect_flags reason_code c t in
    let msg := "Disconnected from MQTT broker: "
                 ++ "DisconnectFlags(is_disconnect_packet_from_server="
                 ++ (if is_disconnect_packet_from_server disconnect_flags
                     then "True" else "False")
                 ++ ")" in
    let r2 := Client.publish o topic payload (st r) (clk r) in
    res r = Returned tt
    /\ Client.mqtt_connected (st r) = false
    /\ Client.mqtt_reconnecting (st r) = true
    /\ Client.error_message (st r) = msg
    /\ evs r = (if Client.error_callback c then [ErrorCallback msg] else [])
    /\ Client.reconnect_attempts (st r) = Client.reconnect_attempts c
    /\ Client.mqtt_client (st r) = Client.mqtt_client c
    /\ res r2 = Returned false
    /\ evs r2 = []
    /\ Client.mqtt_messages_sent (st r2) = Client.mqtt_messages_sent c
    /\ Client.last_message (st r2) = Client.last_message c
    /\ Client.last_message_time (st r2) = Client.last_message_time c.
Proof.
  intros flags reason_code c t o topic payload r msg r2; subst r2 msg r.
  destruct c as [cfg conn rec att err cb sent lt lm run pc].
  unfold Client.on_mqtt_disconnect, Client.publish,
    Client.call_error_callback, str_flags.
  unfold_prog. destruct cb; cbn; repeat split; reflexivity.
Qed.

(** The message for a connection that the broker closed with reason code
    139. *)
Example connection_lost_message :
  Client.error_message
    (st (Client.on_mqtt_disconnect (mkDisconnectFlags true)
           (mkReasonCode 139 "Server shutting down")
           (Client.init default_config true) 0%Q))
  = "Disconnected from MQTT broker: DisconnectFlags(is_disconnect_packet_from_server=True)".
Proof. reflexivity. Qed.

(** ** [MQTTClient.force_reconnection] *)

(** X4.  [force_reconnection()] never raises and returns whether paho's
    [connect_async] on the new client went through.  In this order it
    stops the network loop of the old client, asks it to disconnect (an
    exception of that call is dropped), sleeps one second, creates one new
    client, asks it to connect and, unless that raised, starts its network
    loop; then the error callback is given the outcome.  Whether or not the
    connection request raised, the new client is installed with a clean
    session, the retained offline status as last will and a reconnect delay
    of 1 to 30 seconds, [mqtt_connected] is false, [mqtt_reconnecting] is
    true and [reconnect_attempts] has grown by one.  Nothing is published
    and the message counters are kept. *)
Theorem force_reconnection_effects :
  forall (disc_raises conn_raises : option string) (late : Delay)
         (c : Client.MQTTClient) (t : Q),
    let r := Client.force_reconnection disc_raises conn_raises late c t in
    let cfg := Client.config c in
    let old := Paho.client_id (Client.mqtt_client c) in
    let p := Client.mqtt_client (st r) in
    let new := Paho.client_id p in
    let ok := match conn_raises with None => true | Some _ => false end in
    let msg := match conn_raises with
               | None => "Forcing reconnection (attempt "
                           ++ str_int (Client.reconnect_attempts c + 1)
                           ++ ")..."
               | Some e => "Reconnection failed: " ++ e
               end in
    res r = Returned ok
    /\ new = mqtt_client_id cfg ++ "_"
               ++ str_int (py_int (t + 1 + delay_Q late))
    /\ evs r
       = ([LoopStop old;
           Disconnect old (match disc_raises with
                           | Some _ => true | None => false end);
           Slept 1;
           NewClient new;
           ConnectAsync new (mqtt_broker cfg) (mqtt_port cfg) 60 conn_raises]
          ++ (if ok then [LoopStart new] else [])
          ++ (if Client.error_callback c then [ErrorCallback msg] else []))%list
    /\ Paho.clean_session p = true
    /\ Paho.will p
       = Some ("microphones/status", StatusJson "offline", 1, true)
    /\ Paho.reconnect_delay p = Some (1, 30)
    /\ Paho.loop_running p = ok
    /\ Client.mqtt_connected (st r) = false
    /\ Client.mqtt_reconnecting (st r) = true
    /\ Client.reconnect_attempts (st r) = Client.reconnect_attempts c + 1
    /\ Client.error_message (st r) = msg
    /\ Client.mqtt_messages_sent (st r) = Client.mqtt_messages_sent c
    /\ Client.last_message (st r) = Client.last_message c
    /\ Client.running (st r) = Client.running c
    /\ clk r = (t + 1 + delay_Q late)%Q.
Proof.
  intros dr cr late c t r cfg old p new ok msg; subst msg ok new p old cfg r.
  destruct c as [cfg conn rec att err cb sent lt lm run pc].
  destruct pc as [pid cs w rd lr].
  unfold Client.force_reconnection, Client.paho_loop_stop,
    Client.paho_loop_start, Client.paho_disconnect,
    Client.paho_connect_async, Client.call_error_callback, time_sleep.
  change (sleep_error 1) with (@None string).
  unfold_prog.
  destruct dr as [e1|], cr as [e2|], cb;
    cbn -[Qplus py_int str_int delay_Q]; repeat split; reflexivity.
Qed.

(** ** The status thread over many iterations *)

(** A failing probe adds one to the count and cannot set
    [mqtt_connected]. *)
Lemma status_check_failing :
  forall (i : ProbeInput) (s : Client.StatusThread) (t : Q),
    probe_fails i = true ->
    Client.disconnected_count (st (Client.probe i s t))
    = Client.disconnected_count s + 1
    /\ (Client.mqtt_connected (Client.self s) = false ->
        Client.mqtt_connected (Client.self (st (Client.status_check i s t)))
        = false).
Proof.
  intros i s t Hf.
  destruct s as [c n].
  destruct c as [cfg conn rec att err cb sent lt lm run pc].
  destruct pc as [cid cs w rd lr].
  destruct i as [rep pg dr cr fl sl].
  unfold probe_fails in Hf. cbn in Hf.
  unfold Client.status_check, Client.probe, Client.update_status,
    Client.force_reconnection, Client.on_self, Client.paho_publish,
    Client.paho_loop_stop, Client.paho_loop_start, Client.paho_disconnect,
    Client.paho_connect_async, Client.incr_disconnected_count,
    Client.call_error_callback, time_sleep.
  unfold_prog.
  destruct rep; [destruct pg as [rc|e]|]; cbn in Hf.
  - apply negb_true_iff in Hf. unfold MQTT_ERR_SUCCESS in *.
    cbn -[Qplus py_int str_int delay_Q]. rewrite Hf.
    exec_t; split; intros; try reflexivity; try discriminate; congruence.
  - exec_t; split; intros; try reflexivity; try discriminate; congruence.
  - exec_t; split; intros; try reflexivity; try discriminate; congruence.
Qed.

Lemma status_check_loop_failing :
  forall (inputs : list ProbeInput) (s : Client.StatusThread) (t : Q),
    Client.running (Client.self s) = true ->
    0 <= Client.disconnected_count s < 5 ->
    forallb probe_fails inputs = true ->
    let r := Client.status_check_loop inputs s t in
    let n := Client.disconnected_count s in
    let k := Z.of_nat (List.length inputs) in
    res r = Returned tt
    /\ Client.disconnected_count (st r) = (n + k) mod 5
    /\ Z.of_nat (forced_reconnections (evs r)) = (n + k) / 5
    /\ Client.reconnect_attempts (Client.self (st r))
       = Client.reconnect_attempts (Client.self s) + (n + k) / 5
    /\ (Client.mqtt_connected (Client.self s) = false
        \/ (1 <= k /\ 3 <= n + k) ->
        Client.mqtt_connected (Client.self (st r)) = false)
    /\ (t + 2 * inject_Z k <= clk r)%Q
    /\ Client.running (Client.self (st r)) = true.
Proof.
  induction inputs as [|i rest IH]; intros s t Hrun Hn Hall; cbv zeta.
  - cbn. rewrite Z.add_0_r, Z.mod_small, Z.div_small by lia.
    repeat split; try reflexivity; try lia; try assumption.
    + intros [H|H]; [assumption | lia].
    + change (inject_Z 0) with 0%Q. lra.
  - cbn [forallb] in Hall. apply andb_true_iff in Hall as [Hf Hall].
    cbn [Client.status_check_loop]. unfold bind, get. cbn [app].
    rewrite Hrun.
    destruct (status_check_failing i s t Hf) as (Hcount & Hkeep).
    destruct (status_check_effects i s t)
      as (Hres & Hc & Hfr & H3 & Hne & He & _ & Hrun' & _).
    rewrite Hcount in Hc, Hfr, H3, Hne, He.
    destruct (Client.status_check i s t) as [x s1 t1 es1].
    cbn [res st evs clk] in *. subst x.
    assert (Hn1 : 0 <= Client.disconnected_count s1 < 5).
    { rewrite Hc. destruct (Z.eqb_spec (Client.disconnected_count s + 1) 5);
        lia. }
    assert (Hrun1 : Client.running (Client.self s1) = true) by congruence.
    specialize (IH s1 t1 Hrun1 Hn1 Hall). cbv zeta in IH.
    destruct (Client.status_check_loop rest s1 t1) as [y s2 t2 es2].
    cbn [res st evs clk] in *.
    destruct IH as (Hres2 & Hc2 & Hfr2 & Hat2 & Hconn2 & Hclk2 & Hrun2).
    subst y. cbn [res st evs clk List.length]. rewrite app_nil_l.
    rewrite forced_reconnections_app, Nat2Z.inj_add, Hfr, Hfr2, Hc2, Hat2, Hc.
    rewrite Nat2Z.inj_succ.
    set (n := Client.disconnected_count s) in *.
    set (k := Z.of_nat (List.length rest)) in *.
    assert (Hk : 0 <= k) by (subst k; lia).
    destruct (Z.eqb_spec (n + 1) 5) as [E|E].
    + destruct (He E) as (_ & Hat & Hclk).
      assert (Hn4 : n = 4) by lia.
      rewrite Hn4 in *.
      replace (4 + Z.succ k) with (k + 1 * 5) by lia.
      rewrite Z.mod_add, Z.div_add by lia. rewrite !Z.add_0_l.
      repeat split; try assumption; try reflexivity.
      * cbn [Z.of_nat]. lia.
      * rewrite Hat. lia.
      * intros _. apply Hconn2. left. apply H3. lia.
      * pose proof (delay_nonneg (fr_late i)).
        pose proof (delay_nonneg (sleep_late i)).
        unfold Z.succ. rewrite inject_Z_plus.
        change (inject_Z 1) with 1%Q. rewrite Hclk in Hclk2. lra.
    + destruct (Hne E) as (_ & Hat & Hclk).
      replace (n + Z.succ k) with (n + 1 + k) by lia.
      rewrite Z.add_0_l.
      repeat split; try assumption; try reflexivity.
      * rewrite Hat. reflexivity.
      * intros [Hd|[_ H3k]].
        -- apply Hconn2. left. now apply Hkeep.
        -- destruct (Z_le_gt_dec 3 (n + 1)) as [G|G].
           ++ apply Hconn2. left. now apply H3.
           ++ apply Hconn2. right. lia.
      * pose proof (delay_nonneg (sleep_late i)).
        unfold Z.succ. rewrite inject_Z_plus.
        change (inject_Z 1) with 1%Q. rewrite Hclk in Hclk2. lra.
Qed.

(** X5.  Started on a client, the status thread meets probe after probe that
    fails: [is_connected()] answers false, or the ping is refused or
    raises.  Then it never ends by an exception, it forces a reconnection
    on every fifth probe and on no other -- [k] probes give [k / 5] new
    clients and as many reconnect attempts --, [mqtt_connected] is false
    once three probes have failed, and the [k] iterations take at least
    [2 * k] seconds. *)
Theorem failing_probes_force_every_fifth :
  forall (inputs : list ProbeInput) (c : Client.MQTTClient) (t : Q),
    forallb probe_fails inputs = true ->
    let r := Client.start_status_check inputs c t in
    let k := List.length inputs in
    res r = Returned tt
    /\ forced_reconnections (evs r) = (k / 5)%nat
    /\ Client.reconnect_attempts (st r)
       = Client.reconnect_attempts c + Z.of_nat (k / 5)
    /\ ((3 <= k)%nat -> Client.mqtt_connected (st r) = false)
    /\ (t + 2 * inject_Z (Z.of_nat k) <= clk r)%Q
    /\ Client.running (st r) = true.
Proof.
  intros inputs c t Hall r k; subst r k.
  assert (E : Client.start_status_check inputs c t
              = match Client.status_check_loop inputs
                        (Client.mkStatus (Client.set_running true c) 0) t with
                | mkRes x s t1 es => mkRes x (Client.self s) t1 es
                end).
  { unfold Client.start_status_check, Client._status_check_thread.
    unfold_prog.
    cbv beta iota.
    destruct (Client.status_check_loop inputs _ t); reflexivity. }
  rewrite E. clear E.
  pose proof (status_check_loop_failing inputs
                (Client.mkStatus (Client.set_running true c) 0) t
                eq_refl ltac:(cbn; lia) Hall) as H.
  cbv zeta in H.
  destruct (Client.status_check_loop inputs
              (Client.mkStatus (Client.set_running true c) 0) t)
    as [x s1 t1 es1].
  cbn [res st evs clk Client.self Client.disconnected_count] in *.
  destruct H as (Hres & _ & Hfr & Hat & Hconn & Hclk & Hrun).
  rewrite Z.add_0_l in *.
  repeat split; try assumption.
  - apply Nat2Z.inj. rewrite Hfr, Nat2Z.inj_div. reflexivity.
  - rewrite Hat, Nat2Z.inj_div.
    destruct c; reflexivity.
  - intros Hk. apply Hconn. right. lia.
Qed.

Lemma failing_probes_force_every_fifth_witness :
  let down := mkProbe false (PubRc 0) None None (0%N, 1%positive)
                      (0%N, 1%positive) in
  forced_reconnections
    (evs (Client.start_status_check (repeat down 11)
            (Client.init default_config true) 0%Q)) = 2%nat.
Proof.
  intros down.
  exact (proj1 (proj2 (failing_probes_force_every_fifth (repeat down 11)
                         (Client.init default_config true) 0%Q eq_refl))).
Defined.

(** ** A probe that paho accepts *)

(** X6.  When [is_connected()] answers true and the ping is accepted, the
    iteration sets [mqtt_connected], clears [mqtt_reconnecting] and resets
    the count to 0, whatever the count was; it calls paho only for the
    ping, forces no reconnection and calls no error callback.  The ping is
    not counted as a message sent, and neither [error_message] nor
    [reconnect_attempts] is reset: an earlier error stays on display until
    something else replaces it. *)
Theorem accepted_probe_marks_connected :
  forall (i : ProbeInput) (s : Client.StatusThread) (t : Q),
    reported_connected i = true ->
    ping i = PubRc MQTT_ERR_SUCCESS ->
    let r := Client.status_check i s t in
    let c := Client.self s in
    let c' := Client.self (st r) in
    res r = Returned tt
    /\ Client.mqtt_connected c' = true
    /\ Client.mqtt_reconnecting c' = false
    /\ Client.disconnected_count (st r) = 0
    /\ evs r = [Publish (Paho.client_id (Client.mqtt_client c))
                        "microphones/ping" (RawText "ping") 0 false
                        (PubRc MQTT_ERR_SUCCESS);
                Slept 2]
    /\ Client.error_message c' = Client.error_message c
    /\ Client.reconnect_attempts c' = Client.reconnect_attempts c
    /\ Client.mqtt_messages_sent c' = Client.mqtt_messages_sent c
    /\ Client.last_message c' = Client.last_message c
    /\ Client.mqtt_client c' = Client.mqtt_client c
    /\ clk r = (t + 2 + delay_Q (sleep_late i))%Q.
Proof.
  intros i s t Hrep Hping r c c'; subst c' c r.
  destruct s as [c n].
  destruct c as [cfg conn rec att err cb sent lt lm run pc].
  destruct pc as [cid cs w rd lr].
  destruct i as [rep pg dr cr fl sl].
  cbn in Hrep, Hping. subst rep pg.
  unfold Client.status_check, Client.probe, Client.update_status,
    Client.on_self, Client.paho_publish, Client.incr_disconnected_count,
    Client.call_error_callback, time_sleep, MQTT_ERR_SUCCESS.
  change (sleep_error 2) with (@None string).
  unfold_prog. cbn -[Qplus delay_Q]. repeat split; reflexivity.
Qed.

Lemma accepted_probe_marks_connected_witness :
  let i := mkProbe true (PubRc 0) None None (0%N, 1%positive)
                   (0%N, 1%positive) in
  let s := Client.mkStatus
             (Client.set_error_message "Disconnected from MQTT broker"
                (Client.init default_config true)) 4 in
  let r := Client.status_check i s 0%Q in
  Client.mqtt_connected (Client.self (st r)) = true
  /\ Client.disconnected_count (st r) = 0
  /\ Client.error_message (Client.self (st r))
     = "Disconnected from MQTT broker".
Proof.
  intros i s r.
  destruct (accepted_probe_marks_connected i s 0%Q eq_refl eq_refl)
    as (_ & Hc & _ & Hn & _ & He & _).
  split; [exact Hc | split; [exact Hn | exact He]].
Defined.

(** ** [disconnect()] and the status thread *)

(** The fifth failed probe in a row, on any client: the body of the loop
    does not look at [running]. *)
Lemma fifth_failure_restarts_loop :
  forall (i : ProbeInput) (c : Client.MQTTClient) (t : Q),
    probe_fails i = true ->
    let r := Client.status_check i (Client.mkStatus c 4) t in
    let p := Client.mqtt_client (Client.self (st r)) in
    res r = Returned tt
    /\ forced_reconnections (evs r) = 1%nat
    /\ Paho.client_id p
       = mqtt_client_id (Client.config c) ++ "_"
           ++ str_int (py_int (t + 1 + delay_Q (fr_late i)))
    /\ Paho.loop_running p
       = match fr_connect_raises i with None => true | Some _ => false end
    /\ Client.running (Client.self (st r)) = Client.running c.
Proof.
  intros i c t Hf r p; subst p r.
  destruct c as [cfg conn rec att err cb sent lt lm run pc].
  destruct pc as [cid cs w rd lr].
  destruct i as [rep pg dr cr fl sl].
  unfold probe_fails in Hf. cbn in Hf.
  unfold Client.status_check, Client.probe, Client.update_status,
    Client.force_reconnection, Client.on_self, Client.paho_publish,
    Client.paho_loop_stop, Client.paho_loop_start, Client.paho_disconnect,
    Client.paho_connect_async, Client.incr_disconnected_count,
    Client.call_error_callback, time_sleep.
  change (sleep_error 1) with (@None string).
  change (sleep_error 2) with (@None string).
  unfold_prog.
  destruct rep; [destruct pg as [rc|e]|]; cbn in Hf.
  - apply negb_true_iff in Hf. unfold MQTT_ERR_SUCCESS in *.
    cbn -[Qplus py_int str_int delay_Q]. rewrite Hf.
    exec_t; repeat split; reflexivity.
  - exec_t; repeat split; reflexivity.
  - exec_t; repeat split; reflexivity.
Qed.

(** X7.  [disconnect()] stops the status thread at the thread's loop test
    and nowhere else.  It clears [running] and stops the network loop,
    also when the paho [disconnect()] at its end raises; a status thread
    that tests [self.running] after that, wherever its count stands,
    leaves its loop: no probe, no forced reconnection, no sleep.  But the
    body of the loop does not look at [running]: an iteration that had
    passed the test when [disconnect()] ran still probes, and when that
    is the fifth failure in a row it forces a reconnection, which installs
    a new client and starts its network loop although [running] is
    cleared. *)
Theorem disconnect_stops_status_thread_at_its_test :
  forall (o : PubOutcome) (reported_connected : bool)
         (disc_raises : option string) (c : Client.MQTTClient) (t : Q),
    let r := Client.disconnect o reported_connected disc_raises c t in
    Client.running (st r) = false
    /\ Paho.loop_running (Client.mqtt_client (st r)) = false
    /\ (forall (n : Z) (inputs : list ProbeInput),
          Client.status_check_loop inputs (Client.mkStatus (st r) n) (clk r)
          = mkRes (Returned tt) (Client.mkStatus (st r) n) (clk r) [])
    /\ (forall i : ProbeInput,
          probe_fails i = true ->
          let r2 := Client.status_check i (Client.mkStatus (st r) 4)
                      (clk r) in
          let p := Client.mqtt_client (Client.self (st r2)) in
          res r2 = Returned tt
          /\ forced_reconnections (evs r2) = 1%nat
          /\ Paho.client_id p
             = mqtt_client_id (Client.config (st r)) ++ "_"
                 ++ str_int (py_int (clk r + 1 + delay_Q (fr_late i)))
          /\ Paho.loop_running p
             = match fr_connect_raises i with
               | None => true
               | Some _ => false
               end
          /\ Client.running (Client.self (st r2)) = false).
Proof.
  intros o rep dr c t r.
  assert (Hrun : Client.running (st r) = false
                 /\ Paho.loop_running (Client.mqtt_client (st r)) = false).
  { subst r.
    destruct c as [cfg conn rec att err cb sent lt lm run pc].
    destruct pc as [cid cs w rd lr].
    unfold Client.disconnect, Client.paho_publish, Client.paho_loop_stop,
      Client.paho_disconnect, Client.call_error_callback.
    unfold_prog.
    destruct o as [rc|e], cb, rep, dr as [d|]; cbn; split; reflexivity. }
  destruct Hrun as [Hrun Hloop].
  split; [exact Hrun|]. split; [exact Hloop|]. split.
  - intros n [|i rest]; [reflexivity|].
    cbn [Client.status_check_loop]. unfold bind, get. cbv beta iota.
    cbn [Client.self]. rewrite Hrun. reflexivity.
  - intros i Hf r2 p.
    destruct (fifth_failure_restarts_loop i (st r) (clk r) Hf)
      as (R & F & N & L & K).
    rewrite Hrun in K.
    repeat split; assumption.
Qed.

Lemma disconnect_stops_status_thread_at_its_test_witness :
  let c := Client.set_running true (Client.init default_config true) in
  let r := Client.disconnect (PubRc 0) false None c 0%Q in
  let down := mkProbe false (PubRc 0) None None (0%N, 1%positive)
                      (0%N, 1%positive) in
  let r2 := Client.status_check down (Client.mkStatus (st r) 4) (clk r) in
  Client.running (st r) = false
  /\ forced_reconnections (evs r2) = 1%nat
  /\ Paho.loop_running (Client.mqtt_client (Client.self (st r2))) = true.
Proof.
  intros c r down r2.
  destruct (disconnect_stops_status_thread_at_its_test (PubRc 0) false None
              c 0%Q) as (Hrun & _ & _ & Hbody).
  destruct (Hbody down eq_refl) as (_ & F & _ & L & _).
  split; [exact Hrun | split; [exact F | exact L]].
Defined.

(** * The rest of the monitor *)

(** ** [MicrophoneManager.read_levels] *)

(** X8.  [read_levels()] never raises and calls neither paho nor [time.sleep].
    Each channel is read on its own: a stream that is not open gives 0.0
    without a read, a read that raises gives 0.0 and one line printed,
    and neither affects the level of the other channel.  The manager is
    left as it was. *)
Theorem read_levels_per_channel :
  forall (l r : StreamRead) (mic : Microphone.MicrophoneManager) (t : Q),
    let level (stream : bool) (x : StreamRead) :=
      match x with
      | Level v => if stream then v else 0%Q
      | ReadFails _ => 0%Q
      end in
    let printed (stream : bool) (x : StreamRead) :=
      match x with
      | ReadFails e =>
          if stream then [Printed ("Error reading microphone data: " ++ e)]
          else []
      | Level _ => []
      end in
    Microphone.read_levels l r mic t
    = mkRes (Returned (level (Microphone.left_stream mic) l,
                       level (Microphone.right_stream mic) r))
            mic t
            (printed (Microphone.left_stream mic) l
               ++ printed (Microphone.right_stream mic) r)%list.
Proof.
  intros l r [ls rs] t level printed; subst level printed.
  unfold Microphone.read_levels, Microphone.read_mic_level. unfold_prog.
  destruct ls, rs, l as [x|e], r as [y|e']; reflexivity.
Qed.

(** ** The monitoring thread over many iterations *)







(** ** A check interval that [time.sleep] refuses *)






(** ** The message counter *)

Lemma accepted_app :
  forall a b : list Event,
    accepted_channel_messages (a ++ b)
    = (accepted_channel_messages a + accepted_channel_messages b)%nat.
Proof.
  intros; unfold accepted_channel_messages.
  now rewrite filter_app, length_app.
Qed.

Lemma accepted_publishes :
  forall es : list Event,
    accepted_channel_messages es = accepted_channel_messages (publishes es).
Proof.
  intros es; unfold accepted_channel_messages, publishes.
  induction es as [|e es IH]; [reflexivity|].
  destruct e as [cid topic payload qos retain o| | | | | | | |];
    cbn [filter is_publish]; try exact IH.
  destruct (is_accepted_channel_message
              (Publish cid topic payload qos retain o)) eqn:E;
    cbn [List.length]; now rewrite IH.
Qed.

Lemma accepted_seen_by_monitor :
  forall es : list Event,
    accepted_channel_messages (map seen_by_monitor es)
    = accepted_channel_messages es.
Proof.
  intros es.
  rewrite accepted_publishes, seen_by_monitor_publishes, <- accepted_publishes.
  reflexivity.
Qed.

Lemma keeps_count_ret :
  forall {A} (a : A), keeps_count (ret a).
Proof. intros A a m t H. cbn. split; [exact H | lia]. Qed.

Lemma keeps_count_get : keeps_count get.
Proof. intros m t H. cbn. split; [exact H | lia]. Qed.

Lemma keeps_count_modify :
  forall f, beside_counters f -> keeps_count (modify f).
Proof.
  intros f Hf m t (H1 & H2 & H3). cbn.
  destruct (Hf m) as (Hc & F1 & F2 & F3).
  unfold shows_client_counters. rewrite Hc, F1, F2, F3.
  repeat split; try assumption; lia.
Qed.

Lemma keeps_count_sleep :
  forall d late, keeps_count (time_sleep d late).
Proof.
  intros d late m t H. unfold time_sleep.
  destruct (sleep_error d); cbn; (split; [exact H | lia]).
Qed.

Lemma keeps_count_bind :
  forall {A B} (p : Prog Processor.MicrophoneMonitor A)
         (k : A -> Prog Processor.MicrophoneMonitor B),
    keeps_count p -> (forall a, keeps_count (k a)) -> keeps_count (bind p k).
Proof.
  intros A B p k Hp Hk m t H. unfold bind.
  destruct (Hp m t H) as (H1 & C1).
  destruct (p m t) as [[a|e] m1 t1 es1]; cbn [st evs] in *.
  - destruct (Hk a m1 t1 H1) as (H2 & C2).
    destruct (k a m1 t1) as [x m2 t2 es2]; cbn [st evs] in *.
    split; [exact H2|]. rewrite accepted_app. lia.
  - split; assumption.
Qed.

Lemma keeps_count_try :
  forall {A} (p : Prog Processor.MicrophoneMonitor A)
         (h : string -> Prog Processor.MicrophoneMonitor A),
    keeps_count p -> (forall e, keeps_count (h e)) ->
    keeps_count (try_except p h).
Proof.
  intros A p h Hp Hh m t H. unfold try_except.
  destruct (Hp m t H) as (H1 & C1).
  destruct (p m t) as [[a|e] m1 t1 es1]; cbn [st evs] in *.
  - split; assumption.
  - destruct (Hh e m1 t1 H1) as (H2 & C2).
    destruct (h e m1 t1) as [x m2 t2 es2]; cbn [st evs] in *.
    split; [exact H2|]. rewrite accepted_app. lia.
Qed.

Lemma keeps_count_when :
  forall (c : bool) (p : Prog Processor.MicrophoneMonitor unit),
    keeps_count p -> keeps_count (when c p).
Proof.
  intros [|] p Hp; [exact Hp | apply keeps_count_ret].
Qed.

Lemma keeps_count_read_levels :
  forall l r, keeps_count (Processor.on_mic_manager (Microphone.read_levels l r)).
Proof.
  intros l r m t H. unfold Processor.on_mic_manager.
  destruct (read_levels_effects l r (Processor.mic_manager m) t)
    as (ll & rl & es & Hrd & Hpub & _).
  rewrite Hrd. cbn [st evs].
  rewrite accepted_publishes, Hpub.
  destruct m; cbn. split; [exact H | lia].
Qed.

(** [publish_mic_state] copies the counters of the client to the display
    exactly when [publish] has changed them. *)
Lemma keeps_count_publish_mic_state :
  forall o topic state level,
    keeps_count (Processor.publish_mic_state o topic state level).
Proof.
  intros o topic state level m t (H1 & H2 & H3).
  destruct m as [cfg u mic cl run ll rl].
  destruct cl as [ccfg conn rec att err cb sent lt lm crun pc].
  destruct u as [ull ula url ura uc ur ua us ut um ue].
  cbn in H1, H2, H3. subst us ut um.
  unfold Processor.publish_mic_state, Processor.on_mqtt_client,
    Client.publish, Client.paho_publish, Client.call_error_callback,
    Processor._handle_mqtt_error, shows_client_counters,
    accepted_channel_messages, MQTT_ERR_SUCCESS.
  unfold_prog.
  destruct conn; [|cbn; repeat split; lia].
  destruct o as [rc|e].
  - cbn -[str_int Z.add]. destruct (rc =? 0) eqn:E.
    + cbn -[Z.add]. unfold MQTT_ERR_SUCCESS. rewrite ?E. cbn -[Z.add].
      repeat split; try reflexivity; lia.
    + destruct cb; cbn -[str_int Z.add]; unfold MQTT_ERR_SUCCESS;
        rewrite ?E; cbn -[Z.add]; repeat split; try reflexivity; lia.
  - destruct cb; cbn -[Z.add]; repeat split; try reflexivity; lia.
Qed.

Ltac beside :=
  let m := fresh "m" in
  intros m; destruct m; cbn; repeat split; reflexivity.

(** An iteration of the monitoring loop keeps the count. *)
Lemma keeps_count_monitoring_tick :
  forall i, keeps_count (Processor.monitoring_tick i).
Proof.
  intros i. unfold Processor.monitoring_tick.
  repeat first
    [ progress cbv beta zeta
    | apply keeps_count_publish_mic_state
    | apply keeps_count_read_levels
    | apply keeps_count_sleep
    | apply keeps_count_get
    | apply keeps_count_when
    | apply keeps_count_modify; beside
    | apply keeps_count_try; [|intros ?]
    | apply keeps_count_bind; [|intros ?] ].
Qed.

Lemma after_callbacks_counters :
  forall es m,
    Processor.mqtt_client (after_callbacks es m) = Processor.mqtt_client m
    /\ UI.mqtt_messages_sent (Processor.ui (after_callbacks es m))
       = UI.mqtt_messages_sent (Processor.ui m)
    /\ UI.last_message_time (Processor.ui (after_callbacks es m))
       = UI.last_message_time (Processor.ui m)
    /\ UI.last_message (Processor.ui (after_callbacks es m))
       = UI.last_message (Processor.ui m).
Proof.
  intros es m; unfold after_callbacks.
  destruct (last_error_callback es); repeat split; reflexivity.
Qed.

Lemma keeps_count_on_mqtt_client :
  forall {A} (p : Prog Client.MQTTClient A),
    beside_client_counters p -> keeps_count (Processor.on_mqtt_client p).
Proof.
  intros A p Hp m t (H1 & H2 & H3).
  rewrite on_mqtt_client_spec. cbn [st evs].
  destruct (Hp (Processor.mqtt_client m) t) as (P1 & P2 & P3 & P4).
  destruct (after_callbacks_counters (evs (p (Processor.mqtt_client m) t))
              (Processor.set_mqtt_client (st (p (Processor.mqtt_client m) t))
                 m)) as (Hc & F1 & F2 & F3).
  unfold shows_client_counters. rewrite Hc, F1, F2, F3.
  rewrite accepted_seen_by_monitor, P4.
  destruct m; cbn in *. repeat split; try congruence. lia.
Qed.

Lemma beside_on_mqtt_connect :
  forall reason_code o,
    beside_client_counters (Client.on_mqtt_connect reason_code o).
Proof.
  intros rc o c t.
  destruct c as [cfg conn rec att err cb sent lt lm run pc].
  unfold Client.on_mqtt_connect, Client.paho_publish,
    Client.call_error_callback.
  unfold_prog.
  destruct (rc_value rc =? 0), o as [r|e], cb; cbn; repeat split.
Qed.

Lemma beside_on_mqtt_disconnect :
  forall disconnect_flags reason_code,
    beside_client_counters
      (Client.on_mqtt_disconnect disconnect_flags reason_code).
Proof.
  intros fl rc c t.
  destruct c as [cfg conn rec att err cb sent lt lm run pc].
  unfold Client.on_mqtt_disconnect, Client.call_error_callback.
  unfold_prog. destruct cb; cbn; repeat split.
Qed.

Lemma beside_connect :
  forall raises, beside_client_counters (Client.connect raises).
Proof.
  intros raises c t.
  destruct c as [cfg conn rec att err cb sent lt lm run pc].
  unfold Client.connect, Client.paho_connect_async, Client.paho_loop_start,
    Client.call_error_callback.
  unfold_prog. destruct raises, cb; cbn; repeat split.
Qed.

Lemma beside_set_running :
  forall b, beside_client_counters (modify (Client.set_running b)).
Proof. intros b c t. destruct c; cbn. repeat split. Qed.

(** An iteration of the status thread leaves the message counters alone:
    its ping is not a channel message. *)
Lemma status_check_beside_counters :
  forall (i : ProbeInput) (s : Client.StatusThread) (t : Q),
    let r := Client.status_check i s t in
    Client.mqtt_messages_sent (Client.self (st r))
    = Client.mqtt_messages_sent (Client.self s)
    /\ Client.last_message_time (Client.self (st r))
       = Client.last_message_time (Client.self s)
    /\ Client.last_message (Client.self (st r))
       = Client.last_message (Client.self s)
    /\ accepted_channel_messages (evs r) = 0%nat.
Proof.
  intros i s t r; subst r.
  destruct s as [c n].
  destruct c as [cfg conn rec att err cb sent lt lm run pc].
  destruct pc as [cid cs w rd lr].
  destruct i as [rep pg dr cr fl sl].
  unfold Client.status_check, Client.probe, Client.update_status,
    Client.force_reconnection, Client.on_self, Client.paho_publish,
    Client.paho_loop_stop, Client.paho_loop_start, Client.paho_disconnect,
    Client.paho_connect_async, Client.incr_disconnected_count,
    Client.call_error_callback, time_sleep.
  unfold_prog.
  exec_t; repeat split.
Qed.

(** Every step of the running program keeps the count. *)
Lemma step_keeps_count :
  forall (e : App.Step) (a : App.App) (t : Q),
    shows_client_counters (App.monitor a) ->
    let r := App.step e a t in
    shows_client_counters (App.monitor (st r))
    /\ Client.mqtt_messages_sent (Processor.mqtt_client (App.monitor (st r)))
       = Client.mqtt_messages_sent (Processor.mqtt_client (App.monitor a))
         + Z.of_nat (accepted_channel_messages (evs r)).
Proof.
  intros e a t H r; subst r.
  destruct e as [i|i|rc o|fl rc].
  - unfold App.step. unfold_prog. cbv beta iota.
    destruct (Processor.running (App.monitor a)).
    + unfold App.on_monitor.
      destruct (keeps_count_monitoring_tick i (App.monitor a) t H)
        as (H1 & C1).
      destruct (Processor.monitoring_tick i (App.monitor a) t)
        as [x m1 t1 es1].
      cbn [st evs App.monitor] in *. rewrite app_nil_l. split; assumption.
    + cbn. split; [exact H | lia].
  - destruct (Client.running (Processor.mqtt_client (App.monitor a))) eqn:Hrun.
    + rewrite (status_tick_spec i a t Hrun). cbn [st evs App.monitor].
      destruct (status_check_beside_counters i
                  (Client.mkStatus (Processor.mqtt_client (App.monitor a))
                                   (App.status_count a)) t)
        as (P1 & P2 & P3 & P4).
      cbn [Client.self] in P1, P2, P3.
      set (r := Client.status_check i _ t) in *.
      destruct (after_callbacks_counters (evs r)
                  (Processor.set_mqtt_client (Client.self (st r))
                     (App.monitor a))) as (Hc & F1 & F2 & F3).
      unfold shows_client_counters. rewrite Hc, F1, F2, F3.
      rewrite accepted_seen_by_monitor, P4.
      destruct H as (H1 & H2 & H3).
      destruct (App.monitor a); cbn in *. repeat split; try congruence. lia.
    + unfold App.step. unfold_prog. cbv beta iota. rewrite Hrun.
      cbn. split; [exact H | lia].
  - unfold App.step. unfold_prog. cbv beta iota. unfold App.on_monitor.
    destruct (keeps_count_on_mqtt_client _ (beside_on_mqtt_connect rc o)
                (App.monitor a) t H) as (H1 & C1).
    destruct (Processor.on_mqtt_client _ (App.monitor a) t)
      as [x m1 t1 es1].
    cbn [st evs App.monitor] in *. rewrite app_nil_l. split; assumption.
  - unfold App.step. unfold_prog. cbv beta iota. unfold App.on_monitor.
    destruct (keeps_count_on_mqtt_client _ (beside_on_mqtt_disconnect fl rc)
                (App.monitor a) t H) as (H1 & C1).
    destruct (Processor.on_mqtt_client _ (App.monitor a) t)
      as [x m1 t1 es1].
    cbn [st evs App.monitor] in *. rewrite app_nil_l. split; assumption.
Qed.

Lemma run_keeps_count :
  forall (es : list App.Step) (a : App.App) (t : Q),
    shows_client_counters (App.monitor a) ->
    let r := App.run es a t in
    shows_client_counters (App.monitor (st r))
    /\ Client.mqtt_messages_sent (Processor.mqtt_client (App.monitor (st r)))
       = Client.mqtt_messages_sent (Processor.mqtt_client (App.monitor a))
         + Z.of_nat (accepted_channel_messages (evs r)).
Proof.
  induction es as [|e es IH]; intros a t H; cbv zeta.
  - cbn. split; [exact H | lia].
  - cbn [App.run]. unfold bind.
    destruct (step_keeps_count e a t H) as (H1 & C1).
    destruct (App.step e a t) as [[u|x] a1 t1 es1]; cbn [st evs] in *.
    + destruct (IH a1 t1 H1) as (H2 & C2).
      destruct (App.run es a1 t1) as [y a2 t2 es2]; cbn [st evs] in *.
      split; [exact H2|]. rewrite accepted_app. lia.
    + split; assumption.
Qed.

Lemma start_monitoring_keeps_count :
  forall (conn_raises : option string) (cfg : Config) (t : Q),
    let r := App.start_monitoring conn_raises (App.fresh cfg) t in
    shows_client_counters (App.monitor (st r))
    /\ Client.mqtt_messages_sent (Processor.mqtt_client (App.monitor (st r)))
       = 0
    /\ accepted_channel_messages (evs r) = 0%nat
    /\ res r = Returned tt.
Proof.
  intros conn cfg t r; subst r.
  unfold App.start_monitoring, App.on_monitor, App.fresh,
    Processor.on_mqtt_client, Processor.init, Client.init, Client.connect,
    Client.paho_connect_async, Client.paho_loop_start,
    Client.call_error_callback, Processor._handle_mqtt_error.
  unfold_prog.
  destruct conn; cbn; repeat split.
Qed.

(** X11.  From the start of the program and along every schedule of loop
    iterations and callbacks, whatever the outside world answers:
    [mqtt_messages_sent] of the client is exactly the number of channel
    messages that paho accepted -- pings and status messages are not
    counted, refused or failed publishes are not counted --, and the
    counter, the last message and its time that the UI displays are those
    of the client. *)
Theorem message_counter_is_exact :
  forall (cfg : Config) (conn_raises : option string) (es : list App.Step)
         (t0 : Q),
    let r := App.execute cfg conn_raises es t0 in
    let m := App.monitor (st r) in
    Client.mqtt_messages_sent (Processor.mqtt_client m)
    = Z.of_nat (accepted_channel_messages (evs r))
    /\ UI.mqtt_messages_sent (Processor.ui m)
       = Client.mqtt_messages_sent (Processor.mqtt_client m)
    /\ UI.last_message (Processor.ui m)
       = Client.last_message (Processor.mqtt_client m)
    /\ UI.last_message_time (Processor.ui m)
       = Client.last_message_time (Processor.mqtt_client m).
Proof.
  intros cfg conn es t0 r m; subst m r.
  unfold App.execute, bind.
  destruct (start_monitoring_keeps_count conn cfg t0)
    as (H0 & C0 & E0 & R0).
  destruct (App.start_monitoring conn (App.fresh cfg) t0)
    as [x a1 t1 es1]; cbn [res st evs] in *. subst x.
  destruct (run_keeps_count es a1 t1 H0) as (H1 & C1).
  destruct (App.run es a1 t1) as [y a2 t2 es2]; cbn [st evs] in *.
  destruct H1 as (U1 & U2 & U3).
  rewrite accepted_app, E0, C1, C0.
  repeat split; try assumption. lia.
Qed.

(** * main.py: where the single-class variant differs *)

Lemma status_publishes_app :
  forall (status : string) (a b : list Event),
    status_publishes status (a ++ b)
    = (status_publishes status a + status_publishes status b)%nat.
Proof.
  intros; unfold status_publishes. now rewrite filter_app, length_app.
Qed.

(** Only a call of paho's [publish] can be a status publish. *)
Lemma status_publishes_publishes :
  forall (status : string) (es : list Event),
    status_publishes status es = status_publishes status (publishes es).
Proof.
  intros status es; unfold status_publishes, publishes.
  induction es as [|e es IH]; [reflexivity|].
  destruct e as [cid topic payload qos retain o| | | | | | | |];
    cbn [filter is_publish]; try exact IH.
  destruct (is_status_publish status
              (Publish cid topic payload qos retain o)) eqn:E;
    cbn [List.length]; now rewrite IH.
Qed.

Lemma tui_status_check_no_status :
  forall (status : string) (i : ProbeInput) (s : Tui.StatusThread) (t : Q),
    status_publishes status (evs (Tui.status_check i s t)) = 0%nat.
Proof.
  intros status i s t.
  destruct s as [m n].
  destruct m as [cfg pc ls rs lls rls ll la rl ra conn sent lt lm rec att run
                   err].
  destruct pc as [cid cs w rd lr].
  destruct i as [rep pg dr cr fl sl].
  unfold Tui.status_check, Tui.probe, Tui.update_status,
    Tui.force_mqtt_reconnection, Tui.on_self, Tui.paho_publish,
    Tui.paho_loop_stop, Tui.paho_loop_start, Tui.paho_disconnect,
    Tui.paho_connect_async, Tui.incr_disconnected_count, time_sleep.
  unfold_prog.
  exec_t; reflexivity.
Qed.

Lemma tui_monitoring_tick_no_status :
  forall (status : string) (i : TickInput) (m : Tui.MicrophoneMonitorTUI)
         (t : Q),
    status_publishes status (evs (Tui.monitoring_tick i m t)) = 0%nat.
Proof.
  intros status i m t.
  destruct (tui_monitoring_tick_effects i m t) as (_ & _ & _ & Hpub & _).
  rewrite status_publishes_publishes, Hpub.
  repeat match goal with |- context [if ?b then _ else _] => destruct b end;
    reflexivity.
Qed.

(** X12.  In main.py nothing ever publishes a status message: the two callbacks
    call nothing at all (where [on_mqtt_connect] of client.py publishes
    the retained online status), and however long the status thread and
    the monitoring thread run, and whatever the outside world answers,
    they make no retained publish on [microphones/status].  The only such
    message a subscriber can receive from this variant is the last will. *)
Theorem tui_never_publishes_status :
  forall (status : string),
    (forall reason_code m t,
        evs (Tui.on_mqtt_connect reason_code m t) = [])
    /\ (forall disconnect_flags reason_code m t,
          evs (Tui.on_mqtt_disconnect disconnect_flags reason_code m t) = [])
    /\ (forall inputs s t,
          status_publishes status (evs (Tui.status_check_loop inputs s t))
          = 0%nat)
    /\ (forall inputs m t,
          status_publishes status (evs (Tui.monitoring_thread inputs m t))
          = 0%nat).
Proof.
  intros status. split; [|split; [|split]].
  - intros rc m t. unfold Tui.on_mqtt_connect. unfold_prog.
    destruct (rc_value rc =? 0); reflexivity.
  - intros fl rc m t. unfold Tui.on_mqtt_disconnect. unfold_prog. reflexivity.
  - induction inputs as [|i rest IH]; intros s t; [reflexivity|].
    cbn [Tui.status_check_loop]. unfold bind, get. cbv beta iota.
    destruct (Tui.running (Tui.self s)); [|reflexivity].
    pose proof (tui_status_check_no_status status i s t) as H1.
    destruct (Tui.status_check i s t) as [x s1 t1 es1].
    cbn [evs] in H1.
    destruct x as [[]|e]; [|cbn [evs]; rewrite app_nil_l; exact H1].
    specialize (IH s1 t1).
    destruct (Tui.status_check_loop rest s1 t1) as [y s2 t2 es2].
    cbn [evs] in *. rewrite app_nil_l.
    now rewrite status_publishes_app, H1, IH.
  - induction inputs as [|i rest IH]; intros m t; [reflexivity|].
    cbn [Tui.monitoring_thread]. unfold bind, get. cbv beta iota.
    destruct (Tui.running m); [|reflexivity].
    pose proof (tui_monitoring_tick_no_status status i m t) as H1.
    destruct (Tui.monitoring_tick i m t) as [x m1 t1 es1].
    cbn [evs] in H1.
    destruct x as [[]|e]; [|cbn [evs]; rewrite app_nil_l; exact H1].
    specialize (IH m1 t1).
    destruct (Tui.monitoring_thread rest m1 t1) as [y m2 t2 es2].
    cbn [evs] in *. rewrite app_nil_l.
    now rewrite status_publishes_app, H1, IH.
Qed.

(** ** [MicrophoneMonitorTUI.publish_mic_state] *)

(** X13.  [publish_mic_state] of main.py never raises.  It calls paho's
    [publish] only while [mqtt_connected] is set, and then exactly once.
    Only a publish that paho accepts is counted: [mqtt_messages_sent]
    grows by one and the topic, state and level are recorded with the
    time.  When paho answers another return code or raises, the three
    stay as they were and the failure is recorded in [error_message]. *)
Theorem tui_publish_counts_accepted_only :
  forall (o : PubOutcome) (topic : string) (state : Z) (level : Q)
         (m : Tui.MicrophoneMonitorTUI) (t : Q),
    let r := Tui.publish_mic_state o topic state level m t in
    let m' := st r in
    let accepted := Tui.mqtt_connected m
                    && match o with
                       | PubRc rc => rc =? MQTT_ERR_SUCCESS
                       | PubRaises _ => false
                       end in
    res r = Returned tt
    /\ evs r = (if Tui.mqtt_connected m
                then [Publish (Paho.client_id (Tui.mqtt_client m)) topic
                              (MicJson state level t) 0 false o]
                else [])
    /\ Tui.mqtt_messages_sent m'
       = (if accepted then Tui.mqtt_messages_sent m + 1
          else Tui.mqtt_messages_sent m)
    /\ Tui.last_message m'
       = (if accepted then Some (topic, state, level)
          else Tui.last_message m)
    /\ Tui.last_message_time m'
       = (if accepted then t else Tui.last_message_time m)
    /\ Tui.error_message m'
       = (if Tui.mqtt_connected m
          then match o with
               | PubRc rc =>
                   if rc =? MQTT_ERR_SUCCESS then Tui.error_message m
                   else "MQTT publish failed with code: " ++ str_int rc
               | PubRaises e => "Error publishing to MQTT: " ++ e
               end
          else Tui.error_message m).
Proof.
  intros o topic state level m t r m' accepted; subst accepted m' r.
  destruct m as [cfg pc ls rs lls rls ll la rl ra conn sent lt lm rec att run
                   err].
  unfold Tui.publish_mic_state, Tui.paho_publish. unfold_prog.
  destruct conn; [|cbn; repeat split; reflexivity].
  destruct o as [rc|e]; [|cbn; repeat split; reflexivity].
  cbn -[str_int]. destruct (rc =? MQTT_ERR_SUCCESS); cbn -[str_int];
    repeat split; reflexivity.
Qed.

(** * The configuration *)

(** ** Sample formats *)

(** X14.  The five pyaudio constants survive being stored as a code and read
    back.  In the other direction a code is normalised: 8, 16, 24, 32 and
    33 come back as themselves, 34 comes back as 24, and every other int
    comes back as 16. *)
Theorem sample_format_round_trip :
  (forall c : Z,
      In c [ConfigManager.paInt8; ConfigManager.paInt16; ConfigManager.paInt24; ConfigManager.paInt32; ConfigManager.paFloat32] ->
      exists code : Z,
        ConfigManager._convert_sample_format_to_code (ConfigManager.VInt c) = Returned code
        /\ ConfigManager._convert_sample_format code = c)
  /\ (forall code : Z,
        ConfigManager._convert_sample_format_to_code
          (ConfigManager.VInt (ConfigManager._convert_sample_format code))
        = Returned (if (code =? 8) || (code =? 24) || (code =? 32)
                       || (code =? 33)
                    then code
                    else if code =? 34 then 24 else 16)).
Proof.
  split.
  - intros c Hc. cbn in Hc.
    repeat (destruct Hc as [<-|Hc]; [eexists; split; reflexivity|]).
    destruct Hc.
  - intros code. unfold ConfigManager._convert_sample_format, ConfigManager.map_get.
    cbn [find fst snd].
    repeat match goal with
      | |- context [?k =? code] =>
          rewrite (Z.eqb_sym k code); destruct (Z.eqb_spec code k);
          [subst; reflexivity|]
      end.
    destruct (Z.eqb_spec code 16); [subst|]; reflexivity.
Qed.

Lemma sample_format_round_trip_witness :
  exists code : Z,
    ConfigManager._convert_sample_format_to_code (ConfigManager.VInt ConfigManager.paInt24) = Returned code
    /\ ConfigManager._convert_sample_format code = ConfigManager.paInt24.
Proof.
  apply (proj1 sample_format_round_trip). cbn. auto.
Defined.

(** ** Dicts *)

Lemma dict_get_set_same :
  forall k v d, ConfigManager.dict_get k (ConfigManager.dict_set k v d) = Some v.
Proof.
  intros k v d. induction d as [|[k' v'] d IH]; cbn.
  - now rewrite String.eqb_refl.
  - destruct (String.eqb k k') eqn:E; cbn; rewrite ?String.eqb_refl, ?E;
      auto.
Qed.

Lemma dict_get_set_other :
  forall k k' v d, k' <> k -> ConfigManager.dict_get k' (ConfigManager.dict_set k v d) = ConfigManager.dict_get k' d.
Proof.
  intros k k' v d Hne. induction d as [|[k0 v0] d IH]; cbn.
  - destruct (String.eqb_spec k' k); [contradiction | reflexivity].
  - destruct (String.eqb_spec k k0); cbn.
    + subst k0. destruct (String.eqb_spec k' k); [contradiction | reflexivity].
    + destruct (String.eqb k' k0); auto.
Qed.

Lemma dict_get_not_in :
  forall k (d : ConfigManager.Dict), ~ In k (map fst d) -> ConfigManager.dict_get k d = None.
Proof.
  intros k d. induction d as [|[k' v'] d IH]; cbn; [reflexivity|].
  intros H. destruct (String.eqb_spec k k'); [subst; tauto|].
  apply IH. tauto.
Qed.

(** [_merge_configs] item by item. *)
Lemma merge_configs_cons :
  forall base key value rest,
    ConfigManager._merge_configs base ((key, value) :: rest)
    = ConfigManager._merge_configs
        (match ConfigManager.dict_get key base, value with
         | Some (ConfigManager.VDict b), ConfigManager.VDict o =>
             ConfigManager.dict_set key (ConfigManager.VDict (ConfigManager._merge_configs b o)) base
         | _, _ => ConfigManager.dict_set key value base
         end) rest.
Proof.
  intros base key value rest. unfold ConfigManager._merge_configs. cbn.
  destruct (ConfigManager.dict_get key base) as [[]|]; destruct value; reflexivity.
Qed.

Lemma merge_configs_nil : forall base, ConfigManager._merge_configs base [] = base.
Proof. reflexivity. Qed.

(** What the merged configuration holds for a key. *)
Lemma merge_configs_get :
  forall (override base : ConfigManager.Dict) (k : string),
    NoDup (map fst override) ->
    ConfigManager.dict_get k (ConfigManager._merge_configs base override)
    = match ConfigManager.dict_get k override with
      | None => ConfigManager.dict_get k base
      | Some v =>
          match ConfigManager.dict_get k base, v with
          | Some (ConfigManager.VDict b), ConfigManager.VDict o =>
              Some (ConfigManager.VDict (ConfigManager._merge_configs b o))
          | _, _ => Some v
          end
      end.
Proof.
  induction override as [|[k1 v1] rest IH]; intros base k Hnd.
  - reflexivity.
  - rewrite merge_configs_cons. inversion Hnd as [|? ? Hnotin Hnd']; subst.
    rewrite (IH _ k Hnd'). cbn [ConfigManager.dict_get].
    destruct (String.eqb_spec k k1) as [->|Hne].
    + rewrite (dict_get_not_in k1 rest Hnotin).
      destruct (ConfigManager.dict_get k1 base) as [[]|]; destruct v1;
        apply dict_get_set_same.
    + assert (Hsame : forall w,
                 ConfigManager.dict_get k (ConfigManager.dict_set k1 w base) = ConfigManager.dict_get k base)
        by (intros; now apply dict_get_set_other).
      destruct (ConfigManager.dict_get k1 base) as [[]|]; destruct v1;
        rewrite Hsame; reflexivity.
Qed.

Lemma well_formed_dict :
  forall d : ConfigManager.Dict,
    ConfigManager.well_formed (ConfigManager.VDict d) ->
    NoDup (map fst d)
    /\ (forall k w, ConfigManager.dict_get k d = Some w -> ConfigManager.well_formed w).
Proof.
  intros d [Hnd Hall]. split; [exact Hnd|].
  clear Hnd. induction d as [|[k' v'] d IH]; intros k w; cbn.
  - discriminate.
  - destruct Hall as [Hv Hall].
    destruct (String.eqb k k'); [intros [= <-]; exact Hv | now apply IH].
Qed.

Lemma untouched_lookup :
  forall path (o : ConfigManager.Dict),
    ConfigManager.untouched path o -> ConfigManager.lookup_path path (ConfigManager.VDict o) = None.
Proof.
  induction path as [|k path IH]; intros o H; [destruct H|].
  cbn in *. destruct (ConfigManager.dict_get k o) as [[]|]; try contradiction;
    try reflexivity.
  now apply IH.
Qed.

Lemma untouched_nonempty :
  forall path o, ConfigManager.untouched path o -> path <> [].
Proof. intros [|] o H; [destruct H | discriminate]. Qed.

Lemma lookup_path_not_dict :
  forall path v,
    path <> [] -> ConfigManager.is_dict v = false -> ConfigManager.lookup_path path v = None.
Proof.
  intros [|k path] v Hne Hd; [contradiction|].
  destruct v; try reflexivity. discriminate.
Qed.

(** A path that the override says nothing about keeps what the base
    holds there. *)
Lemma merge_configs_untouched :
  forall (path : list string) (base override : ConfigManager.Dict),
    ConfigManager.well_formed (ConfigManager.VDict override) ->
    ConfigManager.untouched path override ->
    ConfigManager.lookup_path path (ConfigManager.VDict (ConfigManager._merge_configs base override))
    = ConfigManager.lookup_path path (ConfigManager.VDict base).
Proof.
  induction path as [|k path IH]; intros base override Hwf Hun;
    [destruct Hun|].
  destruct (well_formed_dict override Hwf) as [Hnd Hsub].
  cbn [ConfigManager.lookup_path ConfigManager.untouched] in *.
  rewrite (merge_configs_get override base k Hnd).
  destruct (ConfigManager.dict_get k override) as [w|] eqn:Ek; [|reflexivity].
  destruct w as [| | | | | |o]; try contradiction.
  pose proof (Hsub k _ Ek) as Hwo.
  destruct (ConfigManager.dict_get k base) as [bv|] eqn:Eb.
  - destruct bv as [| | | | | |b];
      try (rewrite (untouched_lookup path o Hun);
           symmetry; apply lookup_path_not_dict;
           [now apply untouched_nonempty with o | reflexivity]).
    now apply IH.
  - now apply untouched_lookup.
Qed.

(** ** [_merge_configs] *)

(** X15.  [_merge_configs] merges section by section, at every depth.  Key by
    key: a key only the base has keeps its value; a key the override has
    takes the override's value, except that two dicts are merged in turn.
    Path by path: a value of the override that is not a dict is what the
    merged configuration holds at its path, and a path the override says
    nothing about keeps what the base holds.  The override is a dict as
    Python has them, each key once at every level. *)
Theorem merge_configs_is_deep :
  forall (base override : ConfigManager.Dict),
    ConfigManager.well_formed (ConfigManager.VDict override) ->
    let merged := ConfigManager._merge_configs base override in
    (forall k : string,
        ConfigManager.dict_get k merged
        = match ConfigManager.dict_get k override with
          | None => ConfigManager.dict_get k base
          | Some v =>
              match ConfigManager.dict_get k base, v with
              | Some (ConfigManager.VDict b), ConfigManager.VDict o =>
                  Some (ConfigManager.VDict (ConfigManager._merge_configs b o))
              | _, _ => Some v
              end
          end)
    /\ (forall (path : list string) (v : ConfigManager.Value),
          ConfigManager.lookup_path path (ConfigManager.VDict override) = Some v ->
          ConfigManager.is_dict v = false ->
          ConfigManager.lookup_path path (ConfigManager.VDict merged) = Some v)
    /\ (forall path : list string,
          ConfigManager.untouched path override ->
          ConfigManager.lookup_path path (ConfigManager.VDict merged)
          = ConfigManager.lookup_path path (ConfigManager.VDict base)).
Proof.
  intros base override Hwf merged; subst merged.
  split; [|split].
  - intros k. apply merge_configs_get. now apply well_formed_dict.
  - intros path. revert base override Hwf.
    induction path as [|k path IH]; intros base override Hwf v Hl Hd.
    + cbn in Hl. injection Hl as <-. discriminate.
    + destruct (well_formed_dict override Hwf) as [Hnd Hsub].
      cbn [ConfigManager.lookup_path] in *.
      rewrite (merge_configs_get override base k Hnd).
      destruct (ConfigManager.dict_get k override) as [w|] eqn:Ek; [|discriminate].
      pose proof (Hsub k _ Ek) as Hwo.
      destruct (ConfigManager.dict_get k base) as [bv|] eqn:Eb; [|exact Hl].
      destruct bv as [| | | | | |b]; try exact Hl.
      destruct w as [| | | | | |o]; try exact Hl.
      now apply IH.
  - intros path Hun. now apply merge_configs_untouched.
Qed.

Lemma merge_configs_is_deep_witness :
  let user := [("mqtt", ConfigManager.VDict [("topics",
                                   ConfigManager.VDict [("left", ConfigManager.VStr "stage/left")])])] in
  let merged := ConfigManager._merge_configs ConfigManager.get_default_config user in
  ConfigManager.lookup_path ["mqtt"; "topics"; "left"] (ConfigManager.VDict merged)
  = Some (ConfigManager.VStr "stage/left")
  /\ ConfigManager.lookup_path ["mqtt"; "topics"; "right"] (ConfigManager.VDict merged)
     = Some (ConfigManager.VStr "microphones/right").
Proof.
  intros user merged. unfold merged.
  assert (Hwf : ConfigManager.well_formed (ConfigManager.VDict user)).
  { cbn. repeat split; repeat constructor; cbn; tauto. }
  destruct (merge_configs_is_deep ConfigManager.get_default_config user Hwf)
    as (_ & Hwin & Hkeep).
  split.
  - apply Hwin; reflexivity.
  - rewrite (Hkeep ["mqtt"; "topics"; "right"]); [reflexivity|].
    cbn. exact I.
Defined.

(** ** [load_config] *)

Lemma load_file_untouched :
  forall {S} (what : string) (f : ConfigManager.File) (config : ConfigManager.Dict)
         (path : list string) (s : S) (t : Q),
    ConfigManager.says_nothing_about path f ->
    exists config',
      res (ConfigManager.load_file what f config s t) = Returned config'
      /\ st (ConfigManager.load_file what f config s t) = s
      /\ clk (ConfigManager.load_file what f config s t) = t
      /\ ConfigManager.lookup_path path (ConfigManager.VDict config')
         = ConfigManager.lookup_path path (ConfigManager.VDict config).
Proof.
  intros S what f config path s t Hf.
  destruct f as [|e|d]; cbn in *.
  - exists config. repeat split.
  - exists config. repeat split.
  - exists (ConfigManager._merge_configs config d). repeat split.
    destruct Hf as [Hwf Hun]. now apply merge_configs_untouched.
Qed.

(** The last step of [load_config] on a configuration whose audio section
    holds an int as sample format. *)
Lemma convert_loaded_int :
  forall {S} (config : ConfigManager.Dict) (c : Z) (s : S) (t : Q),
    ConfigManager.lookup_path ["audio"; "sample_format"] (ConfigManager.VDict config)
    = Some (ConfigManager.VInt c) ->
    exists config',
      ConfigManager.convert_loaded config s t = mkRes (Returned config') s t []
      /\ ConfigManager.lookup_path ["audio"; "sample_format"] (ConfigManager.VDict config')
         = Some (ConfigManager.VInt (ConfigManager._convert_sample_format c)).
Proof.
  intros S config c s t H. cbn [ConfigManager.lookup_path] in H.
  unfold ConfigManager.convert_loaded.
  destruct (ConfigManager.dict_get "audio" config) as [audio|] eqn:Ea; [|discriminate].
  destruct audio as [| | | | | |a]; try discriminate.
  cbn [ConfigManager.contains ConfigManager.subscript].
  destruct (ConfigManager.dict_get "sample_format" a) as [v|] eqn:Ev; [|discriminate].
  injection H as ->. cbn [ConfigManager.as_int].
  eexists. split; [reflexivity|].
  cbn [ConfigManager.lookup_path]. now rewrite !dict_get_set_same.
Qed.

(** X16.  The defaults name [pyaudio.paInt16] as sample format, but the
    constant is itself an int, so the last step of [load_config] reads it
    as a code: unless a configuration file sets
    [audio.sample_format], the configuration that [load_config] returns
    holds [pyaudio.paInt8].  Files that are absent, cannot be read, or
    say nothing about that key all lead there. *)
Theorem load_config_default_sample_format :
  forall (default_file user_file : ConfigManager.File) (t : Q),
    ConfigManager.says_nothing_about ["audio"; "sample_format"] default_file ->
    ConfigManager.says_nothing_about ["audio"; "sample_format"] user_file ->
    exists config : ConfigManager.Dict,
      res (ConfigManager.load_config default_file user_file tt t) = Returned config
      /\ ConfigManager.lookup_path ["audio"; "sample_format"]
           (ConfigManager.VDict ConfigManager.get_default_config) = Some (ConfigManager.VInt ConfigManager.paInt16)
      /\ ConfigManager.lookup_path ["audio"; "sample_format"] (ConfigManager.VDict config)
         = Some (ConfigManager.VInt ConfigManager.paInt8)
      /\ ConfigManager.paInt8 <> ConfigManager.paInt16.
Proof.
  intros default_file user_file t Hd Hu.
  unfold ConfigManager.load_config, bind.
  destruct (load_file_untouched "default" default_file ConfigManager.get_default_config
              _ tt t Hd) as (c1 & R1 & S1 & T1 & L1).
  destruct (ConfigManager.load_file "default" default_file ConfigManager.get_default_config tt t)
    as [x1 s1 t1 es1]; cbn [res st clk] in *. subst x1 s1 t1.
  destruct (load_file_untouched "user" user_file c1 _ tt t Hu)
    as (c2 & R2 & S2 & T2 & L2).
  destruct (ConfigManager.load_file "user" user_file c1 tt t)
    as [x2 s2 t2 es2]; cbn [res st clk] in *. subst x2 s2 t2.
  rewrite L1 in L2.
  destruct (convert_loaded_int c2 ConfigManager.paInt16 tt t L2) as (c3 & E3 & L3).
  rewrite E3. exists c3. cbn [res].
  repeat split; [exact L3 | discriminate].
Qed.

Lemma load_config_default_sample_format_witness :
  exists config : ConfigManager.Dict,
    res (ConfigManager.load_config ConfigManager.Absent
           (ConfigManager.Holds [("audio", ConfigManager.VDict [("threshold", ConfigManager.VInt 800)])])
           tt 0%Q) = Returned config
    /\ ConfigManager.lookup_path ["audio"; "sample_format"] (ConfigManager.VDict config)
       = Some (ConfigManager.VInt ConfigManager.paInt8).
Proof.
  destruct (load_config_default_sample_format ConfigManager.Absent
              (ConfigManager.Holds [("audio", ConfigManager.VDict [("threshold", ConfigManager.VInt 800)])])
              0%Q) as (config & R & _ & L & _).
  - exact I.
  - cbn. repeat split; repeat constructor; cbn; tauto.
  - exists config. split; assumption.
Defined.

(** With the file that [create_default_config_file] writes -- the
    defaults, the sample format stored as its code -- the sample format
    is [pyaudio.paInt16]. *)
Example load_config_with_default_file :
  exists saved config : ConfigManager.Dict,
    ConfigManager._create_saveable_config ConfigManager.get_default_config = Returned saved
    /\ res (ConfigManager.load_config (ConfigManager.Holds saved) ConfigManager.Absent tt 0%Q)
       = Returned config
    /\ ConfigManager.lookup_path ["audio"; "sample_format"] (ConfigManager.VDict config)
       = Some (ConfigManager.VInt ConfigManager.paInt16)
    /\ ConfigManager.core_config config = Some default_config.
Proof. do 2 eexists. repeat split. Qed.

Lemma load_file_keeps_audio :
  forall {S} (what : string) (f : ConfigManager.File) (config : ConfigManager.Dict) (a : ConfigManager.Dict)
         (s : S) (t : Q),
    ConfigManager.keeps_audio_section f ->
    ConfigManager.dict_get "audio" config = Some (ConfigManager.VDict a) ->
    exists config' a',
      ConfigManager.load_file what f config s t
      = mkRes (Returned config') s t
              (match f with
               | ConfigManager.Broken e =>
                   [Printed ("Error loading " ++ what ++ " config file: "
                               ++ e)]
               | _ => []
               end)
      /\ ConfigManager.dict_get "audio" config' = Some (ConfigManager.VDict a').
Proof.
  intros S what f config a s t Hf Ha.
  destruct f as [|e|d]; cbn in *.
  - exists config, a. split; [reflexivity | exact Ha].
  - exists config, a. split; [reflexivity | exact Ha].
  - destruct Hf as [Hnd Haudio].
    exists (ConfigManager._merge_configs config d).
    rewrite (merge_configs_get d config "audio" Hnd), Ha.
    destruct (ConfigManager.dict_get "audio" d) as [[]|]; try contradiction;
      eexists; split; reflexivity.
Qed.

Lemma convert_loaded_section :
  forall {S} (config a : ConfigManager.Dict) (s : S) (t : Q),
    ConfigManager.dict_get "audio" config = Some (ConfigManager.VDict a) ->
    exists config' a',
      ConfigManager.convert_loaded config s t = mkRes (Returned config') s t []
      /\ ConfigManager.dict_get "audio" config' = Some (ConfigManager.VDict a')
      /\ (forall k, k <> "audio" ->
                    ConfigManager.dict_get k config' = ConfigManager.dict_get k config).
Proof.
  intros S config a s t Ha. unfold ConfigManager.convert_loaded. rewrite Ha.
  cbn [ConfigManager.contains ConfigManager.subscript].
  destruct (ConfigManager.dict_get "sample_format" a) as [v|].
  - destruct (ConfigManager.as_int v).
    + do 2 eexists. split; [reflexivity|]. split.
      * apply dict_get_set_same.
      * intros k Hk. now apply dict_get_set_other.
    + exists config, a. repeat split. exact Ha.
  - exists config, a. repeat split. exact Ha.
Qed.

(** X17.  [load_config] returns a configuration and only prints a line for
    each file that cannot be opened or parsed, as long as no file that
    loads puts something other than a section under [audio]; the
    configuration it returns then has an audio section.  A file that
    loads with a number under [audio] makes [load_config] raise, whatever
    the other file holds: the test for the sample format is outside the
    [try]. *)
Theorem load_config_raises_only_on_audio :
  (forall (default_file user_file : ConfigManager.File) (t : Q),
      ConfigManager.keeps_audio_section default_file ->
      ConfigManager.keeps_audio_section user_file ->
      exists config a : ConfigManager.Dict,
        res (ConfigManager.load_config default_file user_file tt t) = Returned config
        /\ ConfigManager.dict_get "audio" config = Some (ConfigManager.VDict a)
        /\ evs (ConfigManager.load_config default_file user_file tt t)
           = (match default_file with
              | ConfigManager.Broken e =>
                  [Printed ("Error loading default config file: " ++ e)]
              | _ => []
              end
              ++ match user_file with
                 | ConfigManager.Broken e =>
                     [Printed ("Error loading user config file: " ++ e)]
                 | _ => []
                 end)%list)
  /\ (forall (default_file : ConfigManager.File) (d : ConfigManager.Dict) (n : Z) (t : Q),
        NoDup (map fst d) ->
        ConfigManager.dict_get "audio" d = Some (ConfigManager.VInt n) ->
        res (ConfigManager.load_config default_file (ConfigManager.Holds d) tt t)
        = Raised "argument of type 'int' is not iterable").
Proof.
  split.
  - intros default_file user_file t Hd Hu.
    unfold ConfigManager.load_config, bind.
    destruct (load_file_keeps_audio "default" default_file
                ConfigManager.get_default_config _ tt t Hd eq_refl)
      as (c1 & a1 & E1 & A1).
    rewrite E1.
    destruct (load_file_keeps_audio "user" user_file c1 a1 tt t Hu A1)
      as (c2 & a2 & E2 & A2).
    rewrite E2.
    destruct (convert_loaded_section c2 a2 tt t A2) as (c3 & a3 & E3 & A3 & _).
    rewrite E3. exists c3, a3. cbn [res evs].
    rewrite app_nil_r. repeat split; assumption.
  - intros default_file d n t Hnd Ha.
    unfold ConfigManager.load_config, bind.
    destruct (ConfigManager.load_file "default" default_file ConfigManager.get_default_config tt t)
      as [[c1|e1] s1 t1 es1] eqn:E1.
    + cbn [ConfigManager.load_file]. unfold ret at 1.
      unfold ConfigManager.convert_loaded.
      rewrite (merge_configs_get d c1 "audio" Hnd), Ha.
      assert (Hsome : match ConfigManager.dict_get "audio" c1 with
                      | Some (ConfigManager.VDict _) | _ => Some (ConfigManager.VInt n)
                      end = Some (ConfigManager.VInt n))
        by (destruct (ConfigManager.dict_get "audio" c1) as [[]|]; reflexivity).
      rewrite Hsome. reflexivity.
    + destruct default_file; discriminate.
Qed.

Lemma load_config_raises_only_on_audio_witness :
  res (ConfigManager.load_config ConfigManager.Absent (ConfigManager.Holds [("audio", ConfigManager.VInt 5)]) tt 0%Q)
  = Raised "argument of type 'int' is not iterable".
Proof.
  apply (proj2 load_config_raises_only_on_audio ConfigManager.Absent
           [("audio", ConfigManager.VInt 5)] 5 0%Q).
  - repeat constructor. cbn. tauto.
  - reflexivity.
Defined.

(** ** [_update_config] and the command line *)

Lemma dict_update_get :
  forall (vs d : ConfigManager.Dict) (k : string),
    NoDup (map fst vs) ->
    ConfigManager.dict_get k (ConfigManager.dict_update d vs)
    = match ConfigManager.dict_get k vs with
      | Some v => Some v
      | None => ConfigManager.dict_get k d
      end.
Proof.
  unfold ConfigManager.dict_update.
  induction vs as [|[k1 v1] rest IH]; intros d k Hnd; [reflexivity|].
  inversion Hnd as [|? ? Hnotin Hnd']; subst.
  cbn [fold_left fst snd ConfigManager.dict_get]. rewrite (IH _ k Hnd').
  destruct (String.eqb_spec k k1) as [->|Hne].
  - rewrite (dict_get_not_in k1 rest Hnotin). apply dict_get_set_same.
  - rewrite dict_get_set_other by assumption. reflexivity.
Qed.

(** [_update_config] given a dict for a section that is a dict. *)
Lemma update_config_section :
  forall (self_config d vs : ConfigManager.Dict) (section : string) (t : Q),
    ConfigManager.dict_get section self_config = Some (ConfigManager.VDict d) ->
    NoDup (map fst vs) ->
    let r := ConfigManager._update_config [(section, ConfigManager.VDict vs)] self_config t in
    res r = Returned tt
    /\ (forall k : string,
          ConfigManager.lookup_path [section; k] (ConfigManager.VDict (st r))
          = match ConfigManager.dict_get k vs with
            | Some v => Some v
            | None => ConfigManager.dict_get k d
            end)
    /\ (forall other : string,
          other <> section ->
          ConfigManager.dict_get other (st r) = ConfigManager.dict_get other self_config).
Proof.
  intros self_config d vs section t Hs Hnd r; subst r.
  cbn [ConfigManager._update_config]. unfold_prog. cbv beta iota. rewrite Hs.
  cbn [res st]. split; [reflexivity|]. split.
  - intros k. cbn [ConfigManager.lookup_path]. rewrite dict_get_set_same.
    rewrite dict_update_get by assumption.
    destruct (ConfigManager.dict_get k vs); [reflexivity|].
    destruct (ConfigManager.dict_get k d); reflexivity.
  - intros other Hne. now apply dict_get_set_other.
Qed.

Lemma dict_get_in :
  forall (k : string) (v : ConfigManager.Value) (d : ConfigManager.Dict),
    ConfigManager.dict_get k d = Some v -> In (k, v) d.
Proof.
  intros k v d. induction d as [|[k' v'] d IH]; cbn; [discriminate|].
  destruct (String.eqb_spec k k') as [->|Hne].
  - intros [= ->]. now left.
  - intros H. right. now apply IH.
Qed.

(** One iteration of the loop of [_update_config]. *)
Lemma update_config_cons :
  forall (section : string) (values : ConfigManager.Value)
         (rest self_config : ConfigManager.Dict) (t : Q),
    ConfigManager._update_config ((section, values) :: rest) self_config t
    = match ConfigManager.updated_section
              (ConfigManager.dict_get section self_config) values with
      | Some w =>
          ConfigManager._update_config rest
            (ConfigManager.dict_set section w self_config) t
      | None =>
          mkRes (Raised ("'" ++ match ConfigManager.dict_get section
                                        self_config with
                                | Some held => ConfigManager.type_name_of held
                                | None => ""
                                end
                             ++ "' object has no attribute 'update'"))
                self_config t []
      end.
Proof.
  intros section values rest self_config t.
  cbn [ConfigManager._update_config]. unfold_prog. cbv beta iota.
  unfold ConfigManager.updated_section.
  destruct (ConfigManager.dict_get section self_config) as [held|];
    [destruct held|]; destruct values; cbn [res st clk evs];
    try reflexivity;
    destruct (ConfigManager._update_config rest _ t); reflexivity.
Qed.

Lemma can_update_set :
  forall (section : string) (w : ConfigManager.Value)
         (self_config rest : ConfigManager.Dict),
    ~ In section (map fst rest) ->
    ConfigManager.can_update self_config rest ->
    ConfigManager.can_update (ConfigManager.dict_set section w self_config)
      rest.
Proof.
  intros section w self_config rest Hnotin Hcan.
  unfold ConfigManager.can_update in *.
  induction rest as [|[k v] rest IH]; [constructor|].
  inversion Hcan as [|? ? Hk Hrest]; subst. cbn [map fst] in Hnotin.
  constructor.
  - cbn [fst snd] in *. rewrite dict_get_set_other; [exact Hk|].
    intros ->. apply Hnotin. now left.
  - apply IH; [|exact Hrest]. intros Hin. apply Hnotin. now right.
Qed.

(** [_update_config] given sections that can all be updated. *)
Lemma update_config_returns :
  forall (config self_config : ConfigManager.Dict) (t : Q),
    NoDup (map fst config) ->
    ConfigManager.can_update self_config config ->
    let r := ConfigManager._update_config config self_config t in
    res r = Returned tt
    /\ evs r = []
    /\ clk r = t
    /\ (forall section : string,
          ConfigManager.dict_get section (st r)
          = ConfigManager.after_update self_config config section).
Proof.
  induction config as [|[k v] rest IH]; intros self_config t Hnd Hcan;
    cbv zeta.
  - cbn. repeat split.
  - inversion Hnd as [|? ? Hnotin Hnd']; subst.
    inversion Hcan as [|? ? Hk Hrest]; subst. cbn [fst snd] in Hk.
    rewrite update_config_cons.
    destruct (ConfigManager.updated_section
                (ConfigManager.dict_get k self_config) v) as [w|] eqn:Ew;
      [|contradiction].
    destruct (IH (ConfigManager.dict_set k w self_config) t Hnd'
                (can_update_set k w self_config rest Hnotin Hrest))
      as (R & E & C & G).
    split; [exact R|]. split; [exact E|]. split; [exact C|].
    intros section. rewrite G. unfold ConfigManager.after_update.
    cbn [ConfigManager.dict_get].
    destruct (String.eqb_spec section k) as [->|Hne].
    + rewrite (dict_get_not_in k rest Hnotin), Ew.
      apply dict_get_set_same.
    + rewrite dict_get_set_other by assumption. reflexivity.
Qed.

(** [_update_config] given a section that cannot be updated, after
    sections that can. *)
Lemma update_config_raises :
  forall (before after self_config vs : ConfigManager.Dict)
         (section : string) (held : ConfigManager.Value) (t : Q),
    NoDup (map fst (before ++ (section, ConfigManager.VDict vs) :: after)%list) ->
    ConfigManager.can_update self_config before ->
    ConfigManager.dict_get section self_config = Some held ->
    ConfigManager.is_dict held = false ->
    let r := ConfigManager._update_config
               (before ++ (section, ConfigManager.VDict vs) :: after)%list
               self_config t in
    res r = Raised ("'" ++ ConfigManager.type_name_of held
                        ++ "' object has no attribute 'update'")
    /\ st r = st (ConfigManager._update_config before self_config t).
Proof.
  induction before as [|[k v] rest IH];
    intros after self_config vs section held t Hnd Hcan Hs Hd; cbv zeta.
  - rewrite app_nil_l, update_config_cons, Hs.
    destruct held; try discriminate; split; reflexivity.
  - rewrite <- app_comm_cons in *. cbn [map fst] in Hnd.
    inversion Hnd as [|? ? Hnotin Hnd']; subst.
    inversion Hcan as [|? ? Hk Hrest]; subst. cbn [fst snd] in Hk.
    rewrite !update_config_cons.
    destruct (ConfigManager.updated_section
                (ConfigManager.dict_get k self_config) v) as [w|] eqn:Ew;
      [|contradiction].
    assert (Hk_rest : ~ In k (map fst rest)).
    { intros Hin. apply Hnotin. rewrite map_app. apply in_or_app.
      now left. }
    assert (Hne : section <> k).
    { intros ->. apply Hnotin. rewrite map_app. apply in_or_app. right.
      now left. }
    apply IH.
    + exact Hnd'.
    + now apply can_update_set.
    + rewrite dict_get_set_other by assumption. exact Hs.
    + exact Hd.
Qed.

(** X18.  [_update_config] is shallow where [_merge_configs] is deep.  It
    goes through the sections it is given, in their order.  A section
    given as a dict where [self.config] holds a dict is updated key by
    key: a key that is given takes the given value whole -- also when the
    old and the given value are both dicts, so keys only the old one had
    are gone --, and the other keys of the section are kept.  A section
    that [self.config] does not have, or that is not given as a dict, is
    stored as given.  Sections that are not given are kept.  A section
    given as a dict where [self.config] holds something that is not a
    dict makes the method raise: the sections given before it have been
    updated by then and stay so, the sections given after it are not
    looked at. *)
Theorem update_config_is_shallow :
  (forall (config self_config : ConfigManager.Dict) (t : Q),
      NoDup (map fst config) ->
      ConfigManager.can_update self_config config ->
      let r := ConfigManager._update_config config self_config t in
      res r = Returned tt
      /\ (forall section : string,
            ConfigManager.dict_get section (st r)
            = match ConfigManager.dict_get section config with
              | Some values =>
                  match ConfigManager.dict_get section self_config, values
                  with
                  | Some (ConfigManager.VDict d), ConfigManager.VDict vs =>
                      Some (ConfigManager.VDict
                              (ConfigManager.dict_update d vs))
                  | _, _ => Some values
                  end
              | None => ConfigManager.dict_get section self_config
              end))
  /\ (forall (d vs : ConfigManager.Dict) (k : string),
        NoDup (map fst vs) ->
        ConfigManager.dict_get k (ConfigManager.dict_update d vs)
        = match ConfigManager.dict_get k vs with
          | Some v => Some v
          | None => ConfigManager.dict_get k d
          end)
  /\ (forall (before after self_config vs : ConfigManager.Dict)
             (section : string) (held : ConfigManager.Value) (t : Q),
        NoDup (map fst (before ++ (section, ConfigManager.VDict vs)
                               :: after)%list) ->
        ConfigManager.can_update self_config before ->
        ConfigManager.dict_get section self_config = Some held ->
        ConfigManager.is_dict held = false ->
        let r := ConfigManager._update_config
                   (before ++ (section, ConfigManager.VDict vs) :: after)%list
                   self_config t in
        res r = Raised ("'" ++ ConfigManager.type_name_of held
                            ++ "' object has no attribute 'update'")
        /\ st r = st (ConfigManager._update_config before self_config t)
        /\ (forall other : string,
              ConfigManager.dict_get other (st r)
              = ConfigManager.after_update self_config before other)
        /\ (before = [] -> st r = self_config)).
Proof.
  split; [|split].
  - intros config self_config t Hnd Hcan r.
    destruct (update_config_returns config self_config t Hnd Hcan)
      as (R & _ & _ & G).
    split; [exact R|]. intros section. fold r in G. rewrite G.
    unfold ConfigManager.after_update, ConfigManager.updated_section.
    destruct (ConfigManager.dict_get section config) as [values|] eqn:Ec;
      [|reflexivity].
    assert (Hok : ConfigManager.updated_section
                    (ConfigManager.dict_get section self_config) values
                  <> None).
    { apply dict_get_in in Ec. unfold ConfigManager.can_update in Hcan.
      rewrite Forall_forall in Hcan. exact (Hcan _ Ec). }
    unfold ConfigManager.updated_section in *.
    destruct (ConfigManager.dict_get section self_config) as [[]|];
      destruct values; try reflexivity; congruence.
  - intros d vs k Hnd. now apply dict_update_get.
  - intros before after self_config vs section held t Hnd Hcan Hs Hd r.
    destruct (update_config_raises before after self_config vs section held
                t Hnd Hcan Hs Hd) as (R & E).
    fold r in R, E.
    split; [exact R|]. split; [exact E|]. split.
    + intros other. rewrite E.
      apply update_config_returns; [|exact Hcan].
      rewrite map_app in Hnd. now apply NoDup_app_remove_r in Hnd.
    + intros ->. rewrite E. reflexivity.
Qed.

Lemma update_config_is_shallow_witness :
  let given := [("mqtt", ConfigManager.VDict [("port", ConfigManager.VInt 1884)]);
                ("audio", ConfigManager.VDict
                            [("threshold", ConfigManager.VInt 800)])] in
  let self_config := ConfigManager.dict_set "audio" (ConfigManager.VInt 5)
                       ConfigManager.get_default_config in
  let r := ConfigManager._update_config given self_config 0%Q in
  res r = Raised "'int' object has no attribute 'update'"
  /\ ConfigManager.lookup_path ["mqtt"; "port"] (ConfigManager.VDict (st r))
     = Some (ConfigManager.VInt 1884)
  /\ ConfigManager.lookup_path ["mqtt"; "port"]
       (ConfigManager.VDict self_config)
     = Some (ConfigManager.VInt 1883).
Proof.
  intros given self_config r.
  destruct (proj2 (proj2 update_config_is_shallow)
              [("mqtt", ConfigManager.VDict [("port", ConfigManager.VInt 1884)])]
              [] self_config [("threshold", ConfigManager.VInt 800)] "audio"
              (ConfigManager.VInt 5) 0%Q) as (R & E & _).
  - cbn. repeat constructor; cbn; intuition discriminate.
  - repeat constructor. cbn. discriminate.
  - reflexivity.
  - reflexivity.
  - split; [exact R|]. unfold r, given. split; [|reflexivity].
    etransitivity; [|exact (f_equal (fun c => ConfigManager.lookup_path
                                       ["mqtt"; "port"]
                                       (ConfigManager.VDict c)) E)].
    reflexivity.
Defined.

(** X19.  An option of the command line that is given as 0, or as the empty
    string, is dropped by [main()] like one that is not given: the
    monitor then starts with the same configuration, so a threshold of 0
    or a port 0 cannot be set from the command line. *)
Theorem cli_zero_is_not_given :
  forall (default_file user_file : ConfigManager.File) (b : option string)
         (p th : option Z),
    ConfigManager.cli_config (ConfigManager.mkArgs b p th)
    = ConfigManager.cli_config (ConfigManager.mkArgs (ConfigManager.if_str b) (ConfigManager.if_int p) (ConfigManager.if_int th))
    /\ ConfigManager.init_config default_file user_file
         (ConfigManager.cli_config (ConfigManager.mkArgs b p (Some 0)))
       = ConfigManager.init_config default_file user_file
           (ConfigManager.cli_config (ConfigManager.mkArgs b p None))
    /\ ConfigManager.init_config default_file user_file
         (ConfigManager.cli_config (ConfigManager.mkArgs b (Some 0) th))
       = ConfigManager.init_config default_file user_file
           (ConfigManager.cli_config (ConfigManager.mkArgs b None th))
    /\ ConfigManager.init_config default_file user_file
         (ConfigManager.cli_config (ConfigManager.mkArgs (Some "") p th))
       = ConfigManager.init_config default_file user_file
           (ConfigManager.cli_config (ConfigManager.mkArgs None p th)).
Proof.
  intros default_file user_file b p th.
  assert (Hs : forall x, ConfigManager.if_str (ConfigManager.if_str x) = ConfigManager.if_str x).
  { intros [s|]; cbn; [|reflexivity].
    destruct (String.eqb s "") eqn:E; cbn; now rewrite ?E. }
  assert (Hi : forall x, ConfigManager.if_int (ConfigManager.if_int x) = ConfigManager.if_int x).
  { intros [n|]; cbn; [|reflexivity].
    destruct (n =? 0) eqn:E; cbn; now rewrite ?E. }
  unfold ConfigManager.cli_config. cbn [ConfigManager.broker ConfigManager.port ConfigManager.threshold].
  rewrite Hs, !Hi. repeat split.
Qed.

(** X20.  A threshold given on the command line, other than 0, replaces the
    threshold of the loaded configuration and nothing else: the other
    keys of the audio section, and the other sections, are those that
    [load_config] returned. *)
Theorem cli_threshold_replaces_threshold :
  forall (default_file user_file : ConfigManager.File) (n : Z) (s0 : ConfigManager.Dict) (t : Q),
    n <> 0 ->
    ConfigManager.keeps_audio_section default_file ->
    ConfigManager.keeps_audio_section user_file ->
    let r := ConfigManager.init_config default_file user_file
               (ConfigManager.cli_config (ConfigManager.mkArgs None None (Some n))) s0 t in
    exists loaded : ConfigManager.Dict,
      res (ConfigManager.load_config default_file user_file s0 t) = Returned loaded
      /\ res r = Returned tt
      /\ ConfigManager.lookup_path ["audio"; "threshold"] (ConfigManager.VDict (st r))
         = Some (ConfigManager.VInt n)
      /\ (forall k : string,
            k <> "threshold" ->
            ConfigManager.lookup_path ["audio"; k] (ConfigManager.VDict (st r))
            = ConfigManager.lookup_path ["audio"; k] (ConfigManager.VDict loaded))
      /\ (forall section : string,
            section <> "audio" ->
            ConfigManager.dict_get section (st r) = ConfigManager.dict_get section loaded).
Proof.
  intros default_file user_file n s0 t Hn Hd Hu r; subst r.
  unfold ConfigManager.init_config, ConfigManager.cli_config. cbn [ConfigManager.broker ConfigManager.port ConfigManager.threshold
    ConfigManager.if_str ConfigManager.if_int].
  apply Z.eqb_neq in Hn. rewrite Hn. cbn [ConfigManager.dict_set].
  unfold ConfigManager.load_config, bind.
  destruct (load_file_keeps_audio "default" default_file
              ConfigManager.get_default_config _ s0 t Hd eq_refl)
    as (c1 & a1 & E1 & A1).
  rewrite E1.
  destruct (load_file_keeps_audio "user" user_file c1 a1 s0 t Hu A1)
    as (c2 & a2 & E2 & A2).
  rewrite E2.
  destruct (convert_loaded_section c2 a2 s0 t A2) as (c3 & a3 & E3 & A3 & _).
  rewrite E3. exists c3. cbn [res st]. split; [reflexivity|].
  unfold modify. cbv beta iota.
  destruct (update_config_section c3 a3 [("threshold", ConfigManager.VInt n)] "audio"
              t A3) as (R & Hk & Hother).
  { repeat constructor. cbn. tauto. }
  destruct (ConfigManager._update_config [("audio", ConfigManager.VDict [("threshold", ConfigManager.VInt n)])]
              c3 t) as [x c4 t4 es4]; cbn [res st] in *. subst x.
  split; [reflexivity|]. split; [exact (Hk "threshold")|]. split.
  - intros k Hne. rewrite (Hk k). cbn [ConfigManager.dict_get].
    destruct (String.eqb_spec k "threshold"); [contradiction|].
    cbn [ConfigManager.lookup_path]. rewrite A3.
    destruct (ConfigManager.dict_get k a3); reflexivity.
  - exact Hother.
Qed.

Lemma cli_threshold_replaces_threshold_witness :
  let r := ConfigManager.init_config ConfigManager.Absent ConfigManager.Absent
             (ConfigManager.cli_config (ConfigManager.mkArgs None None (Some 800))) [] 0%Q in
  ConfigManager.lookup_path ["audio"; "threshold"] (ConfigManager.VDict (st r))
  = Some (ConfigManager.VInt 800)
  /\ ConfigManager.lookup_path ["audio"; "check_interval"] (ConfigManager.VDict (st r))
     = Some (ConfigManager.VFloat (2 # 10)).
Proof.
  intros r. unfold r.
  destruct (cli_threshold_replaces_threshold ConfigManager.Absent ConfigManager.Absent 800 [] 0%Q)
    as (loaded & L & _ & Ht & Hk & _).
  - discriminate.
  - exact I.
  - exact I.
  - split; [exact Ht|].
    rewrite (Hk "check_interval") by discriminate.
    injection L as <-. reflexivity.
Defined.

(** * Identities, failed reads and outages *)

(** ** Forced reconnections and client identities *)

Lemma new_client_ids_app :
  forall a b, new_client_ids (a ++ b)
              = (new_client_ids a ++ new_client_ids b)%list.
Proof. intros; unfold new_client_ids; apply flat_map_app. Qed.

(** The clients that one iteration of the status loop creates. *)
Lemma status_check_new_clients :
  forall (i : ProbeInput) (s : Client.StatusThread) (t : Q),
    let n := Client.disconnected_count (st (Client.probe i s t)) in
    let r := Client.status_check i s t in
    new_client_ids (evs r)
    = (if n =? 5
       then [Paho.client_id (Client.mqtt_client (Client.self (st r)))]
       else []).
Proof.
  intros i s t n r; subst n r.
  destruct s as [c n].
  destruct c as [cfg conn rec att err cb sent lt lm run pc].
  destruct pc as [cid cs w rd lr].
  destruct i as [rep pg dr cr fl sl].
  unfold Client.status_check, Client.probe, Client.update_status,
    Client.force_reconnection, Client.on_self, Client.paho_publish,
    Client.paho_loop_stop, Client.paho_loop_start, Client.paho_disconnect,
    Client.paho_connect_async, Client.incr_disconnected_count,
    Client.call_error_callback, time_sleep.
  unfold_prog.
  exec_t; bools_to_props; try lia; reflexivity.
Qed.

(** An identity that is a second old is not one made now or later. *)
Lemma identity_by_since :
  forall (configured : string) (now : Q) (old new : string),
    identity_by configured now old ->
    identity_since configured (now + 1) new ->
    new <> old.
Proof.
  intros configured now old new [->|(T0 & -> & H0)] (T & -> & H).
  - apply suffixed_neq.
  - intros E. apply append_inj_l in E. apply (append_inj_l "_") in E.
    apply str_int_inj in E.
    assert (Hlt : py_int T0 < py_int T) by (apply py_int_later; lra).
    lia.
Qed.

Lemma identity_by_later :
  forall (configured : string) (t t' : Q) (cid : string),
    (t <= t')%Q -> identity_by configured t cid ->
    identity_by configured t' cid.
Proof.
  intros configured t t' cid Hle [->|(T & -> & H)]; [now left|].
  right. exists T. split; [reflexivity | lra].
Qed.

Lemma identity_since_earlier :
  forall (configured : string) (t t' : Q) (cid : string),
    (t <= t')%Q -> identity_since configured t' cid ->
    identity_since configured t cid.
Proof.
  intros configured t t' cid Hle (T & -> & H).
  exists T. split; [reflexivity | lra].
Qed.

(** One iteration of the status loop and the identity of the client. *)
Lemma status_check_identity :
  forall (i : ProbeInput) (s : Client.StatusThread) (t : Q),
    let configured := mqtt_client_id (Client.config (Client.self s)) in
    let before := Paho.client_id (Client.mqtt_client (Client.self s)) in
    let r := Client.status_check i s t in
    let after := Paho.client_id (Client.mqtt_client (Client.self (st r))) in
    identity_by configured t before ->
    (t + 2 <= clk r)%Q
    /\ Client.config (Client.self (st r)) = Client.config (Client.self s)
    /\ Client.running (Client.self (st r)) = Client.running (Client.self s)
    /\ identity_by configured (clk r) after
    /\ ((new_client_ids (evs r) = [] /\ after = before)
        \/ (new_client_ids (evs r) = [after]
            /\ identity_since configured (t + 1) after
            /\ after <> before)).
Proof.
  intros i s t configured before r after Hid.
  destruct (status_check_effects i s t)
    as (_ & _ & _ & _ & Hne & H5 & Hcfg & Hrun & _).
  pose proof (status_check_new_clients i s t) as Hnew.
  cbv zeta in Hnew, Hne, H5. fold r in Hnew, Hne, H5, Hcfg, Hrun.
  pose proof (delay_nonneg (sleep_late i)) as Hsl.
  pose proof (delay_nonneg (fr_late i)) as Hfl.
  destruct (Z.eqb_spec
              (Client.disconnected_count (st (Client.probe i s t))) 5)
    as [E|E].
  - destruct (H5 E) as (Hcid & _ & Hclk). fold after configured in Hcid.
    assert (Hsince : identity_since configured (t + 1) after).
    { exists (t + 1 + delay_Q (fr_late i))%Q. split; [exact Hcid | lra]. }
    split; [rewrite Hclk; lra|]. split; [exact Hcfg|]. split; [exact Hrun|].
    split.
    + right. exists (t + 1 + delay_Q (fr_late i))%Q.
      split; [exact Hcid | rewrite Hclk; lra].
    + right. split; [exact Hnew|]. split; [exact Hsince|].
      now apply (identity_by_since configured t).
  - destruct (Hne E) as (Hsame & _ & Hclk).
    assert (Hafter : after = before) by (unfold after, before; congruence).
    split; [rewrite Hclk; lra|]. split; [exact Hcfg|]. split; [exact Hrun|].
    split.
    + rewrite Hafter. apply (identity_by_later configured t); [|exact Hid].
      rewrite Hclk. lra.
    + left. split; [exact Hnew | exact Hafter].
Qed.

(** The status loop over many iterations: every client it creates has an
    identity made of a later reading of the clock than all before. *)
Lemma status_check_loop_identities :
  forall (inputs : list ProbeInput) (s : Client.StatusThread) (t : Q),
    let configured := mqtt_client_id (Client.config (Client.self s)) in
    let before := Paho.client_id (Client.mqtt_client (Client.self s)) in
    let r := Client.status_check_loop inputs s t in
    identity_by configured t before ->
    Forall (identity_since configured (t + 1)) (new_client_ids (evs r))
    /\ NoDup (before :: new_client_ids (evs r)).
Proof.
  induction inputs as [|i rest IH]; intros s t configured before r Hid;
    subst r.
  - cbn. split; [constructor|]. repeat constructor. intros [].
  - cbn [Client.status_check_loop]. unfold bind, get. cbv beta iota.
    destruct (Client.running (Client.self s)).
    2:{ cbn. split; [constructor|]. repeat constructor. intros []. }
    destruct (status_check_identity i s t Hid)
      as (Hclk & Hcfg & _ & Hid1 & Hcase).
    fold configured before in Hclk, Hcfg, Hid1, Hcase.
    pose proof (IH (st (Client.status_check i s t))
                   (clk (Client.status_check i s t))) as IH1.
    cbv zeta in IH1. rewrite Hcfg in IH1. fold configured in IH1.
    specialize (IH1 Hid1). destruct IH1 as (Hall2 & Hnd2).
    destruct (Client.status_check i s t) as [[x|e] s1 t1 es1];
      cbn [res st evs clk] in *.
    + destruct (Client.status_check_loop rest s1 t1) as [y s2 t2 es2].
      cbn [res st evs clk] in *. rewrite app_nil_l, new_client_ids_app.
      assert (Hall2' : Forall (identity_since configured (t + 1))
                              (new_client_ids es2)).
      { eapply Forall_impl; [|exact Hall2]. intros cid.
        apply identity_since_earlier. lra. }
      destruct Hcase as [(Hnone & Hsame)|(Hone & Hsince & Hne)].
      * rewrite Hnone, app_nil_l. split; [exact Hall2'|].
        rewrite <- Hsame. exact Hnd2.
      * rewrite Hone. cbn [app]. split.
        -- constructor; [exact Hsince | exact Hall2'].
        -- constructor; [|exact Hnd2].
           intros [Heq|Hin]; [now apply Hne|].
           rewrite Forall_forall in Hall2.
           apply (identity_by_since configured t1 before
                    (Paho.client_id (Client.mqtt_client (Client.self s)))).
           ++ exact (identity_by_later configured t t1 before ltac:(lra) Hid).
           ++ fold before. fold before in Hin. exact (Hall2 _ Hin).
           ++ reflexivity.
    + rewrite app_nil_l.
      destruct Hcase as [(Hnone & Hsame)|(Hone & Hsince & Hne)].
      * rewrite Hnone. split; [constructor|]. repeat constructor. intros [].
      * rewrite Hone. split; [repeat constructor; exact Hsince|].
        repeat constructor; [|intros []].
        intros [Heq|[]]. now apply Hne.
Qed.

(** C4.  In the iteration of the status loop whose probe brings the count
    of consecutive failures to exactly 5 -- the fifth failure in a row --
    [force_reconnection] is called once: exactly one paho client is
    created, the count is 0 when the iteration ends, and the identity of
    the new client is the configured one followed by [_] and the whole
    seconds of the clock read after the one-second pause of
    [force_reconnection].  That identity differs from the configured one,
    and from the identity before whenever that one is the configured one
    or was made by a forced reconnection a second ago or longer; which is
    every identity the status thread meets, so that in a run of the
    thread, however long, no identity is used twice. *)
Theorem fifth_failure_forces_one_reconnection :
  (forall (i : ProbeInput) (s : Client.StatusThread) (t : Q),
      let c := Client.self s in
      let configured := mqtt_client_id (Client.config c) in
      let before := Paho.client_id (Client.mqtt_client c) in
      let n := Client.disconnected_count (st (Client.probe i s t)) in
      let r := Client.status_check i s t in
      let after := Paho.client_id (Client.mqtt_client (Client.self (st r))) in
      (Client.disconnected_count s = 4 -> probe_fails i = true -> n = 5)
      /\ (n = 5 ->
          res r = Returned tt
          /\ forced_reconnections (evs r) = 1%nat
          /\ new_client_ids (evs r) = [after]
          /\ Client.disconnected_count (st r) = 0
          /\ after = configured ++ "_"
                       ++ str_int (py_int (t + 1 + delay_Q (fr_late i)))
          /\ after <> configured
          /\ (identity_by configured t before -> after <> before)))
  /\ (forall (inputs : list ProbeInput) (s : Client.StatusThread) (t : Q),
        let c := Client.self s in
        let before := Paho.client_id (Client.mqtt_client c) in
        identity_by (mqtt_client_id (Client.config c)) t before ->
        NoDup (before
                 :: new_client_ids
                      (evs (Client.status_check_loop inputs s t))))
  /\ (forall (inputs : list ProbeInput) (cfg : Config) (callback : bool)
             (t : Q),
        NoDup (mqtt_client_id cfg
                 :: new_client_ids
                      (evs (Client.start_status_check inputs
                              (Client.init cfg callback) t)))).
Proof.
  split; [|split].
  - intros i s t c configured before n r after. split.
    + intros H4 Hf. unfold n.
      rewrite (proj1 (status_check_failing i s t Hf)). lia.
    + intros Hn.
      destruct (status_check_effects i s t)
        as (Hres & Hc & Hfr & _ & _ & H5 & _).
      pose proof (status_check_new_clients i s t) as Hnew.
      cbv zeta in Hc, Hfr, H5, Hnew.
      fold n r in Hc, Hfr, H5, Hnew. fold r in Hres.
      rewrite Hn in Hc, Hfr, Hnew. cbn in Hc, Hfr, Hnew.
      destruct (H5 Hn) as (Hcid & _). fold after configured c in Hcid.
      split; [exact Hres|]. split; [exact Hfr|]. split; [exact Hnew|].
      split; [exact Hc|]. split; [exact Hcid|]. split.
      * rewrite Hcid. apply suffixed_neq.
      * intros Hid.
        apply (identity_by_since configured t); [exact Hid|].
        exists (t + 1 + delay_Q (fr_late i))%Q. split; [exact Hcid|].
        pose proof (delay_nonneg (fr_late i)). lra.
  - intros inputs s t c before Hid.
    now apply status_check_loop_identities.
  - intros inputs cfg callback t.
    unfold Client.start_status_check, Client._status_check_thread.
    unfold bind, modify. cbv beta iota.
    pose proof (status_check_loop_identities inputs
                  (Client.mkStatus
                     (Client.set_running true (Client.init cfg callback)) 0)
                  t) as H.
    cbv zeta in H.
    destruct (Client.status_check_loop inputs _ t) as [x s1 t1 es1].
    cbn [evs app] in *. apply H. now left.
Qed.

Lemma fifth_failure_forces_one_reconnection_witness :
  let s := Client.mkStatus
             (Client.set_running true (Client.init default_config true)) 4 in
  let down := mkProbe false (PubRc 0) None None (0%N, 1%positive)
                      (0%N, 1%positive) in
  let r := Client.status_check down s (1700000000 # 1) in
  forced_reconnections (evs r) = 1%nat
  /\ Client.disconnected_count (st r) = 0
  /\ Paho.client_id (Client.mqtt_client (Client.self (st r)))
     = "mic_monitor_1700000001"
  /\ Paho.client_id (Client.mqtt_client (Client.self (st r)))
     <> "mic_monitor".
Proof.
  intros s down r.
  destruct (proj1 fifth_failure_forces_one_reconnection down s
              (1700000000 # 1)) as (Hn & H).
  destruct (H (Hn eq_refl eq_refl))
    as (_ & Hfr & _ & Hc & Hcid & Hne & _).
  split; [exact Hfr|]. split; [exact Hc|]. split; [exact Hcid | exact Hne].
Defined.

(** ** A stream that cannot be read *)









(** ** While the broker is away *)

Lemma monitoring_tick_disconnected :
  forall (i : TickInput) (m : Processor.MicrophoneMonitor) (t : Q),
    Client.mqtt_connected (Processor.mqtt_client m) = false ->
    let r := Processor.monitoring_tick i m t in
    res r = Returned tt
    /\ publishes (evs r) = []
    /\ Processor.left_last_state (st r) = Processor.left_last_state m
    /\ Processor.right_last_state (st r) = Processor.right_last_state m
    /\ Client.mqtt_connected (Processor.mqtt_client (st r)) = false
    /\ Client.mqtt_client (Processor.mqtt_client (st r))
       = Client.mqtt_client (Processor.mqtt_client m)
    /\ Processor.config (st r) = Processor.config m.
Proof.
  intros i m t Hconn r; subst r.
  destruct (read_levels_effects (left_read i) (right_read i)
              (Processor.mic_manager m) t) as (ll & rl & es & Hrd & _).
  assert (Hread : res (Microphone.read_levels (left_read i) (right_read i)
                         (Processor.mic_manager m) t) = Returned (ll, rl))
    by (rewrite Hrd; reflexivity).
  destruct (monitoring_tick_effects i m t ll rl Hread)
    as (Hres & Hpub & Hl & Hr & _ & _ & _ & _ & _ & _ & _ & Hcfg & _ & Hc
        & Hp & _).
  rewrite Hconn in Hpub, Hl, Hr, Hc. cbn [andb app] in Hpub, Hl, Hr.
  repeat split; assumption.
Qed.

Lemma monitoring_thread_disconnected :
  forall (inputs : list TickInput) (m : Processor.MicrophoneMonitor) (t : Q),
    Client.mqtt_connected (Processor.mqtt_client m) = false ->
    let r := Processor.monitoring_thread inputs m t in
    res r = Returned tt
    /\ publishes (evs r) = []
    /\ Processor.left_last_state (st r) = Processor.left_last_state m
    /\ Processor.right_last_state (st r) = Processor.right_last_state m
    /\ Client.mqtt_connected (Processor.mqtt_client (st r)) = false
    /\ Client.mqtt_client (Processor.mqtt_client (st r))
       = Client.mqtt_client (Processor.mqtt_client m)
    /\ Processor.config (st r) = Processor.config m.
Proof.
  induction inputs as [|i rest IH]; intros m t Hconn; cbv zeta.
  - cbn. repeat split; auto.
  - cbn [Processor.monitoring_thread]. unfold bind, get. cbv beta iota.
    destruct (Processor.running m); [|cbn; repeat split; auto].
    destruct (monitoring_tick_disconnected i m t Hconn)
      as (Hres & Hpub & Hl & Hr & Hc & Hp & Hcfg).
    destruct (Processor.monitoring_tick i m t) as [x m1 t1 es1].
    cbn [res st evs] in *. subst x.
    specialize (IH m1 t1 Hc). cbv zeta in IH.
    destruct (Processor.monitoring_thread rest m1 t1) as [y m2 t2 es2].
    cbn [res st evs] in *.
    destruct IH as (Hres2 & Hpub2 & Hl2 & Hr2 & Hc2 & Hp2 & Hcfg2).
    rewrite app_nil_l, publishes_app, Hpub, Hpub2.
    repeat split; congruence.
Qed.

Lemma tui_monitoring_tick_disconnected :
  forall (i : TickInput) (m : Tui.MicrophoneMonitorTUI) (t : Q),
    Tui.mqtt_connected m = false ->
    let r := Tui.monitoring_tick i m t in
    res r = Returned tt
    /\ publishes (evs r) = []
    /\ Tui.left_last_state (st r) = Tui.left_last_state m
    /\ Tui.right_last_state (st r) = Tui.right_last_state m
    /\ Tui.mqtt_connected (st r) = false.
Proof.
  intros i m t Hconn r; subst r.
  destruct (tui_monitoring_tick_effects i m t)
    as (Hres & _ & _ & Hpub & Hl & Hr & _ & _ & _ & _ & _ & Hc & _).
  rewrite Hconn in Hpub, Hl, Hr, Hc. cbn [andb app] in Hpub, Hl, Hr.
  repeat split; assumption.
Qed.

(** The monitor after the broker has acknowledged a connection. *)
Lemma connack_on_monitor :
  forall (reason_code : ReasonCode) (o : PubOutcome)
         (m : Processor.MicrophoneMonitor) (t : Q),
    rc_value reason_code = 0 ->
    let r := Processor.on_mqtt_client
               (Client.on_mqtt_connect reason_code o) m t in
    Client.mqtt_connected (Processor.mqtt_client (st r)) = true
    /\ Client.mqtt_client (Processor.mqtt_client (st r))
       = Client.mqtt_client (Processor.mqtt_client m)
    /\ Processor.left_last_state (st r) = Processor.left_last_state m
    /\ Processor.right_last_state (st r) = Processor.right_last_state m
    /\ Processor.config (st r) = Processor.config m
    /\ Processor.mic_manager (st r) = Processor.mic_manager m.
Proof.
  intros rc o m t Hrc r; subst r.
  rewrite on_mqtt_client_spec. cbn [st].
  set (r := Client.on_mqtt_connect rc o (Processor.mqtt_client m) t).
  destruct (after_callbacks_frame (evs r)
              (Processor.set_mqtt_client (st r) m))
    as (Hc & Hl & Hr & _ & Hcfg).
  rewrite Hc, Hl, Hr, Hcfg.
  assert (Hmic : Processor.mic_manager
                   (after_callbacks (evs r)
                      (Processor.set_mqtt_client (st r) m))
                 = Processor.mic_manager m).
  { unfold after_callbacks. destruct (last_error_callback (evs r));
      destruct m; reflexivity. }
  rewrite Hmic.
  assert (Hcl : Client.mqtt_connected (st r) = true
                /\ Client.mqtt_client (st r)
                   = Client.mqtt_client (Processor.mqtt_client m)).
  { subst r. destruct (Processor.mqtt_client m)
      as [cfg conn rec att err cb sent lt lm run pc].
    unfold Client.on_mqtt_connect, Client.paho_publish,
      Client.call_error_callback.
    rewrite Hrc. unfold_prog.
    destruct o as [x|e], cb; cbn; split; reflexivity. }
  destruct Hcl as [Hconn Hp].
  destruct m; cbn in *. repeat split; assumption.
Qed.

(** C9.  An iteration of the monitoring loop that finds [mqtt_connected]
    false calls paho's [publish] for neither channel and leaves
    [left_last_state] and [right_last_state] as they are; so do any number
    of such iterations, in processor.py and in main.py.  The last
    published states are therefore those from before the connection was
    lost when the broker acknowledges a new connection, and the first
    iteration after that decides against them: it publishes a channel
    exactly when the reading differs from the state last published before
    the connection was lost, or is 1.  A reading that differs from that
    state is published on that iteration. *)
Theorem disconnected_ticks_keep_last_state :
  (forall (i : TickInput) (m : Processor.MicrophoneMonitor) (t : Q),
      Client.mqtt_connected (Processor.mqtt_client m) = false ->
      let r := Processor.monitoring_tick i m t in
      res r = Returned tt
      /\ publishes (evs r) = []
      /\ Processor.left_last_state (st r) = Processor.left_last_state m
      /\ Processor.right_last_state (st r) = Processor.right_last_state m)
  /\ (forall (i : TickInput) (m : Tui.MicrophoneMonitorTUI) (t : Q),
        Tui.mqtt_connected m = false ->
        let r := Tui.monitoring_tick i m t in
        res r = Returned tt
        /\ publishes (evs r) = []
        /\ Tui.left_last_state (st r) = Tui.left_last_state m
        /\ Tui.right_last_state (st r) = Tui.right_last_state m)
  /\ (forall (inputs : list TickInput) (reason_code : ReasonCode)
             (o : PubOutcome) (i : TickInput)
             (m : Processor.MicrophoneMonitor) (t : Q) (ll rl : Q),
        Client.mqtt_connected (Processor.mqtt_client m) = false ->
        rc_value reason_code = 0 ->
        let away := Processor.monitoring_thread inputs m t in
        let back := Processor.on_mqtt_client
                      (Client.on_mqtt_connect reason_code o)
                      (st away) (clk away) in
        let r := Processor.monitoring_tick i (st back) (clk back) in
        res (Microphone.read_levels (left_read i) (right_read i)
               (Processor.mic_manager (st back)) (clk back))
        = Returned (ll, rl) ->
        let cfg := Processor.config m in
        let la := active_of ll (audio_threshold cfg) in
        let ra := active_of rl (audio_threshold cfg) in
        let cid := Paho.client_id
                     (Client.mqtt_client (Processor.mqtt_client m)) in
        let left := Publish cid (topic_left cfg) (MicJson la ll (clk back))
                            0 false (left_pub i) in
        let right := Publish cid (topic_right cfg) (MicJson ra rl (clk back))
                             0 false (right_pub i) in
        publishes (evs away) = []
        /\ Processor.left_last_state (st back) = Processor.left_last_state m
        /\ Processor.right_last_state (st back)
           = Processor.right_last_state m
        /\ publishes (evs r)
           = ((if should_publish la (Processor.left_last_state m)
               then [left] else [])
              ++ (if should_publish ra (Processor.right_last_state m)
                  then [right] else []))%list
        /\ (la <> Processor.left_last_state m -> In left (evs r))
        /\ (ra <> Processor.right_last_state m -> In right (evs r))).
Proof.
  split; [|split].
  - intros i m t Hconn r.
    destruct (monitoring_tick_disconnected i m t Hconn)
      as (Hres & Hpub & Hl & Hr & _).
    repeat split; assumption.
  - intros i m t Hconn r.
    destruct (tui_monitoring_tick_disconnected i m t Hconn)
      as (Hres & Hpub & Hl & Hr & _).
    repeat split; assumption.
  - intros inputs rc o i m t ll rl Hconn Hrc away back r Hread cfg la ra cid
      left right.
    destruct (monitoring_thread_disconnected inputs m t Hconn)
      as (_ & Hpub1 & Hl1 & Hr1 & _ & Hp1 & Hcfg1).
    fold away in Hpub1, Hl1, Hr1, Hp1, Hcfg1.
    destruct (connack_on_monitor rc o (st away) (clk away) Hrc)
      as (Hc2 & Hp2 & Hl2 & Hr2 & Hcfg2 & _).
    fold back in Hc2, Hp2, Hl2, Hr2, Hcfg2.
    destruct (monitoring_tick_effects i (st back) (clk back) ll rl Hread)
      as (_ & Hpub & _).
    fold r in Hpub.
    rewrite Hc2, Hp2, Hp1, Hl2, Hl1, Hr2, Hr1, Hcfg2, Hcfg1 in Hpub.
    cbn [andb] in Hpub. fold cfg la ra cid left right in Hpub.
    assert (Hin : forall e, In e (publishes (evs r)) -> In e (evs r)).
    { intros e He. unfold publishes in He. apply filter_In in He. tauto. }
    split; [exact Hpub1|].
    split; [congruence|]. split; [congruence|].
    split; [exact Hpub|]. split.
    + intros Hne. apply Hin. rewrite Hpub.
      assert (E : should_publish la (Processor.left_last_state m) = true)
        by (apply should_publish_iff; now left).
      rewrite E. now left.
    + intros Hne. apply Hin. rewrite Hpub.
      assert (E : should_publish ra (Processor.right_last_state m) = true)
        by (apply should_publish_iff; now left).
      rewrite E. apply in_or_app. right. now left.
Qed.

Lemma disconnected_ticks_keep_last_state_witness :
  let m := Processor.set_running true
             (Processor.init default_config true true) in
  let loud := mkTick (Level (600 # 1)) (Level 0) (PubRc 0) (PubRc 0)
                     (0%N, 1%positive) in
  let away := Processor.monitoring_thread [loud; loud] m 0%Q in
  let back := Processor.on_mqtt_client
                (Client.on_mqtt_connect (mkReasonCode 0 "Success") (PubRc 0))
                (st away) (clk away) in
  let r := Processor.monitoring_tick loud (st back) (clk back) in
  publishes (evs away) = []
  /\ Processor.left_last_state (st back) = 0
  /\ In (Publish "mic_monitor" "microphones/left"
           (MicJson 1 (600 # 1) (clk back)) 0 false (PubRc 0)) (evs r).
Proof.
  intros m loud away back r.
  destruct (proj2 (proj2 disconnected_ticks_keep_last_state)
              [loud; loud] (mkReasonCode 0 "Success") (PubRc 0) loud m 0%Q
              (600 # 1) 0%Q eq_refl eq_refl eq_refl)
    as (Hp & Hl & _ & _ & Hin & _).
  split; [exact Hp|]. split; [exact Hl|].
  apply Hin. discriminate.
Defined.
